(** * A2DP codec configuration: descriptors, registry, dispatch, offload

    A shallow embedding of [system/stack/a2dp/a2dp_codec_config.cc]:

    - [btav_a2dp_codec_config_t] and [A2dpCodecConfig] (one codec
      descriptor with its snapshots and wire buffers);
    - the capability dispatch layer ([A2DP_GetCodecType] and the
      [switch]-on-type-tag functions);
    - [A2dpCodecConfig::getCodecSpecificConfig], the offload encoder;
    - [A2dpCodecs], the registry, with its priority ordering and its
      selection / restart state machine.

    Integers are [Z]; a [uint8_t] buffer is a [list Z] read with stdpp's
    lookup and written with stdpp's insert.  A pointer to a descriptor
    owned by the registry is the key of that descriptor in
    [indexed_codecs_]; a null pointer is [None].

    The translation unit is read as it is built with the non-standard
    codecs (no [EXCLUDE_NONSTANDARD_CODECS]).  Logging and the recursive
    mutex are left out: every function here is one call running alone.

    Constants, types and functions that the translation unit takes from
    headers or from other translation units are fields of the classes
    below, so every statement holds for whatever they are. *)

From Stdlib Require Import ZArith Lia Bool Ascii String Sorted.
From stdpp Require Import base option list gmap.

Local Open Scope Z_scope.

(** ** Machine integers *)

Definition to_uint8 (x : Z) : Z := x mod 256.
Definition to_uint16 (x : Z) : Z := x mod 65536.
Definition to_uint32 (x : Z) : Z := x mod 4294967296.

(** Value of a 32-bit pattern read as the (int-based) priority enum. *)
Definition to_int32 (x : Z) : Z :=
  let u := to_uint32 x in if u <? 2147483648 then u else u - 4294967296.

(** [p[i]] for a byte buffer.  The C++ arrays have [AVDT_CODEC_SIZE]
    bytes; a read past the end of the list yields 0 here. *)
Definition byte_at (p : list Z) (i : nat) : Z := default 0 (p !! i).

(** ** Constants taken from headers *)

Class A2dpConstants := {
  AVDT_CODEC_TYPE_INDEX : nat;
  A2DP_MEDIA_CT_SBC : Z;
  A2DP_MEDIA_CT_AAC : Z;
  A2DP_MEDIA_CT_NON_A2DP : Z;
  BTAV_A2DP_CODEC_INDEX_MAX : Z;
  BTAV_A2DP_CODEC_PRIORITY_DEFAULT : Z;
  BTAV_A2DP_CODEC_SAMPLE_RATE_NONE : Z;
  BTAV_A2DP_CODEC_BITS_PER_SAMPLE_NONE : Z;
  BTAV_A2DP_CODEC_CHANNEL_MODE_NONE : Z
}.

(** ** Codec-family functions defined in other translation units
    ([a2dp_sbc.cc], [a2dp_aac.cc], [a2dp_vendor.cc]) *)

Class CodecFamilies := {
  A2DP_IsSourceCodecValidSbc : list Z -> bool;
  A2DP_IsSourceCodecValidAac : list Z -> bool;
  A2DP_IsVendorSourceCodecValid : list Z -> bool;
  A2DP_IsSinkCodecValidSbc : list Z -> bool;
  A2DP_IsSinkCodecValidAac : list Z -> bool;
  A2DP_IsVendorSinkCodecValid : list Z -> bool;
  A2DP_IsPeerSourceCodecValidSbc : list Z -> bool;
  A2DP_IsPeerSourceCodecValidAac : list Z -> bool;
  A2DP_IsVendorPeerSourceCodecValid : list Z -> bool;
  A2DP_IsPeerSinkCodecValidSbc : list Z -> bool;
  A2DP_IsPeerSinkCodecValidAac : list Z -> bool;
  A2DP_IsVendorPeerSinkCodecValid : list Z -> bool;
  A2DP_VendorUsesRtpHeader : bool -> list Z -> bool;
  A2DP_CodecNameSbc : list Z -> string;
  A2DP_CodecNameAac : list Z -> string;
  A2DP_VendorCodecName : list Z -> string;
  A2DP_CodecEqualsSbc : list Z -> list Z -> bool;
  A2DP_CodecEqualsAac : list Z -> list Z -> bool;
  A2DP_VendorCodecEquals : list Z -> list Z -> bool;
  A2DP_GetTrackSampleRateSbc : list Z -> Z;
  A2DP_GetTrackSampleRateAac : list Z -> Z;
  A2DP_VendorGetTrackSampleRate : list Z -> Z;
  A2DP_SourceCodecIndexSbc : list Z -> Z;
  A2DP_SourceCodecIndexAac : list Z -> Z;
  A2DP_VendorSourceCodecIndex : list Z -> Z;
  A2DP_SinkCodecIndexSbc : list Z -> Z;
  A2DP_SinkCodecIndexAac : list Z -> Z;
  A2DP_VendorSinkCodecIndex : list Z -> Z;
  A2DP_VendorCodecGetVendorId : list Z -> Z;
  A2DP_VendorCodecGetCodecId : list Z -> Z
}.

(** ** Data model *)

Record btav_a2dp_codec_config_t := {
  codec_type : Z;
  codec_priority : Z;
  sample_rate : Z;
  bits_per_sample : Z;
  channel_mode : Z;
  codec_specific_1 : Z;
  codec_specific_2 : Z;
  codec_specific_3 : Z;
  codec_specific_4 : Z
}.

Record A2dpCodecConfig := {
  codec_index_ : Z;
  name_ : string;
  default_codec_priority_ : Z;
  codec_priority_ : Z;
  codec_config_ : btav_a2dp_codec_config_t;
  codec_capability_ : btav_a2dp_codec_config_t;
  codec_local_capability_ : btav_a2dp_codec_config_t;
  codec_selectable_capability_ : btav_a2dp_codec_config_t;
  codec_user_config_ : btav_a2dp_codec_config_t;
  codec_audio_config_ : btav_a2dp_codec_config_t;
  ota_codec_config_ : list Z;
  ota_codec_peer_capability_ : list Z;
  ota_codec_peer_config_ : list Z
}.

(** What a call hands back: the value it returns, the object it was
    called on as the call leaves it, and its out-parameters. *)
Record Outcome (S : Type) := {
  returned : bool;
  state : S;
  result_codec_config : list Z;
  restart_input : bool;
  restart_output : bool;
  config_updated : bool
}.
Arguments returned {S} _.
Arguments state {S} _.
Arguments result_codec_config {S} _.
Arguments restart_input {S} _.
Arguments restart_output {S} _.
Arguments config_updated {S} _.

(** Field assignments. *)

Definition set_codec_config_priority (c : btav_a2dp_codec_config_t) (p : Z)
  : btav_a2dp_codec_config_t :=
  {| codec_type := codec_type c; codec_priority := p;
     sample_rate := sample_rate c; bits_per_sample := bits_per_sample c;
     channel_mode := channel_mode c;
     codec_specific_1 := codec_specific_1 c;
     codec_specific_2 := codec_specific_2 c;
     codec_specific_3 := codec_specific_3 c;
     codec_specific_4 := codec_specific_4 c |}.

Definition set_codec_priority_ (d : A2dpCodecConfig) (p : Z) : A2dpCodecConfig :=
  {| codec_index_ := codec_index_ d; name_ := name_ d;
     default_codec_priority_ := default_codec_priority_ d;
     codec_priority_ := p;
     codec_config_ := codec_config_ d;
     codec_capability_ := codec_capability_ d;
     codec_local_capability_ := codec_local_capability_ d;
     codec_selectable_capability_ := codec_selectable_capability_ d;
     codec_user_config_ := codec_user_config_ d;
     codec_audio_config_ := codec_audio_config_ d;
     ota_codec_config_ := ota_codec_config_ d;
     ota_codec_peer_capability_ := ota_codec_peer_capability_ d;
     ota_codec_peer_config_ := ota_codec_peer_config_ d |}.

Definition set_codec_config_ (d : A2dpCodecConfig) (c : btav_a2dp_codec_config_t)
  : A2dpCodecConfig :=
  {| codec_index_ := codec_index_ d; name_ := name_ d;
     default_codec_priority_ := default_codec_priority_ d;
     codec_priority_ := codec_priority_ d;
     codec_config_ := c;
     codec_capability_ := codec_capability_ d;
     codec_local_capability_ := codec_local_capability_ d;
     codec_selectable_capability_ := codec_selectable_capability_ d;
     codec_user_config_ := codec_user_config_ d;
     codec_audio_config_ := codec_audio_config_ d;
     ota_codec_config_ := ota_codec_config_ d;
     ota_codec_peer_capability_ := ota_codec_peer_capability_ d;
     ota_codec_peer_config_ := ota_codec_peer_config_ d |}.

Definition set_codec_user_config_ (d : A2dpCodecConfig) (c : btav_a2dp_codec_config_t)
  : A2dpCodecConfig :=
  {| codec_index_ := codec_index_ d; name_ := name_ d;
     default_codec_priority_ := default_codec_priority_ d;
     codec_priority_ := codec_priority_ d;
     codec_config_ := codec_config_ d;
     codec_capability_ := codec_capability_ d;
     codec_local_capability_ := codec_local_capability_ d;
     codec_selectable_capability_ := codec_selectable_capability_ d;
     codec_user_config_ := c;
     codec_audio_config_ := codec_audio_config_ d;
     ota_codec_config_ := ota_codec_config_ d;
     ota_codec_peer_capability_ := ota_codec_peer_capability_ d;
     ota_codec_peer_config_ := ota_codec_peer_config_ d |}.

Definition set_codec_audio_config_ (d : A2dpCodecConfig) (c : btav_a2dp_codec_config_t)
  : A2dpCodecConfig :=
  {| codec_index_ := codec_index_ d; name_ := name_ d;
     default_codec_priority_ := default_codec_priority_ d;
     codec_priority_ := codec_priority_ d;
     codec_config_ := codec_config_ d;
     codec_capability_ := codec_capability_ d;
     codec_local_capability_ := codec_local_capability_ d;
     codec_selectable_capability_ := codec_selectable_capability_ d;
     codec_user_config_ := codec_user_config_ d;
     codec_audio_config_ := c;
     ota_codec_config_ := ota_codec_config_ d;
     ota_codec_peer_capability_ := ota_codec_peer_capability_ d;
     ota_codec_peer_config_ := ota_codec_peer_config_ d |}.

(** The virtual [A2dpCodecConfig::setCodecConfig], implemented by each codec
    class in its own translation unit.  It reads and writes the descriptor
    and the caller's result buffer, and returns whether it succeeded. *)
Class CodecNegotiation := {
  tA2DP_ENCODER_INIT_PEER_PARAMS : Type;
  setCodecConfig :
    A2dpCodecConfig -> list Z -> bool -> list Z ->
    bool * A2dpCodecConfig * list Z
}.

Section Descriptor.
Context `{K : A2dpConstants} `{F : CodecFamilies} `{N : CodecNegotiation}.

(** [init_btav_a2dp_codec_config]: memset to zero, then type and priority. *)
Definition init_btav_a2dp_codec_config (codec_index codec_priority : Z)
  : btav_a2dp_codec_config_t :=
  {| codec_type := codec_index; codec_priority := codec_priority;
     sample_rate := 0; bits_per_sample := 0; channel_mode := 0;
     codec_specific_1 := 0; codec_specific_2 := 0;
     codec_specific_3 := 0; codec_specific_4 := 0 |}.

Definition codecPriority (d : A2dpCodecConfig) : Z := codec_priority_ d.
Definition codecIndex (d : A2dpCodecConfig) : Z := codec_index_ d.

(** [A2dpCodecConfig::setDefaultCodecPriority] *)
Definition setDefaultCodecPriority (d : A2dpCodecConfig) : A2dpCodecConfig :=
  let d1 :=
    if negb (default_codec_priority_ d =? BTAV_A2DP_CODEC_PRIORITY_DEFAULT)
    then set_codec_priority_ d (default_codec_priority_ d)
    else
      let priority := to_uint32 (1000 * (codec_index_ d + 1) + 1) in
      set_codec_priority_ d (to_int32 priority) in
  set_codec_config_ d1
    (set_codec_config_priority (codec_config_ d1) (codec_priority_ d1)).

(** [A2dpCodecConfig::setCodecPriority] *)
Definition setCodecPriority (d : A2dpCodecConfig) (codec_priority : Z)
  : A2dpCodecConfig :=
  let d1 :=
    if codec_priority =? BTAV_A2DP_CODEC_PRIORITY_DEFAULT
    then setDefaultCodecPriority d
    else set_codec_priority_ d codec_priority in
  set_codec_config_ d1
    (set_codec_config_priority (codec_config_ d1) (codec_priority_ d1)).

(** The constructor [A2dpCodecConfig::A2dpCodecConfig]. *)
Definition new_A2dpCodecConfig (codec_index : Z) (name : string)
           (codec_priority : Z) : A2dpCodecConfig :=
  let d0 :=
    {| codec_index_ := codec_index; name_ := name;
       default_codec_priority_ := codec_priority;
       codec_priority_ := 0;
       codec_config_ := init_btav_a2dp_codec_config 0 0;
       codec_capability_ := init_btav_a2dp_codec_config 0 0;
       codec_local_capability_ := init_btav_a2dp_codec_config 0 0;
       codec_selectable_capability_ := init_btav_a2dp_codec_config 0 0;
       codec_user_config_ := init_btav_a2dp_codec_config 0 0;
       codec_audio_config_ := init_btav_a2dp_codec_config 0 0;
       ota_codec_config_ := []; ota_codec_peer_capability_ := [];
       ota_codec_peer_config_ := [] |} in
  let d1 := setCodecPriority d0 codec_priority in
  let p := codecPriority d1 in
  {| codec_index_ := codec_index; name_ := name;
     default_codec_priority_ := codec_priority;
     codec_priority_ := p;
     codec_config_ := init_btav_a2dp_codec_config codec_index p;
     codec_capability_ := init_btav_a2dp_codec_config codec_index p;
     codec_local_capability_ := init_btav_a2dp_codec_config codec_index p;
     codec_selectable_capability_ := init_btav_a2dp_codec_config codec_index p;
     codec_user_config_ :=
       init_btav_a2dp_codec_config codec_index BTAV_A2DP_CODEC_PRIORITY_DEFAULT;
     codec_audio_config_ :=
       init_btav_a2dp_codec_config codec_index BTAV_A2DP_CODEC_PRIORITY_DEFAULT;
     ota_codec_config_ := []; ota_codec_peer_capability_ := [];
     ota_codec_peer_config_ := [] |}.

Definition getCodecConfig (d : A2dpCodecConfig) := codec_config_ d.
Definition getCodecUserConfig (d : A2dpCodecConfig) := codec_user_config_ d.
Definition getCodecAudioConfig (d : A2dpCodecConfig) := codec_audio_config_ d.

(** [A2dpCodecConfig::isCodecConfigEmpty] *)
Definition isCodecConfigEmpty (codec_config : btav_a2dp_codec_config_t) : bool :=
  (codec_priority codec_config =? BTAV_A2DP_CODEC_PRIORITY_DEFAULT) &&
  (sample_rate codec_config =? BTAV_A2DP_CODEC_SAMPLE_RATE_NONE) &&
  (bits_per_sample codec_config =? BTAV_A2DP_CODEC_BITS_PER_SAMPLE_NONE) &&
  (channel_mode codec_config =? BTAV_A2DP_CODEC_CHANNEL_MODE_NONE) &&
  (codec_specific_1 codec_config =? 0) &&
  (codec_specific_2 codec_config =? 0) &&
  (codec_specific_3 codec_config =? 0) &&
  (codec_specific_4 codec_config =? 0).

(** [A2dpCodecConfig::codecConfigIsValid] *)
Definition codecConfigIsValid (codec_config : btav_a2dp_codec_config_t) : bool :=
  (codec_type codec_config <? BTAV_A2DP_CODEC_INDEX_MAX) &&
  negb (sample_rate codec_config =? BTAV_A2DP_CODEC_SAMPLE_RATE_NONE) &&
  negb (bits_per_sample codec_config =? BTAV_A2DP_CODEC_BITS_PER_SAMPLE_NONE) &&
  negb (channel_mode codec_config =? BTAV_A2DP_CODEC_CHANNEL_MODE_NONE).

(** *** Capability dispatch *)

Definition A2DP_GetCodecType (p_codec_info : list Z) : Z :=
  byte_at p_codec_info AVDT_CODEC_TYPE_INDEX.

(** A [switch (codec_type)] over the three case labels, with its default. *)
Definition switch_codec_type {A} (codec_type : Z) (sbc aac non_a2dp dflt : A) : A :=
  if codec_type =? A2DP_MEDIA_CT_SBC then sbc
  else if codec_type =? A2DP_MEDIA_CT_AAC then aac
  else if codec_type =? A2DP_MEDIA_CT_NON_A2DP then non_a2dp
  else dflt.

Definition A2DP_IsSourceCodecValid (p_codec_info : list Z) : bool :=
  switch_codec_type (A2DP_GetCodecType p_codec_info)
    (A2DP_IsSourceCodecValidSbc p_codec_info)
    (A2DP_IsSourceCodecValidAac p_codec_info)
    (A2DP_IsVendorSourceCodecValid p_codec_info)
    false.

Definition A2DP_IsSinkCodecValid (p_codec_info : list Z) : bool :=
  switch_codec_type (A2DP_GetCodecType p_codec_info)
    (A2DP_IsSinkCodecValidSbc p_codec_info)
    (A2DP_IsSinkCodecValidAac p_codec_info)
    (A2DP_IsVendorSinkCodecValid p_codec_info)
    false.

Definition A2DP_IsPeerSourceCodecValid (p_codec_info : list Z) : bool :=
  switch_codec_type (A2DP_GetCodecType p_codec_info)
    (A2DP_IsPeerSourceCodecValidSbc p_codec_info)
    (A2DP_IsPeerSourceCodecValidAac p_codec_info)
    (A2DP_IsVendorPeerSourceCodecValid p_codec_info)
    false.

Definition A2DP_IsPeerSinkCodecValid (p_codec_info : list Z) : bool :=
  switch_codec_type (A2DP_GetCodecType p_codec_info)
    (A2DP_IsPeerSinkCodecValidSbc p_codec_info)
    (A2DP_IsPeerSinkCodecValidAac p_codec_info)
    (A2DP_IsVendorPeerSinkCodecValid p_codec_info)
    false.

Definition A2DP_UsesRtpHeader (content_protection_enabled : bool)
           (p_codec_info : list Z) : bool :=
  let codec_type := A2DP_GetCodecType p_codec_info in
  if negb (codec_type =? A2DP_MEDIA_CT_NON_A2DP) then true
  else A2DP_VendorUsesRtpHeader content_protection_enabled p_codec_info.

Definition A2DP_CodecName (p_codec_info : list Z) : string :=
  switch_codec_type (A2DP_GetCodecType p_codec_info)
    (A2DP_CodecNameSbc p_codec_info)
    (A2DP_CodecNameAac p_codec_info)
    (A2DP_VendorCodecName p_codec_info)
    "UNKNOWN CODEC"%string.

Definition A2DP_CodecEquals (p_codec_info_a p_codec_info_b : list Z) : bool :=
  let codec_type_a := A2DP_GetCodecType p_codec_info_a in
  let codec_type_b := A2DP_GetCodecType p_codec_info_b in
  if negb (codec_type_a =? codec_type_b) then false
  else
    switch_codec_type codec_type_a
      (A2DP_CodecEqualsSbc p_codec_info_a p_codec_info_b)
      (A2DP_CodecEqualsAac p_codec_info_a p_codec_info_b)
      (A2DP_VendorCodecEquals p_codec_info_a p_codec_info_b)
      false.

Definition A2DP_GetTrackSampleRate (p_codec_info : list Z) : Z :=
  switch_codec_type (A2DP_GetCodecType p_codec_info)
    (A2DP_GetTrackSampleRateSbc p_codec_info)
    (A2DP_GetTrackSampleRateAac p_codec_info)
    (A2DP_VendorGetTrackSampleRate p_codec_info)
    (-1).

Definition A2DP_SourceCodecIndex (p_codec_info : list Z) : Z :=
  switch_codec_type (A2DP_GetCodecType p_codec_info)
    (A2DP_SourceCodecIndexSbc p_codec_info)
    (A2DP_SourceCodecIndexAac p_codec_info)
    (A2DP_VendorSourceCodecIndex p_codec_info)
    BTAV_A2DP_CODEC_INDEX_MAX.

Definition A2DP_SinkCodecIndex (p_codec_info : list Z) : Z :=
  switch_codec_type (A2DP_GetCodecType p_codec_info)
    (A2DP_SinkCodecIndexSbc p_codec_info)
    (A2DP_SinkCodecIndexAac p_codec_info)
    (A2DP_VendorSinkCodecIndex p_codec_info)
    BTAV_A2DP_CODEC_INDEX_MAX.

(** *** [A2dpCodecConfig::setCodecUserConfig]

    [p_result_codec_config] is the caller's buffer as it is on entry;
    the outcome carries it as the call leaves it. *)
Definition A2dpCodecConfig_setCodecUserConfig
           (this : A2dpCodecConfig)
           (codec_user_config codec_audio_config : btav_a2dp_codec_config_t)
           (p_peer_params : tA2DP_ENCODER_INIT_PEER_PARAMS)
           (p_peer_codec_info : list Z) (is_capability : bool)
           (p_result_codec_config : list Z) : Outcome A2dpCodecConfig :=
  let saved_codec_config := getCodecConfig this in
  let saved_ota_codec_config := ota_codec_config_ this in
  let saved_codec_user_config := codec_user_config_ this in
  let this1 := set_codec_user_config_ this codec_user_config in
  let saved_codec_audio_config := codec_audio_config_ this1 in
  let this2 := set_codec_audio_config_ this1 codec_audio_config in
  let '(success, this3, result) :=
    setCodecConfig this2 p_peer_codec_info is_capability p_result_codec_config in
  if negb success then
    let this4 := set_codec_user_config_ this3 saved_codec_user_config in
    let this5 := set_codec_audio_config_ this4 saved_codec_audio_config in
    {| returned := false; state := this5; result_codec_config := result;
       restart_input := false; restart_output := false;
       config_updated := false |}
  else
    let new_codec_config := getCodecConfig this3 in
    let restart_input :=
      negb (sample_rate saved_codec_config =? sample_rate new_codec_config) ||
      negb (bits_per_sample saved_codec_config =? bits_per_sample new_codec_config) ||
      negb (channel_mode saved_codec_config =? channel_mode new_codec_config) ||
      negb (codec_specific_1 saved_codec_config =? codec_specific_1 new_codec_config) ||
      negb (codec_specific_2 saved_codec_config =? codec_specific_2 new_codec_config) ||
      negb (codec_specific_3 saved_codec_config =? codec_specific_3 new_codec_config) in
    let restart_output := negb (A2DP_CodecEquals saved_ota_codec_config result) in
    {| returned := true; state := this3; result_codec_config := result;
       restart_input := restart_input; restart_output := restart_output;
       config_updated :=
         if restart_input || restart_output then true else false |}.

(** The fields [setCodecUserConfig] compares to decide on [*p_restart_input]. *)
Definition audio_format_changed (c c' : btav_a2dp_codec_config_t) : Prop :=
  sample_rate c <> sample_rate c' \/
  bits_per_sample c <> bits_per_sample c' \/
  channel_mode c <> channel_mode c' \/
  codec_specific_1 c <> codec_specific_1 c' \/
  codec_specific_2 c <> codec_specific_2 c' \/
  codec_specific_3 c <> codec_specific_3 c'.

(** Sample rate, bits per sample, channel mode or any of the four
    codec-specific fields differs. *)
Definition any_format_field_changed (c c' : btav_a2dp_codec_config_t) : Prop :=
  sample_rate c <> sample_rate c' \/
  bits_per_sample c <> bits_per_sample c' \/
  channel_mode c <> channel_mode c' \/
  codec_specific_1 c <> codec_specific_1 c' \/
  codec_specific_2 c <> codec_specific_2 c' \/
  codec_specific_3 c <> codec_specific_3 c' \/
  codec_specific_4 c <> codec_specific_4 c'.

(** Modelled from the spec: the codec classes' [setCodecConfig] is not in
    this translation unit; the spec has a rejected negotiation leave the
    snapshots unchanged ("reject, snapshots unchanged").  For the two
    snapshots [setCodecUserConfig] does not restore itself, this reads: a
    [setCodecConfig] that returns false leaves [codec_config_] and
    [ota_codec_config_] as they were. *)
Definition setCodecConfig_rejects_unchanged : Prop :=
  forall (d : A2dpCodecConfig) (p_peer_codec_info : list Z) (is_capability : bool)
         (p_result_codec_config : list Z) (d' : A2dpCodecConfig) (result : list Z),
    setCodecConfig d p_peer_codec_info is_capability p_result_codec_config
    = (false, d', result) ->
    codec_config_ d' = codec_config_ d /\
    ota_codec_config_ d' = ota_codec_config_ d.

(** Modelled from the spec: the codec classes' [setCodecConfig] is not in
    this translation unit; the spec has it "produce this codec's best
    wire-format configuration" in the result buffer and update the
    [ota_config] snapshot ("our negotiated wire bytes"), and speaks of "the
    resulting [ota_config] bytes".  This reads: a [setCodecConfig] that
    returns true leaves in the result buffer the wire configuration it has
    stored in [ota_codec_config_]. *)
Definition setCodecConfig_hands_out_ota_config : Prop :=
  forall (d : A2dpCodecConfig) (p_peer_codec_info : list Z) (is_capability : bool)
         (p_result_codec_config : list Z) (d' : A2dpCodecConfig) (result : list Z),
    setCodecConfig d p_peer_codec_info is_capability p_result_codec_config
    = (true, d', result) ->
    result = ota_codec_config_ d'.

End Descriptor.

(** ** The offload encoder *)

(** Constants of the vendor codec headers and of the offload layout.
    Offsets into [codec_info] are [nat]; everything else is an integer
    constant. *)
Class OffloadConstants := {
  A2DP_LDAC_VENDOR_ID : Z;
  A2DP_LDAC_CODEC_ID : Z;
  A2DP_LDAC_QUALITY_ABR_OFFLOAD : Z;
  A2DP_LDAC_QUALITY_HIGH : Z;
  A2DP_LDAC_QUALITY_MID : Z;
  A2DP_LDAC_QUALITY_LOW : Z;
  A2DP_LHDC_VENDOR_ID : Z;
  A2DP_LHDCV2_CODEC_ID : Z;
  A2DP_LHDCV3_CODEC_ID : Z;
  A2DP_LHDCV5_CODEC_ID : Z;
  A2DP_LHDC_VERSION_MASK : Z;
  A2DP_LHDC_VER2 : Z;
  A2DP_LHDC_VER3 : Z;
  A2DP_LHDC_VER6 : Z;
  A2DP_LHDC_FEATURE_LLAC : Z;
  A2DP_LHDC_FEATURE_LHDCV4 : Z;
  A2DP_LHDC_FEATURE_MIN_BR : Z;
  A2DP_LHDC_FEATURE_AR : Z;
  A2DP_LHDC_FEATURE_JAS : Z;
  A2DP_LHDC_FEATURE_META : Z;
  A2DP_LHDC_MAX_BIT_RATE_MASK : Z;
  A2DP_LHDC_MAX_BIT_RATE_400K : Z;
  A2DP_LHDC_MAX_BIT_RATE_500K : Z;
  A2DP_LHDC_LL_MASK : Z;
  A2DP_LHDC_CH_SPLIT_MSK : Z;
  A2DP_LHDC_CH_SPLIT_NONE : Z;
  A2DP_LHDC_CH_SPLIT_TWS : Z;
  A2DP_LHDC_QUALITY_LOW0 : Z;
  A2DP_LHDC_QUALITY_LOW1 : Z;
  A2DP_LHDC_QUALITY_LOW2 : Z;
  A2DP_LHDC_QUALITY_LOW3 : Z;
  A2DP_LHDC_QUALITY_LOW4 : Z;
  A2DP_LHDC_QUALITY_LOW : Z;
  A2DP_LHDC_QUALITY_MID : Z;
  A2DP_LHDC_QUALITY_HIGH : Z;
  A2DP_LHDC_QUALITY_HIGH1 : Z;
  A2DP_LHDC_QUALITY_ABR : Z;
  A2DP_LHDCV5_VERSION_MASK : Z;
  A2DP_LHDCV5_VER_1 : Z;
  A2DP_LHDCV5_MAX_BIT_RATE_MASK : Z;
  A2DP_LHDCV5_MAX_BIT_RATE_400K : Z;
  A2DP_LHDCV5_MAX_BIT_RATE_500K : Z;
  A2DP_LHDCV5_MAX_BIT_RATE_900K : Z;
  A2DP_LHDCV5_MIN_BIT_RATE_MASK : Z;
  A2DP_LHDCV5_MIN_BIT_RATE_64K : Z;
  A2DP_LHDCV5_MIN_BIT_RATE_128K : Z;
  A2DP_LHDCV5_MIN_BIT_RATE_256K : Z;
  A2DP_LHDCV5_FRAME_LEN_MASK : Z;
  A2DP_LHDCV5_FEATURE_LL : Z;
  A2DP_LHDCV5_FEATURE_AR : Z;
  A2DP_LHDCV5_FEATURE_JAS : Z;
  A2DP_LHDCV5_FEATURE_META : Z;
  A2DP_LHDCV5_AR_ON : Z;
  A2DP_OFFLOAD_LHDC_CFG_VER : nat;
  A2DP_OFFLOAD_LHDC_CFG_BITRATE_L : nat;
  A2DP_OFFLOAD_LHDC_CFG_BITRATE_H : nat;
  A2DP_OFFLOAD_LHDC_CFG_MAXBITRATE_L : nat;
  A2DP_OFFLOAD_LHDC_CFG_MAXBITRATE_H : nat;
  A2DP_OFFLOAD_LHDC_CFG_MINBITRATE_L : nat;
  A2DP_OFFLOAD_LHDC_CFG_MINBITRATE_H : nat;
  A2DP_OFFLOAD_LHDC_CFG_FRAMEDUR : nat;
  A2DP_OFFLOAD_LHDC_CFG_INTERVAL : nat;
  A2DP_OFFLOAD_LHDC_CFG_SPEC1 : nat;
  A2DP_OFFLOAD_LHDC_CFG_SPEC2 : nat;
  A2DP_OFFLOAD_LHDCV2_VER_1 : Z;
  A2DP_OFFLOAD_LHDCV3_V3_ONLY : Z;
  A2DP_OFFLOAD_LHDCV3_V4_ONLY : Z;
  A2DP_OFFLOAD_LHDCV3_LLAC : Z;
  A2DP_OFFLOAD_LHDCV5_VER_1 : Z;
  A2DP_OFFLOAD_LHDC_QUALITY_LOW0 : Z;
  A2DP_OFFLOAD_LHDC_QUALITY_LOW1 : Z;
  A2DP_OFFLOAD_LHDC_QUALITY_LOW2 : Z;
  A2DP_OFFLOAD_LHDC_QUALITY_LOW3 : Z;
  A2DP_OFFLOAD_LHDC_QUALITY_LOW4 : Z;
  A2DP_OFFLOAD_LHDC_QUALITY_LOW : Z;
  A2DP_OFFLOAD_LHDC_QUALITY_MID : Z;
  A2DP_OFFLOAD_LHDC_QUALITY_HIGH : Z;
  A2DP_OFFLOAD_LHDC_QUALITY_HIGH1 : Z;
  A2DP_OFFLOAD_LHDC_QUALITY_ABR : Z;
  A2DP_OFFLOAD_LHDC_DATA_INTERVAL_10MS : Z;
  A2DP_OFFLOAD_LHDC_DATA_INTERVAL_20MS : Z;
  A2DP_OFFLOAD_LHDC_FRAME_DURATION_5000US : Z;
  A2DP_OFFLOAD_LHDC_SPECIFIC_FEATURE_AR : Z;
  A2DP_OFFLOAD_LHDC_SPECIFIC_FEATURE_JAS : Z;
  A2DP_OFFLOAD_LHDC_SPECIFIC_FEATURE_META : Z;
  A2DP_OFFLOAD_LHDC_SPECIFIC_FEATURE_SPLIT : Z;
  A2DP_OFFLOAD_LHDC_SPECIFIC_ACTION_AR_ON : Z
}.

Section Offload.
Context `{K : A2dpConstants} `{F : CodecFamilies} `{O : OffloadConstants}.

(** The statement pair that stores a 16-bit tier constant:
    [codec_info[lo] = (uint8_t)(((uint16_t) q) & 0xFF);
     codec_info[hi] = (uint8_t)((((uint16_t) q) >> 8) & 0xFF);] *)
Definition put_quality (lo hi : nat) (q : Z) (codec_info : list Z) : list Z :=
  <[hi := to_uint8 (Z.land (Z.shiftr (to_uint16 q) 8) 255)]>
    (<[lo := to_uint8 (Z.land (to_uint16 q) 255)]> codec_info).

(** [codec_info[i] |= x;] *)
Definition or_byte (i : nat) (x : Z) (codec_info : list Z) : list Z :=
  <[i := to_uint8 (Z.lor (byte_at codec_info i) x)]> codec_info.

(** [codec_info[A2DP_OFFLOAD_LHDC_CFG_VER] = 1 << (v - 1);] *)
Definition put_version (v : Z) (codec_info : list Z) : list Z :=
  <[A2DP_OFFLOAD_LHDC_CFG_VER := to_uint8 (Z.shiftl 1 (v - 1))]> codec_info.

(** The "bit rate index" switch of the LHDC V3 and LHDC V2 branches
    (HIGH1 falls into HIGH there). *)
Definition lhdc_bitrate_tier (specific_1 : Z) : Z :=
  let q := Z.land specific_1 15 in
  if q =? A2DP_LHDC_QUALITY_LOW0 then A2DP_OFFLOAD_LHDC_QUALITY_LOW0
  else if q =? A2DP_LHDC_QUALITY_LOW1 then A2DP_OFFLOAD_LHDC_QUALITY_LOW1
  else if q =? A2DP_LHDC_QUALITY_LOW2 then A2DP_OFFLOAD_LHDC_QUALITY_LOW2
  else if q =? A2DP_LHDC_QUALITY_LOW3 then A2DP_OFFLOAD_LHDC_QUALITY_LOW3
  else if q =? A2DP_LHDC_QUALITY_LOW4 then A2DP_OFFLOAD_LHDC_QUALITY_LOW4
  else if q =? A2DP_LHDC_QUALITY_LOW then A2DP_OFFLOAD_LHDC_QUALITY_LOW
  else if q =? A2DP_LHDC_QUALITY_MID then A2DP_OFFLOAD_LHDC_QUALITY_MID
  else if (q =? A2DP_LHDC_QUALITY_HIGH) || (q =? A2DP_LHDC_QUALITY_HIGH1)
       then A2DP_OFFLOAD_LHDC_QUALITY_HIGH
  else if q =? A2DP_LHDC_QUALITY_ABR then A2DP_OFFLOAD_LHDC_QUALITY_ABR
  else A2DP_OFFLOAD_LHDC_QUALITY_ABR.

(** The same switch in the LHDC V5 branch (HIGH1 has its own tier). *)
Definition lhdcv5_bitrate_tier (specific_1 : Z) : Z :=
  let q := Z.land specific_1 15 in
  if q =? A2DP_LHDC_QUALITY_LOW0 then A2DP_OFFLOAD_LHDC_QUALITY_LOW0
  else if q =? A2DP_LHDC_QUALITY_LOW1 then A2DP_OFFLOAD_LHDC_QUALITY_LOW1
  else if q =? A2DP_LHDC_QUALITY_LOW2 then A2DP_OFFLOAD_LHDC_QUALITY_LOW2
  else if q =? A2DP_LHDC_QUALITY_LOW3 then A2DP_OFFLOAD_LHDC_QUALITY_LOW3
  else if q =? A2DP_LHDC_QUALITY_LOW4 then A2DP_OFFLOAD_LHDC_QUALITY_LOW4
  else if q =? A2DP_LHDC_QUALITY_LOW then A2DP_OFFLOAD_LHDC_QUALITY_LOW
  else if q =? A2DP_LHDC_QUALITY_MID then A2DP_OFFLOAD_LHDC_QUALITY_MID
  else if q =? A2DP_LHDC_QUALITY_HIGH then A2DP_OFFLOAD_LHDC_QUALITY_HIGH
  else if q =? A2DP_LHDC_QUALITY_HIGH1 then A2DP_OFFLOAD_LHDC_QUALITY_HIGH1
  else if q =? A2DP_LHDC_QUALITY_ABR then A2DP_OFFLOAD_LHDC_QUALITY_ABR
  else A2DP_OFFLOAD_LHDC_QUALITY_ABR.

(** "max bit rate index" of the V3 and V2 branches. *)
Definition lhdc_max_bitrate_tier (codec_config : list Z) : Z :=
  let m := Z.land (byte_at codec_config 10) A2DP_LHDC_MAX_BIT_RATE_MASK in
  if m =? A2DP_LHDC_MAX_BIT_RATE_400K then A2DP_OFFLOAD_LHDC_QUALITY_LOW
  else if m =? A2DP_LHDC_MAX_BIT_RATE_500K then A2DP_OFFLOAD_LHDC_QUALITY_MID
  else A2DP_OFFLOAD_LHDC_QUALITY_HIGH.

(** "data interval" of the V3 and V2 branches. *)
Definition lhdc_data_interval (codec_config : list Z) : Z :=
  if negb (Z.land (byte_at codec_config 10) A2DP_LHDC_LL_MASK =? 0)
  then A2DP_OFFLOAD_LHDC_DATA_INTERVAL_10MS
  else A2DP_OFFLOAD_LHDC_DATA_INTERVAL_20MS.

(** "Codec specific 2" of the V3 and V2 branches: the split mode, the last
    step of both; an unsupported mode is the [goto fail]. *)
Definition lhdc_split_mode (codec_config codec_info : list Z) : bool * list Z :=
  let split := Z.land (byte_at codec_config 11) A2DP_LHDC_CH_SPLIT_MSK in
  if split =? A2DP_LHDC_CH_SPLIT_NONE then
    (true, <[A2DP_OFFLOAD_LHDC_CFG_SPEC2 := 0]> codec_info)
  else if split =? A2DP_LHDC_CH_SPLIT_TWS then
    (true, or_byte A2DP_OFFLOAD_LHDC_CFG_SPEC2
                   A2DP_OFFLOAD_LHDC_SPECIFIC_FEATURE_SPLIT codec_info)
  else (false, codec_info).

(** The LDAC branch. *)
Definition offload_ldac (codec_config : list Z) (specific_1 : Z)
           (codec_info : list Z) : list Z :=
  let info1 :=
    if specific_1 =? 0 then
      <[6%nat := to_uint8 A2DP_LDAC_QUALITY_ABR_OFFLOAD]> codec_info
    else
      let r := Z.rem specific_1 10 in
      if r =? 0 then <[6%nat := to_uint8 A2DP_LDAC_QUALITY_HIGH]> codec_info
      else if r =? 1 then <[6%nat := to_uint8 A2DP_LDAC_QUALITY_MID]> codec_info
      else if r =? 2 then <[6%nat := to_uint8 A2DP_LDAC_QUALITY_LOW]> codec_info
      else <[6%nat := to_uint8 A2DP_LDAC_QUALITY_ABR_OFFLOAD]> codec_info in
  <[7%nat := byte_at codec_config 10]> info1.

(** The LHDC V3 branch. *)
Definition offload_lhdcv3 (codec_config : list Z) (specific_1 : Z)
           (codec_info : list Z) : bool * list Z :=
  let version := Z.land (byte_at codec_config 10) A2DP_LHDC_VERSION_MASK in
  if negb (version =? A2DP_LHDC_VER3) && negb (version =? A2DP_LHDC_VER6) then
    (false, codec_info)
  else
    let llac := Z.land (byte_at codec_config 10) A2DP_LHDC_FEATURE_LLAC in
    let lhdcv4 := Z.land (byte_at codec_config 11) A2DP_LHDC_FEATURE_LHDCV4 in
    let info1 :=
      if negb (llac =? 0) && (lhdcv4 =? 0) then
        put_version A2DP_OFFLOAD_LHDCV3_LLAC codec_info
      else if (llac =? 0) && negb (lhdcv4 =? 0) then
        put_version A2DP_OFFLOAD_LHDCV3_V4_ONLY codec_info
      else if (llac =? 0) && (lhdcv4 =? 0) then
        put_version A2DP_OFFLOAD_LHDCV3_V3_ONLY codec_info
      else put_version A2DP_OFFLOAD_LHDCV3_V3_ONLY codec_info in
    let info2 :=
      put_quality A2DP_OFFLOAD_LHDC_CFG_BITRATE_L A2DP_OFFLOAD_LHDC_CFG_BITRATE_H
                  (lhdc_bitrate_tier specific_1) info1 in
    let info3 :=
      put_quality A2DP_OFFLOAD_LHDC_CFG_MAXBITRATE_L
                  A2DP_OFFLOAD_LHDC_CFG_MAXBITRATE_H
                  (lhdc_max_bitrate_tier codec_config) info2 in
    let min_tier :=
      if Z.land (byte_at codec_config 11) A2DP_LHDC_FEATURE_MIN_BR
         =? A2DP_LHDC_FEATURE_MIN_BR
      then A2DP_OFFLOAD_LHDC_QUALITY_LOW4
      else A2DP_OFFLOAD_LHDC_QUALITY_LOW1 in
    let info4 :=
      put_quality A2DP_OFFLOAD_LHDC_CFG_MINBITRATE_L
                  A2DP_OFFLOAD_LHDC_CFG_MINBITRATE_H min_tier info3 in
    let info5 :=
      <[A2DP_OFFLOAD_LHDC_CFG_INTERVAL :=
          to_uint8 (lhdc_data_interval codec_config)]> info4 in
    let info6 :=
      if negb (Z.land (byte_at codec_config 9) A2DP_LHDC_FEATURE_AR =? 0)
      then or_byte A2DP_OFFLOAD_LHDC_CFG_SPEC1
                   A2DP_OFFLOAD_LHDC_SPECIFIC_FEATURE_AR info5
      else info5 in
    let info7 :=
      if negb (Z.land (byte_at codec_config 9) A2DP_LHDC_FEATURE_JAS =? 0)
      then or_byte A2DP_OFFLOAD_LHDC_CFG_SPEC1
                   A2DP_OFFLOAD_LHDC_SPECIFIC_FEATURE_JAS info6
      else info6 in
    let info8 :=
      if negb (Z.land (byte_at codec_config 11) A2DP_LHDC_FEATURE_META =? 0)
      then or_byte A2DP_OFFLOAD_LHDC_CFG_SPEC1
                   A2DP_OFFLOAD_LHDC_SPECIFIC_FEATURE_META info7
      else info7 in
    lhdc_split_mode codec_config info8.

(** The LHDC V2 branch. *)
Definition offload_lhdcv2 (codec_config : list Z) (specific_1 : Z)
           (codec_info : list Z) : bool * list Z :=
  let version := Z.land (byte_at codec_config 10) A2DP_LHDC_VERSION_MASK in
  if version >? A2DP_LHDC_VER2 then (false, codec_info)
  else
    let info1 := put_version A2DP_OFFLOAD_LHDCV2_VER_1 codec_info in
    let info2 :=
      put_quality A2DP_OFFLOAD_LHDC_CFG_BITRATE_L A2DP_OFFLOAD_LHDC_CFG_BITRATE_H
                  (lhdc_bitrate_tier specific_1) info1 in
    let info3 :=
      put_quality A2DP_OFFLOAD_LHDC_CFG_MAXBITRATE_L
                  A2DP_OFFLOAD_LHDC_CFG_MAXBITRATE_H
                  (lhdc_max_bitrate_tier codec_config) info2 in
    let info4 :=
      <[A2DP_OFFLOAD_LHDC_CFG_INTERVAL :=
          to_uint8 (lhdc_data_interval codec_config)]> info3 in
    lhdc_split_mode codec_config info4.

(** The LHDC V5 branch. *)
Definition offload_lhdcv5 (codec_config : list Z) (specific_1 : Z)
           (codec_info : list Z) : bool * list Z :=
  let version := Z.land (byte_at codec_config 11) A2DP_LHDCV5_VERSION_MASK in
  if negb (version =? A2DP_LHDCV5_VER_1) then (false, codec_info)
  else
    let info1 := put_version A2DP_OFFLOAD_LHDCV5_VER_1 codec_info in
    let info2 :=
      put_quality A2DP_OFFLOAD_LHDC_CFG_BITRATE_L A2DP_OFFLOAD_LHDC_CFG_BITRATE_H
                  (lhdcv5_bitrate_tier specific_1) info1 in
    let max_rate := Z.land (byte_at codec_config 10) A2DP_LHDCV5_MAX_BIT_RATE_MASK in
    let max_tier :=
      if max_rate =? A2DP_LHDCV5_MAX_BIT_RATE_400K then A2DP_OFFLOAD_LHDC_QUALITY_LOW
      else if max_rate =? A2DP_LHDCV5_MAX_BIT_RATE_500K then A2DP_OFFLOAD_LHDC_QUALITY_MID
      else if max_rate =? A2DP_LHDCV5_MAX_BIT_RATE_900K then A2DP_OFFLOAD_LHDC_QUALITY_HIGH
      else A2DP_OFFLOAD_LHDC_QUALITY_HIGH1 in
    let info3 :=
      put_quality A2DP_OFFLOAD_LHDC_CFG_MAXBITRATE_L
                  A2DP_OFFLOAD_LHDC_CFG_MAXBITRATE_H max_tier info2 in
    let min_rate := Z.land (byte_at codec_config 10) A2DP_LHDCV5_MIN_BIT_RATE_MASK in
    let min_tier :=
      if min_rate =? A2DP_LHDCV5_MIN_BIT_RATE_64K then A2DP_OFFLOAD_LHDC_QUALITY_LOW0
      else if min_rate =? A2DP_LHDCV5_MIN_BIT_RATE_128K then A2DP_OFFLOAD_LHDC_QUALITY_LOW1
      else if min_rate =? A2DP_LHDCV5_MIN_BIT_RATE_256K then A2DP_OFFLOAD_LHDC_QUALITY_LOW3
      else A2DP_OFFLOAD_LHDC_QUALITY_LOW in
    let info4 :=
      put_quality A2DP_OFFLOAD_LHDC_CFG_MINBITRATE_L
                  A2DP_OFFLOAD_LHDC_CFG_MINBITRATE_H min_tier info3 in
    if negb (Z.land (byte_at codec_config 11) A2DP_LHDCV5_FRAME_LEN_MASK =? 0) then
      let info5 :=
        <[A2DP_OFFLOAD_LHDC_CFG_FRAMEDUR :=
            to_uint8 A2DP_OFFLOAD_LHDC_FRAME_DURATION_5000US]> info4 in
      let interval :=
        if negb (Z.land (byte_at codec_config 12) A2DP_LHDCV5_FEATURE_LL =? 0)
        then A2DP_OFFLOAD_LHDC_DATA_INTERVAL_10MS
        else A2DP_OFFLOAD_LHDC_DATA_INTERVAL_20MS in
      let info6 := <[A2DP_OFFLOAD_LHDC_CFG_INTERVAL := to_uint8 interval]> info5 in
      let info7 :=
        if negb (Z.land (byte_at codec_config 12) A2DP_LHDCV5_FEATURE_AR =? 0)
        then or_byte A2DP_OFFLOAD_LHDC_CFG_SPEC1
                     A2DP_OFFLOAD_LHDC_SPECIFIC_FEATURE_AR info6
        else info6 in
      let info8 :=
        if negb (Z.land (byte_at codec_config 12) A2DP_LHDCV5_FEATURE_JAS =? 0)
        then or_byte A2DP_OFFLOAD_LHDC_CFG_SPEC1
                     A2DP_OFFLOAD_LHDC_SPECIFIC_FEATURE_JAS info7
        else info7 in
      let info9 :=
        if negb (Z.land (byte_at codec_config 12) A2DP_LHDCV5_FEATURE_META =? 0)
        then or_byte A2DP_OFFLOAD_LHDC_CFG_SPEC1
                     A2DP_OFFLOAD_LHDC_SPECIFIC_FEATURE_META info8
        else info8 in
      let info10 :=
        if negb (Z.land (byte_at codec_config 13) A2DP_LHDCV5_AR_ON =? 0)
        then or_byte A2DP_OFFLOAD_LHDC_CFG_SPEC2
                     A2DP_OFFLOAD_LHDC_SPECIFIC_ACTION_AR_ON info9
        else info9 in
      (true, info10)
    else (false, info4).

(** The [A2DP_MEDIA_CT_NON_A2DP] case: vendor and codec id first, then the
    vendor-specific layout. *)
Definition offload_vendor (codec_config : list Z) (specific_1 : Z)
           (codec_info : list Z) : bool * list Z :=
  let vendor_id := A2DP_VendorCodecGetVendorId codec_config in
  let codec_id := A2DP_VendorCodecGetCodecId codec_config in
  let info0 := <[0%nat := to_uint8 (Z.land vendor_id 255)]> codec_info in
  let info1 := <[1%nat := to_uint8 (Z.shiftr (Z.land vendor_id 65280) 8)]> info0 in
  let info2 := <[2%nat := to_uint8 (Z.shiftr (Z.land vendor_id 16711680) 16)]> info1 in
  let info3 := <[3%nat := to_uint8 (Z.shiftr (Z.land vendor_id 4278190080) 24)]> info2 in
  let info4 := <[4%nat := to_uint8 (Z.land codec_id 255)]> info3 in
  let info5 := <[5%nat := to_uint8 (Z.shiftr (Z.land codec_id 65280) 8)]> info4 in
  if (vendor_id =? A2DP_LDAC_VENDOR_ID) && (codec_id =? A2DP_LDAC_CODEC_ID) then
    (true, offload_ldac codec_config specific_1 info5)
  else if (vendor_id =? A2DP_LHDC_VENDOR_ID) && (codec_id =? A2DP_LHDCV3_CODEC_ID) then
    offload_lhdcv3 codec_config specific_1 info5
  else if (vendor_id =? A2DP_LHDC_VENDOR_ID) && (codec_id =? A2DP_LHDCV2_CODEC_ID) then
    offload_lhdcv2 codec_config specific_1 info5
  else if (vendor_id =? A2DP_LHDC_VENDOR_ID) && (codec_id =? A2DP_LHDCV5_CODEC_ID) then
    offload_lhdcv5 codec_config specific_1 info5
  else (true, info5).

(** [A2dpCodecConfig::getCodecSpecificConfig].  [codec_info] is the
    [codec_info] array of [*p_a2dp_offload] on entry; the result is the
    returned flag and the array on exit (also after [goto fail], where the
    bytes written so far stay). *)
Definition getCodecSpecificConfig (this : A2dpCodecConfig) (codec_info : list Z)
  : bool * list Z :=
  let info := replicate (length codec_info) 0 in
  if negb (A2DP_IsSourceCodecValid (ota_codec_config_ this)) then (false, info)
  else
    let codec_config := ota_codec_config_ this in
    let codec_type := A2DP_GetCodecType codec_config in
    if codec_type =? A2DP_MEDIA_CT_SBC then
      (true,
       <[3%nat := byte_at codec_config 3]>
         (<[2%nat := byte_at codec_config 6]>
            (<[1%nat := byte_at codec_config 5]>
               (<[0%nat := byte_at codec_config 4]> info))))
    else if codec_type =? A2DP_MEDIA_CT_AAC then
      (true,
       <[1%nat := byte_at codec_config 6]>
         (<[0%nat := byte_at codec_config 3]> info))
    else if codec_type =? A2DP_MEDIA_CT_NON_A2DP then
      offload_vendor codec_config (codec_specific_1 (codec_config_ this)) info
    else (true, info).

(** What the LHDC branches cannot encode. *)

Definition lhdc_split_unsupported (codec_config : list Z) : Prop :=
  let split := Z.land (byte_at codec_config 11) A2DP_LHDC_CH_SPLIT_MSK in
  split <> A2DP_LHDC_CH_SPLIT_NONE /\ split <> A2DP_LHDC_CH_SPLIT_TWS.

Definition lhdcv3_unsupported (codec_config : list Z) : Prop :=
  let version := Z.land (byte_at codec_config 10) A2DP_LHDC_VERSION_MASK in
  (version <> A2DP_LHDC_VER3 /\ version <> A2DP_LHDC_VER6) \/
  lhdc_split_unsupported codec_config.

Definition lhdcv2_unsupported (codec_config : list Z) : Prop :=
  let version := Z.land (byte_at codec_config 10) A2DP_LHDC_VERSION_MASK in
  version > A2DP_LHDC_VER2 \/ lhdc_split_unsupported codec_config.

Definition lhdcv5_unsupported (codec_config : list Z) : Prop :=
  Z.land (byte_at codec_config 11) A2DP_LHDCV5_VERSION_MASK <> A2DP_LHDCV5_VER_1 \/
  Z.land (byte_at codec_config 11) A2DP_LHDCV5_FRAME_LEN_MASK = 0.

End Offload.

(** ** The registry *)

(** [indexed_codecs_] owns the enabled descriptors, keyed by codec index.
    [ordered_source_codecs_], [ordered_sink_codecs_] and
    [current_codec_config_] hold pointers to descriptors of
    [indexed_codecs_]; here each such pointer is the key of the descriptor,
    so a write through one pointer is seen through every other. *)
Record A2dpCodecs := {
  codec_priorities_ : gmap Z Z;
  indexed_codecs_ : gmap Z A2dpCodecConfig;
  disabled_codecs_ : gmap Z A2dpCodecConfig;
  ordered_source_codecs_ : list Z;
  ordered_sink_codecs_ : list Z;
  current_codec_config_ : option Z
}.

Definition set_current_codec_config_ (r : A2dpCodecs) (c : option Z) : A2dpCodecs :=
  {| codec_priorities_ := codec_priorities_ r;
     indexed_codecs_ := indexed_codecs_ r;
     disabled_codecs_ := disabled_codecs_ r;
     ordered_source_codecs_ := ordered_source_codecs_ r;
     ordered_sink_codecs_ := ordered_sink_codecs_ r;
     current_codec_config_ := c |}.

Definition set_indexed_codecs_ (r : A2dpCodecs) (m : gmap Z A2dpCodecConfig)
  : A2dpCodecs :=
  {| codec_priorities_ := codec_priorities_ r;
     indexed_codecs_ := m;
     disabled_codecs_ := disabled_codecs_ r;
     ordered_source_codecs_ := ordered_source_codecs_ r;
     ordered_sink_codecs_ := ordered_sink_codecs_ r;
     current_codec_config_ := current_codec_config_ r |}.

Definition set_ordered_source_codecs_ (r : A2dpCodecs) (l : list Z) : A2dpCodecs :=
  {| codec_priorities_ := codec_priorities_ r;
     indexed_codecs_ := indexed_codecs_ r;
     disabled_codecs_ := disabled_codecs_ r;
     ordered_source_codecs_ := l;
     ordered_sink_codecs_ := ordered_sink_codecs_ r;
     current_codec_config_ := current_codec_config_ r |}.

(** [std::list::sort(comp)]: a stable sort by a comparator that tells whether
    its first argument goes before its second.  Any stable sort yields the
    same list; this one inserts each element in front of the first element
    that does not go before it. *)
Section ListSort.
Context {A : Type} (comp : A -> A -> bool).

Fixpoint sort_insert (x : A) (l : list A) : list A :=
  match l with
  | [] => [x]
  | y :: l' => if comp y x then y :: sort_insert x l' else x :: y :: l'
  end.

Fixpoint list_sort (l : list A) : list A :=
  match l with
  | [] => []
  | x :: l' => sort_insert x (list_sort l')
  end.
End ListSort.

Section Registry.
Context `{K : A2dpConstants} `{F : CodecFamilies} `{N : CodecNegotiation}.

(** [compare_codec_priority] *)
Definition compare_codec_priority (lhs rhs : A2dpCodecConfig) : bool :=
  if codecPriority lhs >? codecPriority rhs then true
  else if codecPriority lhs <? codecPriority rhs then false
  else codecIndex lhs >? codecIndex rhs.

(** The comparator on the pointers kept in the ordered lists.  (A pointer
    that is not a descriptor of [indexed_codecs_] cannot be dereferenced;
    the comparison is [false] then.) *)
Definition compare_at (m : gmap Z A2dpCodecConfig) (lhs rhs : Z) : bool :=
  match m !! lhs, m !! rhs with
  | Some x, Some y => compare_codec_priority x y
  | _, _ => false
  end.

(** The values the [do { ... } while (false)] block of
    [A2dpCodecs::setCodecUserConfig] leaves behind. *)
Record Reconciled := {
  rc_codecs : gmap Z A2dpCodecConfig;
  rc_current : option Z;
  rc_restart_input : bool;
  rc_restart_output : bool;
  rc_config_updated : bool
}.

(** The priority reconciliation block.  [p] is [a2dp_codec_config], [d1]
    the descriptor it points to after the descriptor-level call, and
    [restart_input], [restart_output], [config_updated] the flags that
    call has set.  The result is [None] only if [last_codec_config] is
    dereferenced and is not a descriptor of the registry. *)
Definition reconcile_priority
           (codecs : gmap Z A2dpCodecConfig) (last_codec_config : option Z)
           (p : Z) (d1 : A2dpCodecConfig) (user_priority : Z)
           (restart_input restart_output config_updated : bool)
  : option Reconciled :=
  let old_priority := codecPriority d1 in
  let d2 := setCodecPriority d1 user_priority in
  let new_priority := codecPriority d2 in
  let codecs2 := <[p := d2]> codecs in
  match last_codec_config with
  | None =>
      Some {| rc_codecs := codecs2; rc_current := Some p;
              rc_restart_input := true; rc_restart_output := true;
              rc_config_updated := config_updated |}
  | Some l =>
      if p =? l then
        if old_priority =? new_priority then
          Some {| rc_codecs := codecs2; rc_current := Some l;
                  rc_restart_input := restart_input;
                  rc_restart_output := restart_output;
                  rc_config_updated := config_updated |}
        else
          Some {| rc_codecs := codecs2; rc_current := Some l;
                  rc_restart_input := restart_input;
                  rc_restart_output :=
                    if new_priority <? old_priority then true else restart_output;
                  rc_config_updated := true |}
      else if new_priority <=? old_priority then
        Some {| rc_codecs := codecs2; rc_current := Some l;
                rc_restart_input := false; rc_restart_output := false;
                rc_config_updated :=
                  if restart_input || restart_output ||
                     negb (old_priority =? new_priority)
                  then true else config_updated |}
      else
        dl ← codecs2 !! l;
        if new_priority >=? codecPriority dl then
          Some {| rc_codecs := <[l := setDefaultCodecPriority dl]> codecs2;
                  rc_current := Some p;
                  rc_restart_input := true; rc_restart_output := true;
                  rc_config_updated := true |}
        else
          Some {| rc_codecs := codecs2; rc_current := Some l;
                  rc_restart_input := restart_input;
                  rc_restart_output := restart_output;
                  rc_config_updated := true |}
  end.

(** The descriptor [A2dpCodecs::setCodecUserConfig] works on: the one of
    [codec_user_config.codec_type] if that is a codec index, else the
    current one; [None] is the null pointer (and the [goto fail] of a
    codec index that is not enabled). *)
Definition user_config_target (this : A2dpCodecs)
           (codec_user_config : btav_a2dp_codec_config_t) : option Z :=
  if codec_type codec_user_config <? BTAV_A2DP_CODEC_INDEX_MAX then
    match indexed_codecs_ this !! codec_type codec_user_config with
    | None => None
    | Some _ => Some (codec_type codec_user_config)
    end
  else current_codec_config_ this.

(** [A2dpCodecs::setCodecUserConfig].  The result is [None] only when a
    pointer that is not a descriptor of the registry is dereferenced. *)
Definition A2dpCodecs_setCodecUserConfig
           (this : A2dpCodecs) (codec_user_config : btav_a2dp_codec_config_t)
           (p_peer_params : tA2DP_ENCODER_INIT_PEER_PARAMS)
           (p_peer_sink_capabilities : list Z)
           (p_result_codec_config : list Z) : option (Outcome A2dpCodecs) :=
  let last_codec_config := current_codec_config_ this in
  match user_config_target this codec_user_config with
  | None =>
      Some {| returned := false;
              state := set_current_codec_config_ this last_codec_config;
              result_codec_config := p_result_codec_config;
              restart_input := false; restart_output := false;
              config_updated := false |}
  | Some p =>
      d ← indexed_codecs_ this !! p;
      let codec_audio_config := getCodecAudioConfig d in
      let r := A2dpCodecConfig_setCodecUserConfig d codec_user_config
                 codec_audio_config p_peer_params p_peer_sink_capabilities
                 true p_result_codec_config in
      if negb (returned r) then
        Some {| returned := false;
                state :=
                  set_current_codec_config_
                    (set_indexed_codecs_ this
                       (<[p := state r]> (indexed_codecs_ this)))
                    last_codec_config;
                result_codec_config := result_codec_config r;
                restart_input := restart_input r;
                restart_output := restart_output r;
                config_updated := config_updated r |}
      else
        rc ← reconcile_priority (indexed_codecs_ this) last_codec_config p
               (state r) (codec_priority codec_user_config)
               (restart_input r) (restart_output r)
               (config_updated r);
        let this1 :=
          set_current_codec_config_ (set_indexed_codecs_ this (rc_codecs rc))
                                    (rc_current rc) in
        let this2 :=
          set_ordered_source_codecs_ this1
            (list_sort (compare_at (indexed_codecs_ this1))
                       (ordered_source_codecs_ this1)) in
        Some {| returned := true; state := this2;
                result_codec_config := result_codec_config r;
                restart_input := rc_restart_input rc;
                restart_output := rc_restart_output rc;
                config_updated :=
                  if rc_restart_input rc || rc_restart_output rc then true
                  else rc_config_updated rc |}
  end.

(** [A2dpCodecs::setCodecOtaConfig].  The result is [None] only when
    [current_codec_config_] is dereferenced and is not a descriptor of the
    registry. *)
Definition A2dpCodecs_setCodecOtaConfig
           (this : A2dpCodecs) (p_ota_codec_config : list Z)
           (p_peer_params : tA2DP_ENCODER_INIT_PEER_PARAMS)
           (p_result_codec_config : list Z) : option (Outcome A2dpCodecs) :=
  let last_codec_config := current_codec_config_ this in
  let fail (st : A2dpCodecs) (result : list Z) : Outcome A2dpCodecs :=
    {| returned := false;
       state := set_current_codec_config_ st last_codec_config;
       result_codec_config := result;
       restart_input := false; restart_output := false;
       config_updated := false |} in
  current_is_user_configured ←
    match current_codec_config_ this with
    | Some c =>
        dc ← indexed_codecs_ this !! c;
        Some (negb (isCodecConfigEmpty (getCodecUserConfig dc)))
    | None => Some false
    end;
  if current_is_user_configured : bool then Some (fail this p_result_codec_config)
  else
    let codec_type := A2DP_SourceCodecIndex p_ota_codec_config in
    if codec_type =? BTAV_A2DP_CODEC_INDEX_MAX then
      Some (fail this p_result_codec_config)
    else
      match indexed_codecs_ this !! codec_type with
      | None => Some (fail this p_result_codec_config)
      | Some d =>
          let codec_user_config := getCodecUserConfig d in
          if negb (isCodecConfigEmpty codec_user_config) then
            Some (fail this p_result_codec_config)
          else
            let this1 := set_current_codec_config_ this (Some codec_type) in
            let codec_audio_config := getCodecAudioConfig d in
            let r := A2dpCodecConfig_setCodecUserConfig d codec_user_config
                       codec_audio_config p_peer_params p_ota_codec_config
                       false p_result_codec_config in
            let this2 :=
              set_indexed_codecs_ this1
                (<[codec_type := state r]> (indexed_codecs_ this1)) in
            if negb (returned r) then Some (fail this2 (result_codec_config r))
            else
              Some {| returned := true; state := this2;
                      result_codec_config := result_codec_config r;
                      restart_input := restart_input r;
                      restart_output := restart_output r;
                      config_updated :=
                        if restart_input r || restart_output r then true
                        else config_updated r |}
      end.

(** Every pointer the registry holds is a descriptor of [indexed_codecs_]. *)
Definition registry_wf (this : A2dpCodecs) : Prop :=
  (forall c, current_codec_config_ this = Some c ->
             is_Some (indexed_codecs_ this !! c)) /\
  Forall (fun p => is_Some (indexed_codecs_ this !! p))
         (ordered_source_codecs_ this) /\
  Forall (fun p => is_Some (indexed_codecs_ this !! p))
         (ordered_sink_codecs_ this).

(** The order the comparator describes, on descriptors: [x] may stand
    before [y]. *)
Definition priority_order (x y : A2dpCodecConfig) : Prop :=
  codecPriority x > codecPriority y \/
  (codecPriority x = codecPriority y /\ codecIndex x >= codecIndex y).

(** A list of pointers is sorted by the comparator: each descriptor may
    stand before all that follow it. *)
Definition sorted_by_priority (m : gmap Z A2dpCodecConfig) (l : list Z) : Prop :=
  StronglySorted
    (fun a b => forall x y, m !! a = Some x -> m !! b = Some y -> priority_order x y)
    l.

End Registry.

(** ** The rest of the dispatch layer and of the descriptor *)

(** [AvdtpSepConfig], as far as this translation unit and the codec
    families write it. *)
Record AvdtpSepConfig := {
  codec_info : list Z;
  num_protect : Z;
  protect_info : list Z
}.

(** [tA2DP_ENCODER_INTERFACE], as far as it is used here: what a call of
    [get_effective_frame_size] returns. *)
Record tA2DP_ENCODER_INTERFACE := {
  get_effective_frame_size : Z
}.

(** Further functions of [a2dp_sbc.cc], [a2dp_aac.cc] and [a2dp_vendor.cc],
    and [loghex]. *)
Class CodecFamiliesMore := {
  A2DP_GetBitrateSbc : Z;
  A2DP_GetBitRateAac : list Z -> Z;
  A2DP_VendorGetBitRate : list Z -> Z;
  A2DP_IsSinkCodecSupportedSbc : list Z -> bool;
  A2DP_IsSinkCodecSupportedAac : list Z -> bool;
  A2DP_IsVendorSinkCodecSupported : list Z -> bool;
  A2DP_IsPeerSourceCodecSupportedSbc : list Z -> bool;
  A2DP_IsPeerSourceCodecSupportedAac : list Z -> bool;
  A2DP_IsVendorPeerSourceCodecSupported : list Z -> bool;
  A2DP_InitDefaultCodecSbc : list Z -> list Z;
  A2DP_CodecTypeEqualsSbc : list Z -> list Z -> bool;
  A2DP_CodecTypeEqualsAac : list Z -> list Z -> bool;
  A2DP_VendorCodecTypeEquals : list Z -> list Z -> bool;
  A2DP_GetTrackBitsPerSampleSbc : list Z -> Z;
  A2DP_GetTrackBitsPerSampleAac : list Z -> Z;
  A2DP_VendorGetTrackBitsPerSample : list Z -> Z;
  A2DP_GetTrackChannelCountSbc : list Z -> Z;
  A2DP_GetTrackChannelCountAac : list Z -> Z;
  A2DP_VendorGetTrackChannelCount : list Z -> Z;
  A2DP_GetSinkTrackChannelTypeSbc : list Z -> Z;
  A2DP_GetSinkTrackChannelTypeAac : list Z -> Z;
  A2DP_VendorGetSinkTrackChannelType : list Z -> Z;
  A2DP_GetEncoderInterfaceSbc : list Z -> option tA2DP_ENCODER_INTERFACE;
  A2DP_GetEncoderInterfaceAac : list Z -> option tA2DP_ENCODER_INTERFACE;
  A2DP_VendorGetEncoderInterface : list Z -> option tA2DP_ENCODER_INTERFACE;
  A2DP_AdjustCodecSbc : list Z -> bool * list Z;
  A2DP_AdjustCodecAac : list Z -> bool * list Z;
  A2DP_VendorAdjustCodec : list Z -> bool * list Z;
  A2DP_CodecIndexStrSbc : string;
  A2DP_CodecIndexStrSbcSink : string;
  A2DP_CodecIndexStrAac : string;
  A2DP_CodecIndexStrAacSink : string;
  A2DP_VendorCodecIndexStr : Z -> string;
  A2DP_InitCodecConfigSbc : AvdtpSepConfig -> bool * AvdtpSepConfig;
  A2DP_InitCodecConfigSbcSink : AvdtpSepConfig -> bool * AvdtpSepConfig;
  A2DP_InitCodecConfigAac : AvdtpSepConfig -> bool * AvdtpSepConfig;
  A2DP_InitCodecConfigAacSink : AvdtpSepConfig -> bool * AvdtpSepConfig;
  A2DP_VendorInitCodecConfig : Z -> AvdtpSepConfig -> bool * AvdtpSepConfig;
  A2DP_CodecInfoStringSbc : list Z -> string;
  A2DP_CodecInfoStringAac : list Z -> string;
  A2DP_VendorCodecInfoString : list Z -> string;
  loghex : Z -> string
}.

(** The values of [btav_a2dp_codec_index_t] and the disabled priority. *)
Class CodecIndexConstants := {
  BTAV_A2DP_CODEC_INDEX_MIN : Z;
  BTAV_A2DP_CODEC_INDEX_SOURCE_SBC : Z;
  BTAV_A2DP_CODEC_INDEX_SOURCE_AAC : Z;
  BTAV_A2DP_CODEC_INDEX_SOURCE_APTX : Z;
  BTAV_A2DP_CODEC_INDEX_SOURCE_APTX_HD : Z;
  BTAV_A2DP_CODEC_INDEX_SOURCE_LDAC : Z;
  BTAV_A2DP_CODEC_INDEX_SOURCE_OPUS : Z;
  BTAV_A2DP_CODEC_INDEX_SOURCE_LHDCV2 : Z;
  BTAV_A2DP_CODEC_INDEX_SOURCE_LHDCV3 : Z;
  BTAV_A2DP_CODEC_INDEX_SOURCE_LHDCV5 : Z;
  BTAV_A2DP_CODEC_INDEX_SOURCE_MAX : Z;
  BTAV_A2DP_CODEC_INDEX_SINK_SBC : Z;
  BTAV_A2DP_CODEC_INDEX_SINK_AAC : Z;
  BTAV_A2DP_CODEC_INDEX_SINK_LDAC : Z;
  BTAV_A2DP_CODEC_INDEX_SINK_OPUS : Z;
  BTAV_A2DP_CODEC_INDEX_SINK_LHDCV3 : Z;
  BTAV_A2DP_CODEC_INDEX_SINK_LHDCV5 : Z;
  BTAV_A2DP_CODEC_PRIORITY_DISABLED : Z
}.

(** [AVDT_CODEC_SIZE], the size of the codec-information arrays. *)
Class AvdtConstants := {
  AVDT_CODEC_SIZE : nat
}.

Section DispatchMore.
Context `{K : A2dpConstants} `{F : CodecFamilies} `{M : CodecFamiliesMore}
        `{I : CodecIndexConstants} `{V : AvdtConstants}.

(** [A2dpCodecConfig::getTrackBitRate] *)
Definition getTrackBitRate (this : A2dpCodecConfig) : Z :=
  let p_codec_info := ota_codec_config_ this in
  switch_codec_type (A2DP_GetCodecType p_codec_info)
    A2DP_GetBitrateSbc
    (A2DP_GetBitRateAac p_codec_info)
    (A2DP_VendorGetBitRate p_codec_info)
    (-1).

(** [A2dpCodecConfig::copyOutOtaCodecConfig]: the returned flag and the
    caller's buffer on exit.  [memcpy] overwrites the first
    [sizeof(ota_codec_config_)], that is [AVDT_CODEC_SIZE], bytes of the
    buffer with the whole array [ota_codec_config_] (the bytes of the list,
    then zeros); what the caller's buffer holds past them stays. *)
Definition copyOutOtaCodecConfig (this : A2dpCodecConfig) (p_codec_info : list Z)
  : bool * list Z :=
  if negb (A2DP_IsSourceCodecValid (ota_codec_config_ this)) then (false, p_codec_info)
  else (true,
        (byte_at (ota_codec_config_ this) <$> seq 0 AVDT_CODEC_SIZE)
          ++ drop AVDT_CODEC_SIZE p_codec_info).

Definition A2DP_IsSinkCodecSupported (p_codec_info : list Z) : bool :=
  switch_codec_type (A2DP_GetCodecType p_codec_info)
    (A2DP_IsSinkCodecSupportedSbc p_codec_info)
    (A2DP_IsSinkCodecSupportedAac p_codec_info)
    (A2DP_IsVendorSinkCodecSupported p_codec_info)
    false.

Definition A2DP_IsPeerSourceCodecSupported (p_codec_info : list Z) : bool :=
  switch_codec_type (A2DP_GetCodecType p_codec_info)
    (A2DP_IsPeerSourceCodecSupportedSbc p_codec_info)
    (A2DP_IsPeerSourceCodecSupportedAac p_codec_info)
    (A2DP_IsVendorPeerSourceCodecSupported p_codec_info)
    false.

Definition A2DP_InitDefaultCodec (p_codec_info : list Z) : list Z :=
  A2DP_InitDefaultCodecSbc p_codec_info.

(** [A2DP_GetMediaType]; [A2DP_MEDIA_TYPE_OFFSET] is 1. *)
Definition A2DP_GetMediaType (p_codec_info : list Z) : Z :=
  to_uint8 (Z.land (Z.shiftr (byte_at p_codec_info 1) 4) 15).

Definition A2DP_CodecTypeEquals (p_codec_info_a p_codec_info_b : list Z) : bool :=
  let codec_type_a := A2DP_GetCodecType p_codec_info_a in
  let codec_type_b := A2DP_GetCodecType p_codec_info_b in
  if negb (codec_type_a =? codec_type_b) then false
  else
    switch_codec_type codec_type_a
      (A2DP_CodecTypeEqualsSbc p_codec_info_a p_codec_info_b)
      (A2DP_CodecTypeEqualsAac p_codec_info_a p_codec_info_b)
      (A2DP_VendorCodecTypeEquals p_codec_info_a p_codec_info_b)
      false.

Definition A2DP_GetTrackBitsPerSample (p_codec_info : list Z) : Z :=
  switch_codec_type (A2DP_GetCodecType p_codec_info)
    (A2DP_GetTrackBitsPerSampleSbc p_codec_info)
    (A2DP_GetTrackBitsPerSampleAac p_codec_info)
    (A2DP_VendorGetTrackBitsPerSample p_codec_info)
    (-1).

Definition A2DP_GetTrackChannelCount (p_codec_info : list Z) : Z :=
  switch_codec_type (A2DP_GetCodecType p_codec_info)
    (A2DP_GetTrackChannelCountSbc p_codec_info)
    (A2DP_GetTrackChannelCountAac p_codec_info)
    (A2DP_VendorGetTrackChannelCount p_codec_info)
    (-1).

Definition A2DP_GetSinkTrackChannelType (p_codec_info : list Z) : Z :=
  switch_codec_type (A2DP_GetCodecType p_codec_info)
    (A2DP_GetSinkTrackChannelTypeSbc p_codec_info)
    (A2DP_GetSinkTrackChannelTypeAac p_codec_info)
    (A2DP_VendorGetSinkTrackChannelType p_codec_info)
    (-1).

(** [A2DP_GetEncoderInterface]; [None] is [NULL]. *)
Definition A2DP_GetEncoderInterface (p_codec_info : list Z)
  : option tA2DP_ENCODER_INTERFACE :=
  switch_codec_type (A2DP_GetCodecType p_codec_info)
    (A2DP_GetEncoderInterfaceSbc p_codec_info)
    (A2DP_GetEncoderInterfaceAac p_codec_info)
    (A2DP_VendorGetEncoderInterface p_codec_info)
    None.

(** [A2DP_AdjustCodec]: the returned flag and the buffer on exit. *)
Definition A2DP_AdjustCodec (p_codec_info : list Z) : bool * list Z :=
  switch_codec_type (A2DP_GetCodecType p_codec_info)
    (A2DP_AdjustCodecSbc p_codec_info)
    (A2DP_AdjustCodecAac p_codec_info)
    (A2DP_VendorAdjustCodec p_codec_info)
    (false, p_codec_info).

(** [A2DP_CodecIndexStr] *)
Definition A2DP_CodecIndexStr (codec_index : Z) : string :=
  if codec_index =? BTAV_A2DP_CODEC_INDEX_SOURCE_SBC then A2DP_CodecIndexStrSbc
  else if codec_index =? BTAV_A2DP_CODEC_INDEX_SINK_SBC then A2DP_CodecIndexStrSbcSink
  else if codec_index =? BTAV_A2DP_CODEC_INDEX_SOURCE_AAC then A2DP_CodecIndexStrAac
  else if codec_index =? BTAV_A2DP_CODEC_INDEX_SINK_AAC then A2DP_CodecIndexStrAacSink
  else if codec_index <? BTAV_A2DP_CODEC_INDEX_MAX then A2DP_VendorCodecIndexStr codec_index
  else "UNKNOWN CODEC INDEX"%string.

(** [A2DP_InitCodecConfig]: the returned flag and [*p_cfg] on exit. *)
Definition A2DP_InitCodecConfig (codec_index : Z) (p_cfg : AvdtpSepConfig)
  : bool * AvdtpSepConfig :=
  let p_cfg1 :=
    {| codec_info := codec_info p_cfg; num_protect := 0;
       protect_info := <[0%nat := 0]> (protect_info p_cfg) |} in
  if codec_index =? BTAV_A2DP_CODEC_INDEX_SOURCE_SBC then A2DP_InitCodecConfigSbc p_cfg1
  else if codec_index =? BTAV_A2DP_CODEC_INDEX_SINK_SBC then A2DP_InitCodecConfigSbcSink p_cfg1
  else if codec_index =? BTAV_A2DP_CODEC_INDEX_SOURCE_AAC then A2DP_InitCodecConfigAac p_cfg1
  else if codec_index =? BTAV_A2DP_CODEC_INDEX_SINK_AAC then A2DP_InitCodecConfigAacSink p_cfg1
  else if codec_index <? BTAV_A2DP_CODEC_INDEX_MAX then
    A2DP_VendorInitCodecConfig codec_index p_cfg1
  else (false, p_cfg1).

(** [A2DP_CodecInfoString] *)
Definition A2DP_CodecInfoString (p_codec_info : list Z) : string :=
  let codec_type := A2DP_GetCodecType p_codec_info in
  switch_codec_type codec_type
    (A2DP_CodecInfoStringSbc p_codec_info)
    (A2DP_CodecInfoStringAac p_codec_info)
    (A2DP_VendorCodecInfoString p_codec_info)
    ("Unsupported codec type: " ++ loghex codec_type)%string.

(** [A2DP_GetEecoderEffectiveFrameSize] *)
Definition A2DP_GetEecoderEffectiveFrameSize (p_codec_info : list Z) : Z :=
  let a2dp_encoder_interface :=
    switch_codec_type (A2DP_GetCodecType p_codec_info)
      (A2DP_GetEncoderInterfaceSbc p_codec_info)
      (A2DP_GetEncoderInterfaceAac p_codec_info)
      (A2DP_VendorGetEncoderInterface p_codec_info)
      None in
  match a2dp_encoder_interface with
  | None => 0
  | Some i => get_effective_frame_size i
  end.

End DispatchMore.


(** ** The rest of the registry *)

(** The codec classes, defined in their own translation units: each
    constructor takes the priority; [A2dpCodecConfig_init] is the virtual
    [init()] and [setPeerCodecCapabilities] the virtual of that name, each
    giving the returned flag and the descriptor as the call leaves it. *)
Class CodecClasses := {
  new_A2dpCodecConfigSbcSource : Z -> A2dpCodecConfig;
  new_A2dpCodecConfigSbcSink : Z -> A2dpCodecConfig;
  new_A2dpCodecConfigAacSource : Z -> A2dpCodecConfig;
  new_A2dpCodecConfigAacSink : Z -> A2dpCodecConfig;
  new_A2dpCodecConfigAptx : Z -> A2dpCodecConfig;
  new_A2dpCodecConfigAptxHd : Z -> A2dpCodecConfig;
  new_A2dpCodecConfigLdacSource : Z -> A2dpCodecConfig;
  new_A2dpCodecConfigLdacSink : Z -> A2dpCodecConfig;
  new_A2dpCodecConfigOpusSource : Z -> A2dpCodecConfig;
  new_A2dpCodecConfigOpusSink : Z -> A2dpCodecConfig;
  new_A2dpCodecConfigLhdcV2 : Z -> A2dpCodecConfig;
  new_A2dpCodecConfigLhdcV3 : Z -> A2dpCodecConfig;
  new_A2dpCodecConfigLhdcV5Source : Z -> A2dpCodecConfig;
  new_A2dpCodecConfigLhdcV3Sink : Z -> A2dpCodecConfig;
  new_A2dpCodecConfigLhdcV5Sink : Z -> A2dpCodecConfig;
  A2dpCodecConfig_init : A2dpCodecConfig -> bool * A2dpCodecConfig;
  setPeerCodecCapabilities : A2dpCodecConfig -> list Z -> bool * A2dpCodecConfig
}.

(** What [A2dpCodecs::init] reads from the system properties: the three
    strings [osi_property_get] yields (the property, or the default given
    in the call) and the flag [osi_property_get_bool] yields. *)
Record SystemProperties := {
  ro_bluetooth_a2dp_offload_supported : string;
  persist_bluetooth_a2dp_offload_disabled : string;
  persist_bluetooth_a2dp_offload_cap : string;
  persist_bluetooth_opus_enabled : bool
}.

(** The variables [a2dp_offload_status] and [offload_codec_support] that
    [A2dpCodecs::init] assigns; they are not members of the registry. *)
Record OffloadVars := {
  a2dp_offload_status : bool;
  offload_codec_support : gmap Z bool
}.

(** The pieces of a string between occurrences of a delimiter. *)
Fixpoint split_on (delim : Ascii.ascii) (s : string) : list string :=
  match s with
  | EmptyString => [EmptyString]
  | String c s' =>
      if Ascii.eqb c delim then EmptyString :: split_on delim s'
      else match split_on delim s' with
           | [] => [String c EmptyString]
           | t :: ts => String c t :: ts
           end
  end.

(** The tokens successive [strtok_r(_, delim, _)] calls return: the
    non-empty pieces. *)
Definition strtok_tokens (delim : Ascii.ascii) (s : string) : list string :=
  filter (fun t => t <> EmptyString) (split_on delim s).

(** What [A2dpCodecs::getCodecConfigAndCapabilities] hands back. *)
Record ConfigAndCapabilities := {
  cc_returned : bool;
  cc_codec_config : btav_a2dp_codec_config_t;
  cc_codecs_local_capabilities : list btav_a2dp_codec_config_t;
  cc_codecs_selectable_capabilities : list btav_a2dp_codec_config_t
}.

Definition set_disabled_codecs_ (r : A2dpCodecs) (m : gmap Z A2dpCodecConfig)
  : A2dpCodecs :=
  {| codec_priorities_ := codec_priorities_ r;
     indexed_codecs_ := indexed_codecs_ r;
     disabled_codecs_ := m;
     ordered_source_codecs_ := ordered_source_codecs_ r;
     ordered_sink_codecs_ := ordered_sink_codecs_ r;
     current_codec_config_ := current_codec_config_ r |}.

Definition set_ordered_sink_codecs_ (r : A2dpCodecs) (l : list Z) : A2dpCodecs :=
  {| codec_priorities_ := codec_priorities_ r;
     indexed_codecs_ := indexed_codecs_ r;
     disabled_codecs_ := disabled_codecs_ r;
     ordered_source_codecs_ := ordered_source_codecs_ r;
     ordered_sink_codecs_ := l;
     current_codec_config_ := current_codec_config_ r |}.

(** [std::map::insert]: a key that is present keeps its value. *)
Definition map_insert_new {V : Type} (k : Z) (v : V) (m : gmap Z V) : gmap Z V :=
  match m !! k with
  | Some _ => m
  | None => <[k := v]> m
  end.

Section RegistryMore.
Context `{K : A2dpConstants} `{F : CodecFamilies} `{N : CodecNegotiation}
        `{I : CodecIndexConstants} `{C : CodecClasses}.

(** The constructor [A2dpCodecs::A2dpCodecs]. *)
Definition new_A2dpCodecs (codec_priorities : list btav_a2dp_codec_config_t)
  : A2dpCodecs :=
  {| codec_priorities_ :=
       foldl (fun m config => map_insert_new (codec_type config)
                                              (codec_priority config) m)
             ∅ codec_priorities;
     indexed_codecs_ := ∅;
     disabled_codecs_ := ∅;
     ordered_source_codecs_ := [];
     ordered_sink_codecs_ := [];
     current_codec_config_ := None |}.

(** [A2dpCodecConfig::createCodec]; [None] is [nullptr]. *)
Definition createCodec (codec_index codec_priority : Z) : option A2dpCodecConfig :=
  let codec_config : option A2dpCodecConfig :=
    if codec_index =? BTAV_A2DP_CODEC_INDEX_SOURCE_SBC then
      Some (new_A2dpCodecConfigSbcSource codec_priority)
    else if codec_index =? BTAV_A2DP_CODEC_INDEX_SINK_SBC then
      Some (new_A2dpCodecConfigSbcSink codec_priority)
    else if codec_index =? BTAV_A2DP_CODEC_INDEX_SOURCE_AAC then
      Some (new_A2dpCodecConfigAacSource codec_priority)
    else if codec_index =? BTAV_A2DP_CODEC_INDEX_SINK_AAC then
      Some (new_A2dpCodecConfigAacSink codec_priority)
    else if codec_index =? BTAV_A2DP_CODEC_INDEX_SOURCE_APTX then
      Some (new_A2dpCodecConfigAptx codec_priority)
    else if codec_index =? BTAV_A2DP_CODEC_INDEX_SOURCE_APTX_HD then
      Some (new_A2dpCodecConfigAptxHd codec_priority)
    else if codec_index =? BTAV_A2DP_CODEC_INDEX_SOURCE_LDAC then
      Some (new_A2dpCodecConfigLdacSource codec_priority)
    else if codec_index =? BTAV_A2DP_CODEC_INDEX_SINK_LDAC then
      Some (new_A2dpCodecConfigLdacSink codec_priority)
    else if codec_index =? BTAV_A2DP_CODEC_INDEX_SOURCE_OPUS then
      Some (new_A2dpCodecConfigOpusSource codec_priority)
    else if codec_index =? BTAV_A2DP_CODEC_INDEX_SINK_OPUS then
      Some (new_A2dpCodecConfigOpusSink codec_priority)
    else if codec_index =? BTAV_A2DP_CODEC_INDEX_SOURCE_LHDCV2 then
      Some (new_A2dpCodecConfigLhdcV2 codec_priority)
    else if codec_index =? BTAV_A2DP_CODEC_INDEX_SOURCE_LHDCV3 then
      Some (new_A2dpCodecConfigLhdcV3 codec_priority)
    else if codec_index =? BTAV_A2DP_CODEC_INDEX_SOURCE_LHDCV5 then
      Some (new_A2dpCodecConfigLhdcV5Source codec_priority)
    else if codec_index =? BTAV_A2DP_CODEC_INDEX_SINK_LHDCV3 then
      Some (new_A2dpCodecConfigLhdcV3Sink codec_priority)
    else if codec_index =? BTAV_A2DP_CODEC_INDEX_SINK_LHDCV5 then
      Some (new_A2dpCodecConfigLhdcV5Sink codec_priority)
    else None in
  match codec_config with
  | Some c =>
      let '(ok, c') := A2dpCodecConfig_init c in
      if negb ok then None else Some c'
  | None => None
  end.

(** One turn of the [while (tok != NULL)] loop of [A2dpCodecs::init]. *)
Definition offload_token (support : gmap Z bool) (tok : string) : gmap Z bool :=
  if String.eqb tok "sbc" then <[BTAV_A2DP_CODEC_INDEX_SOURCE_SBC := true]> support
  else if String.eqb tok "aac" then <[BTAV_A2DP_CODEC_INDEX_SOURCE_AAC := true]> support
  else if String.eqb tok "aptx" then <[BTAV_A2DP_CODEC_INDEX_SOURCE_APTX := true]> support
  else if String.eqb tok "aptxhd" then
    <[BTAV_A2DP_CODEC_INDEX_SOURCE_APTX_HD := true]> support
  else if String.eqb tok "ldac" then <[BTAV_A2DP_CODEC_INDEX_SOURCE_LDAC := true]> support
  else if String.eqb tok "lhdcv2" then
    <[BTAV_A2DP_CODEC_INDEX_SOURCE_LHDCV2 := false]> support
  else if String.eqb tok "lhdcv3" then
    <[BTAV_A2DP_CODEC_INDEX_SOURCE_LHDCV3 := false]> support
  else if String.eqb tok "lhdcv5" then
    <[BTAV_A2DP_CODEC_INDEX_SOURCE_LHDCV5 := false]> support
  else support.

(** The first part of [A2dpCodecs::init]: the offload variables. *)
Definition init_offload (props : SystemProperties) (vars : OffloadVars) : OffloadVars :=
  let status :=
    String.eqb (ro_bluetooth_a2dp_offload_supported props) "true" &&
    String.eqb (persist_bluetooth_a2dp_offload_disabled props) "false" in
  {| a2dp_offload_status := status;
     offload_codec_support :=
       if status then
         foldl offload_token (offload_codec_support vars)
               (strtok_tokens "-"%char (persist_bluetooth_a2dp_offload_cap props))
       else offload_codec_support vars |}.

(** One turn of the [for] loop of [A2dpCodecs::init].  The registry names a
    descriptor by its key in [indexed_codecs_]; a second descriptor for a key
    that is taken could not be named, and the result is [None] then (the
    loop meets every index once, so on a new registry this does not
    happen). *)
Definition init_codec (opus_enabled : bool) (this : A2dpCodecs) (codec_index : Z)
  : option A2dpCodecs :=
  let codec_priority0 :=
    match codec_priorities_ this !! codec_index with
    | Some p => p
    | None => BTAV_A2DP_CODEC_PRIORITY_DEFAULT
    end in
  let codec_priority :=
    if (codec_index =? BTAV_A2DP_CODEC_INDEX_SOURCE_OPUS) && negb opus_enabled
    then BTAV_A2DP_CODEC_PRIORITY_DISABLED else codec_priority0 in
  match createCodec codec_index codec_priority with
  | None => Some this
  | Some codec_config =>
      if codecPriority codec_config =? BTAV_A2DP_CODEC_PRIORITY_DISABLED then
        Some (set_disabled_codecs_ this
                (map_insert_new codec_index codec_config (disabled_codecs_ this)))
      else
        match indexed_codecs_ this !! codec_index with
        | Some _ => None
        | None =>
            let this1 :=
              set_indexed_codecs_ this
                (<[codec_index := codec_config]> (indexed_codecs_ this)) in
            if codec_index <? BTAV_A2DP_CODEC_INDEX_SOURCE_MAX then
              Some (set_ordered_source_codecs_ this1
                      (list_sort (compare_at (indexed_codecs_ this1))
                                 (ordered_source_codecs_ this1 ++ [codec_index])))
            else
              Some (set_ordered_sink_codecs_ this1
                      (list_sort (compare_at (indexed_codecs_ this1))
                                 (ordered_sink_codecs_ this1 ++ [codec_index])))
        end
  end.

(** The [for] loop over a list of codec indices. *)
Fixpoint init_codecs (opus_enabled : bool) (this : A2dpCodecs) (indices : list Z)
  : option A2dpCodecs :=
  match indices with
  | [] => Some this
  | i :: rest =>
      match init_codec opus_enabled this i with
      | None => None
      | Some this' => init_codecs opus_enabled this' rest
      end
  end.

(** [A2dpCodecs::init]: the returned flag, the registry and the offload
    variables on exit. *)
Definition A2dpCodecs_init (this : A2dpCodecs) (props : SystemProperties)
           (vars : OffloadVars) : option (bool * A2dpCodecs * OffloadVars) :=
  let vars' := init_offload props vars in
  let opus_enabled := persist_bluetooth_opus_enabled props in
  this' ← init_codecs opus_enabled this
           (seqZ BTAV_A2DP_CODEC_INDEX_MIN
                 (BTAV_A2DP_CODEC_INDEX_MAX - BTAV_A2DP_CODEC_INDEX_MIN));
  Some (match ordered_source_codecs_ this', ordered_sink_codecs_ this' with
        | _ :: _, _ :: _ => true
        | _, _ => false
        end, this', vars').

(** [A2dpCodecs::findSourceCodecConfig]; [None] is [nullptr]. *)
Definition findSourceCodecConfig (this : A2dpCodecs) (p_codec_info : list Z)
  : option Z :=
  let codec_index := A2DP_SourceCodecIndex p_codec_info in
  if codec_index =? BTAV_A2DP_CODEC_INDEX_MAX then None
  else match indexed_codecs_ this !! codec_index with
       | None => None
       | Some _ => Some codec_index
       end.

(** [A2dpCodecs::findSinkCodecConfig] *)
Definition findSinkCodecConfig (this : A2dpCodecs) (p_codec_info : list Z)
  : option Z :=
  let codec_index := A2DP_SinkCodecIndex p_codec_info in
  if codec_index =? BTAV_A2DP_CODEC_INDEX_MAX then None
  else match indexed_codecs_ this !! codec_index with
       | None => None
       | Some _ => Some codec_index
       end.

(** [A2dpCodecs::isSupportedCodec] *)
Definition isSupportedCodec (this : A2dpCodecs) (codec_index : Z) : bool :=
  bool_decide (is_Some (indexed_codecs_ this !! codec_index)).

(** The body [A2dpCodecs::setCodecConfig] and [A2dpCodecs::setSinkCodecConfig]
    share, once the descriptor is found: the returned flag, the registry and
    the result buffer on exit. *)
Definition set_codec_config_of (this : A2dpCodecs) (a2dp_codec_config : option Z)
           (p_peer_codec_info : list Z) (is_capability : bool)
           (p_result_codec_config : list Z) (select_current_codec : bool)
  : option (bool * A2dpCodecs * list Z) :=
  match a2dp_codec_config with
  | None => Some (false, this, p_result_codec_config)
  | Some p =>
      d ← indexed_codecs_ this !! p;
      let '(success, d', result) :=
        setCodecConfig d p_peer_codec_info is_capability p_result_codec_config in
      let this1 := set_indexed_codecs_ this (<[p := d']> (indexed_codecs_ this)) in
      if negb success then Some (false, this1, result)
      else if select_current_codec then
        Some (true, set_current_codec_config_ this1 (Some p), result)
      else Some (true, this1, result)
  end.

(** [A2dpCodecs::setCodecConfig] *)
Definition A2dpCodecs_setCodecConfig (this : A2dpCodecs)
           (p_peer_codec_info : list Z) (is_capability : bool)
           (p_result_codec_config : list Z) (select_current_codec : bool)
  : option (bool * A2dpCodecs * list Z) :=
  set_codec_config_of this (findSourceCodecConfig this p_peer_codec_info)
    p_peer_codec_info is_capability p_result_codec_config select_current_codec.

(** [A2dpCodecs::setSinkCodecConfig] *)
Definition A2dpCodecs_setSinkCodecConfig (this : A2dpCodecs)
           (p_peer_codec_info : list Z) (is_capability : bool)
           (p_result_codec_config : list Z) (select_current_codec : bool)
  : option (bool * A2dpCodecs * list Z) :=
  set_codec_config_of this (findSinkCodecConfig this p_peer_codec_info)
    p_peer_codec_info is_capability p_result_codec_config select_current_codec.

(** [A2dpCodecs::setCodecAudioConfig].  The outcome's [restart_input] is the
    local variable of that name, which the caller does not see. *)
Definition A2dpCodecs_setCodecAudioConfig
           (this : A2dpCodecs) (codec_audio_config : btav_a2dp_codec_config_t)
           (p_peer_params : tA2DP_ENCODER_INIT_PEER_PARAMS)
           (p_peer_sink_capabilities : list Z)
           (p_result_codec_config : list Z) : option (Outcome A2dpCodecs) :=
  match current_codec_config_ this with
  | None =>
      Some {| returned := false; state := this;
              result_codec_config := p_result_codec_config;
              restart_input := false; restart_output := false;
              config_updated := false |}
  | Some p =>
      d ← indexed_codecs_ this !! p;
      let codec_user_config := getCodecUserConfig d in
      let r := A2dpCodecConfig_setCodecUserConfig d codec_user_config
                 codec_audio_config p_peer_params p_peer_sink_capabilities
                 true p_result_codec_config in
      Some {| returned := returned r;
              state := set_indexed_codecs_ this
                         (<[p := state r]> (indexed_codecs_ this));
              result_codec_config := result_codec_config r;
              restart_input := restart_input r;
              restart_output := restart_output r;
              config_updated := config_updated r |}
  end.

(** The body [setPeerSinkCodecCapabilities] and
    [setPeerSourceCodecCapabilities] share after the validity check. *)
Definition set_peer_capabilities_of (this : A2dpCodecs)
           (a2dp_codec_config : option Z) (p_peer_codec_capabilities : list Z)
  : option (bool * A2dpCodecs) :=
  match a2dp_codec_config with
  | None => Some (false, this)
  | Some p =>
      d ← indexed_codecs_ this !! p;
      let '(ok, d') := setPeerCodecCapabilities d p_peer_codec_capabilities in
      Some (ok, set_indexed_codecs_ this (<[p := d']> (indexed_codecs_ this)))
  end.

(** [A2dpCodecs::setPeerSinkCodecCapabilities] *)
Definition A2dpCodecs_setPeerSinkCodecCapabilities (this : A2dpCodecs)
           (p_peer_codec_capabilities : list Z) : option (bool * A2dpCodecs) :=
  if negb (A2DP_IsPeerSinkCodecValid p_peer_codec_capabilities) then Some (false, this)
  else set_peer_capabilities_of this
         (findSourceCodecConfig this p_peer_codec_capabilities)
         p_peer_codec_capabilities.

(** [A2dpCodecs::setPeerSourceCodecCapabilities] *)
Definition A2dpCodecs_setPeerSourceCodecCapabilities (this : A2dpCodecs)
           (p_peer_codec_capabilities : list Z) : option (bool * A2dpCodecs) :=
  if negb (A2DP_IsPeerSourceCodecValid p_peer_codec_capabilities) then Some (false, this)
  else set_peer_capabilities_of this
         (findSinkCodecConfig this p_peer_codec_capabilities)
         p_peer_codec_capabilities.

(** [A2dpCodecs::getCodecConfigAndCapabilities].  The result is [None] only
    when a pointer that is not a descriptor of the registry is
    dereferenced. *)
Definition getCodecConfigAndCapabilities (this : A2dpCodecs)
  : option ConfigAndCapabilities :=
  codec_config ←
    match current_codec_config_ this with
    | Some c => d ← indexed_codecs_ this !! c; Some (getCodecConfig d)
    | None => Some (init_btav_a2dp_codec_config 0 0)
    end;
  codecs ← mapM (fun p => indexed_codecs_ this !! p) (ordered_source_codecs_ this);
  let usable (codec_capability : btav_a2dp_codec_config_t) : bool :=
    negb ((sample_rate codec_capability =? BTAV_A2DP_CODEC_SAMPLE_RATE_NONE) ||
          (bits_per_sample codec_capability =? BTAV_A2DP_CODEC_BITS_PER_SAMPLE_NONE) ||
          (channel_mode codec_capability =? BTAV_A2DP_CODEC_CHANNEL_MODE_NONE)) in
  Some {| cc_returned := true;
          cc_codec_config := codec_config;
          cc_codecs_local_capabilities := codec_local_capability_ <$> codecs;
          cc_codecs_selectable_capabilities :=
            filter (fun c => usable c = true)
                   (codec_selectable_capability_ <$> codecs) |}.

End RegistryMore.

(** ** The LHDC extended API: copying the codec-specific fields out *)

Class LhdcExtendConstants := {
  LHDC_EXTEND_FUNC_CONFIG_TOTAL_FIXED_SIZE_V1 : Z;
  LHDC_EXTEND_FUNC_A2DP_SPECIFICS1_HEAD_V1 : nat;
  LHDC_EXTEND_FUNC_A2DP_SPECIFICS2_HEAD_V1 : nat;
  LHDC_EXTEND_FUNC_A2DP_SPECIFICS3_HEAD_V1 : nat;
  LHDC_EXTEND_FUNC_A2DP_SPECIFICS4_HEAD_V1 : nat
}.

(** [swapInt64toByteArray].  [byteArray] is a pointer into [buffer], given
    by its offset, or the null pointer ([None]); the result is the returned
    flag and the buffer on exit. *)
Definition swapInt64toByteArray (buffer : list Z) (byteArray : option nat)
           (integer64 : Z) : bool * list Z :=
  match byteArray with
  | None => (false, buffer)
  | Some off =>
      let b7 := <[(off + 7)%nat := to_uint8 (Z.shiftr (Z.land integer64 255) 0)]> buffer in
      let b6 := <[(off + 6)%nat := to_uint8 (Z.shiftr (Z.land integer64 65280) 8)]> b7 in
      let b5 := <[(off + 5)%nat := to_uint8 (Z.shiftr (Z.land integer64 16711680) 16)]> b6 in
      let b4 := <[(off + 4)%nat := to_uint8 (Z.shiftr (Z.land integer64 4278190080) 24)]> b5 in
      let b3 := <[(off + 3)%nat :=
                    to_uint8 (Z.shiftr (Z.land integer64 1095216660480) 32)]> b4 in
      let b2 := <[(off + 2)%nat :=
                    to_uint8 (Z.shiftr (Z.land integer64 280375465082880) 40)]> b3 in
      let b1 := <[(off + 1)%nat :=
                    to_uint8 (Z.shiftr (Z.land integer64 71776119061217280) 48)]> b2 in
      let b0 := <[off :=
                    to_uint8 (Z.shiftr (Z.land integer64 18374686479671623680) 56)]> b1 in
      (true, b0)
  end.

(** The number a run of bytes spells, most significant byte first. *)
Definition big_endian (bytes : list Z) : Z :=
  foldl (fun acc b => acc * 256 + b) 0 bytes.

Section LhdcExtend.
Context `{X : LhdcExtendConstants}.

(** [getLHDCA2DPSpecficV1]: the returned flag and the buffer on exit. *)
Definition getLHDCA2DPSpecficV1 (a2dpCfg : btav_a2dp_codec_config_t)
           (pucConfig : list Z) (clen : Z) : bool * list Z :=
  if clen <? LHDC_EXTEND_FUNC_CONFIG_TOTAL_FIXED_SIZE_V1 then (false, pucConfig)
  else
    let '(ok1, buf1) :=
      swapInt64toByteArray pucConfig
        (Some LHDC_EXTEND_FUNC_A2DP_SPECIFICS1_HEAD_V1) (codec_specific_1 a2dpCfg) in
    if negb ok1 then (false, buf1)
    else
      let '(ok2, buf2) :=
        swapInt64toByteArray buf1
          (Some LHDC_EXTEND_FUNC_A2DP_SPECIFICS2_HEAD_V1) (codec_specific_2 a2dpCfg) in
      if negb ok2 then (false, buf2)
      else
        let '(ok3, buf3) :=
          swapInt64toByteArray buf2
            (Some LHDC_EXTEND_FUNC_A2DP_SPECIFICS3_HEAD_V1) (codec_specific_3 a2dpCfg) in
        if negb ok3 then (false, buf3)
        else
          let '(ok4, buf4) :=
            swapInt64toByteArray buf3
              (Some LHDC_EXTEND_FUNC_A2DP_SPECIFICS4_HEAD_V1)
              (codec_specific_4 a2dpCfg) in
          if negb ok4 then (false, buf4) else (true, buf4).

End LhdcExtend.


(** ** A concrete setting

    One assignment of the header constants and one simple implementation of
    the functions of the other translation units, so that the model can be
    run on concrete buffers and registries.  The theorems below hold for
    every assignment; these definitions only serve to evaluate them. *)

Definition sample_constants : A2dpConstants :=
  {| AVDT_CODEC_TYPE_INDEX := 2;
     A2DP_MEDIA_CT_SBC := 0;
     A2DP_MEDIA_CT_AAC := 2;
     A2DP_MEDIA_CT_NON_A2DP := 255;
     BTAV_A2DP_CODEC_INDEX_MAX := 16;
     BTAV_A2DP_CODEC_PRIORITY_DEFAULT := 0;
     BTAV_A2DP_CODEC_SAMPLE_RATE_NONE := 0;
     BTAV_A2DP_CODEC_BITS_PER_SAMPLE_NONE := 0;
     BTAV_A2DP_CODEC_CHANNEL_MODE_NONE := 0 |}.

Definition sample_offload_constants : OffloadConstants :=
  {| A2DP_LDAC_VENDOR_ID := 301;
     A2DP_LDAC_CODEC_ID := 170;
     A2DP_LDAC_QUALITY_ABR_OFFLOAD := 127;
     A2DP_LDAC_QUALITY_HIGH := 0;
     A2DP_LDAC_QUALITY_MID := 1;
     A2DP_LDAC_QUALITY_LOW := 2;
     A2DP_LHDC_VENDOR_ID := 1338;
     A2DP_LHDCV2_CODEC_ID := 19506;
     A2DP_LHDCV3_CODEC_ID := 19507;
     A2DP_LHDCV5_CODEC_ID := 19509;
     A2DP_LHDC_VERSION_MASK := 15;
     A2DP_LHDC_VER2 := 1;
     A2DP_LHDC_VER3 := 1;
     A2DP_LHDC_VER6 := 8;
     A2DP_LHDC_FEATURE_LLAC := 128;
     A2DP_LHDC_FEATURE_LHDCV4 := 128;
     A2DP_LHDC_FEATURE_MIN_BR := 32;
     A2DP_LHDC_FEATURE_AR := 128;
     A2DP_LHDC_FEATURE_JAS := 64;
     A2DP_LHDC_FEATURE_META := 16;
     A2DP_LHDC_MAX_BIT_RATE_MASK := 48;
     A2DP_LHDC_MAX_BIT_RATE_400K := 32;
     A2DP_LHDC_MAX_BIT_RATE_500K := 16;
     A2DP_LHDC_LL_MASK := 64;
     A2DP_LHDC_CH_SPLIT_MSK := 15;
     A2DP_LHDC_CH_SPLIT_NONE := 1;
     A2DP_LHDC_CH_SPLIT_TWS := 2;
     A2DP_LHDC_QUALITY_LOW0 := 0;
     A2DP_LHDC_QUALITY_LOW1 := 1;
     A2DP_LHDC_QUALITY_LOW2 := 2;
     A2DP_LHDC_QUALITY_LOW3 := 3;
     A2DP_LHDC_QUALITY_LOW4 := 4;
     A2DP_LHDC_QUALITY_LOW := 5;
     A2DP_LHDC_QUALITY_MID := 6;
     A2DP_LHDC_QUALITY_HIGH := 7;
     A2DP_LHDC_QUALITY_HIGH1 := 8;
     A2DP_LHDC_QUALITY_ABR := 9;
     A2DP_LHDCV5_VERSION_MASK := 15;
     A2DP_LHDCV5_VER_1 := 1;
     A2DP_LHDCV5_MAX_BIT_RATE_MASK := 48;
     A2DP_LHDCV5_MAX_BIT_RATE_400K := 48;
     A2DP_LHDCV5_MAX_BIT_RATE_500K := 32;
     A2DP_LHDCV5_MAX_BIT_RATE_900K := 16;
     A2DP_LHDCV5_MIN_BIT_RATE_MASK := 192;
     A2DP_LHDCV5_MIN_BIT_RATE_64K := 192;
     A2DP_LHDCV5_MIN_BIT_RATE_128K := 128;
     A2DP_LHDCV5_MIN_BIT_RATE_256K := 64;
     A2DP_LHDCV5_FRAME_LEN_MASK := 16;
     A2DP_LHDCV5_FEATURE_LL := 64;
     A2DP_LHDCV5_FEATURE_AR := 1;
     A2DP_LHDCV5_FEATURE_JAS := 2;
     A2DP_LHDCV5_FEATURE_META := 4;
     A2DP_LHDCV5_AR_ON := 1;
     A2DP_OFFLOAD_LHDC_CFG_VER := 6;
     A2DP_OFFLOAD_LHDC_CFG_BITRATE_L := 7;
     A2DP_OFFLOAD_LHDC_CFG_BITRATE_H := 8;
     A2DP_OFFLOAD_LHDC_CFG_MAXBITRATE_L := 9;
     A2DP_OFFLOAD_LHDC_CFG_MAXBITRATE_H := 10;
     A2DP_OFFLOAD_LHDC_CFG_MINBITRATE_L := 11;
     A2DP_OFFLOAD_LHDC_CFG_MINBITRATE_H := 12;
     A2DP_OFFLOAD_LHDC_CFG_FRAMEDUR := 13;
     A2DP_OFFLOAD_LHDC_CFG_INTERVAL := 14;
     A2DP_OFFLOAD_LHDC_CFG_SPEC1 := 15;
     A2DP_OFFLOAD_LHDC_CFG_SPEC2 := 16;
     A2DP_OFFLOAD_LHDCV2_VER_1 := 1;
     A2DP_OFFLOAD_LHDCV3_V3_ONLY := 2;
     A2DP_OFFLOAD_LHDCV3_V4_ONLY := 3;
     A2DP_OFFLOAD_LHDCV3_LLAC := 4;
     A2DP_OFFLOAD_LHDCV5_VER_1 := 5;
     A2DP_OFFLOAD_LHDC_QUALITY_LOW0 := 64;
     A2DP_OFFLOAD_LHDC_QUALITY_LOW1 := 128;
     A2DP_OFFLOAD_LHDC_QUALITY_LOW2 := 192;
     A2DP_OFFLOAD_LHDC_QUALITY_LOW3 := 256;
     A2DP_OFFLOAD_LHDC_QUALITY_LOW4 := 320;
     A2DP_OFFLOAD_LHDC_QUALITY_LOW := 400;
     A2DP_OFFLOAD_LHDC_QUALITY_MID := 500;
     A2DP_OFFLOAD_LHDC_QUALITY_HIGH := 900;
     A2DP_OFFLOAD_LHDC_QUALITY_HIGH1 := 1000;
     A2DP_OFFLOAD_LHDC_QUALITY_ABR := 32768;
     A2DP_OFFLOAD_LHDC_DATA_INTERVAL_10MS := 10;
     A2DP_OFFLOAD_LHDC_DATA_INTERVAL_20MS := 20;
     A2DP_OFFLOAD_LHDC_FRAME_DURATION_5000US := 50;
     A2DP_OFFLOAD_LHDC_SPECIFIC_FEATURE_AR := 1;
     A2DP_OFFLOAD_LHDC_SPECIFIC_FEATURE_JAS := 2;
     A2DP_OFFLOAD_LHDC_SPECIFIC_FEATURE_META := 4;
     A2DP_OFFLOAD_LHDC_SPECIFIC_FEATURE_SPLIT := 1;
     A2DP_OFFLOAD_LHDC_SPECIFIC_ACTION_AR_ON := 1 |}.

(** Bytes [i .. i+n-1] of two buffers agree. *)
Fixpoint bytes_equal (a b : list Z) (i n : nat) : bool :=
  match n with
  | O => true
  | S n' => (byte_at a i =? byte_at b i) && bytes_equal a b (S i) n'
  end.

(** Little-endian number in bytes [i .. i+n-1]. *)
Fixpoint bytes_le (p : list Z) (i n : nat) : Z :=
  match n with
  | O => 0
  | S n' => byte_at p i + 256 * bytes_le p (S i) n'
  end.

(** A buffer announces a codec when its length byte fits the family. *)
Definition sample_families : CodecFamilies :=
  let sbc p := byte_at p 0 =? 6 in
  let aac p := byte_at p 0 =? 8 in
  let vendor p := 8 <=? byte_at p 0 in
  {| A2DP_IsSourceCodecValidSbc := sbc;
     A2DP_IsSourceCodecValidAac := aac;
     A2DP_IsVendorSourceCodecValid := vendor;
     A2DP_IsSinkCodecValidSbc := sbc;
     A2DP_IsSinkCodecValidAac := aac;
     A2DP_IsVendorSinkCodecValid := vendor;
     A2DP_IsPeerSourceCodecValidSbc := sbc;
     A2DP_IsPeerSourceCodecValidAac := aac;
     A2DP_IsVendorPeerSourceCodecValid := vendor;
     A2DP_IsPeerSinkCodecValidSbc := sbc;
     A2DP_IsPeerSinkCodecValidAac := aac;
     A2DP_IsVendorPeerSinkCodecValid := vendor;
     A2DP_VendorUsesRtpHeader := fun _ _ => true;
     A2DP_CodecNameSbc := fun _ => "SBC"%string;
     A2DP_CodecNameAac := fun _ => "AAC"%string;
     A2DP_VendorCodecName := fun _ => "VENDOR"%string;
     A2DP_CodecEqualsSbc := fun a b => bytes_equal a b 3 4;
     A2DP_CodecEqualsAac := fun a b => bytes_equal a b 3 6;
     A2DP_VendorCodecEquals := fun a b => bytes_equal a b 3 10;
     A2DP_GetTrackSampleRateSbc := fun _ => 44100;
     A2DP_GetTrackSampleRateAac := fun _ => 44100;
     A2DP_VendorGetTrackSampleRate := fun _ => 48000;
     A2DP_SourceCodecIndexSbc := fun _ => 0;
     A2DP_SourceCodecIndexAac := fun _ => 1;
     A2DP_VendorSourceCodecIndex := fun _ => 2;
     A2DP_SinkCodecIndexSbc := fun _ => 10;
     A2DP_SinkCodecIndexAac := fun _ => 11;
     A2DP_VendorSinkCodecIndex := fun _ => 12;
     A2DP_VendorCodecGetVendorId := fun p => bytes_le p 3 4;
     A2DP_VendorCodecGetCodecId := fun p => bytes_le p 7 2 |}.

Definition set_ota_codec_config_ (d : A2dpCodecConfig) (ota : list Z) : A2dpCodecConfig :=
  {| codec_index_ := codec_index_ d; name_ := name_ d;
     default_codec_priority_ := default_codec_priority_ d;
     codec_priority_ := codec_priority_ d;
     codec_config_ := codec_config_ d;
     codec_capability_ := codec_capability_ d;
     codec_local_capability_ := codec_local_capability_ d;
     codec_selectable_capability_ := codec_selectable_capability_ d;
     codec_user_config_ := codec_user_config_ d;
     codec_audio_config_ := codec_audio_config_ d;
     ota_codec_config_ := ota;
     ota_codec_peer_capability_ := ota_codec_peer_capability_ d;
     ota_codec_peer_config_ := ota_codec_peer_config_ d |}.

(** A simple negotiation in the manner of the codec classes: a peer buffer
    whose length byte is not 6 is refused and nothing is touched; otherwise
    the user's choices that are set override 44100 Hz / 16 bit / stereo, the
    user's non-zero codec-specific fields are copied into the configuration,
    and the peer buffer becomes the wire configuration, copied to the result
    buffer. *)
Definition sample_setCodecConfig (this : A2dpCodecConfig) (p_peer_codec_info : list Z)
           (is_capability : bool) (p_result_codec_config : list Z)
  : bool * A2dpCodecConfig * list Z :=
  if negb (byte_at p_peer_codec_info 0 =? 6) then (false, this, p_result_codec_config)
  else
    let u := codec_user_config_ this in
    let c := codec_config_ this in
    let pick (x dflt : Z) := if x =? 0 then dflt else x in
    let c' :=
      {| codec_type := codec_type c; codec_priority := codec_priority c;
         sample_rate := pick (sample_rate u) 1;
         bits_per_sample := pick (bits_per_sample u) 1;
         channel_mode := pick (channel_mode u) 2;
         codec_specific_1 := pick (codec_specific_1 u) (codec_specific_1 c);
         codec_specific_2 := pick (codec_specific_2 u) (codec_specific_2 c);
         codec_specific_3 := pick (codec_specific_3 u) (codec_specific_3 c);
         codec_specific_4 := pick (codec_specific_4 u) (codec_specific_4 c) |} in
    (true, set_ota_codec_config_ (set_codec_config_ this c') p_peer_codec_info,
     p_peer_codec_info).

Definition sample_negotiation : CodecNegotiation :=
  {| tA2DP_ENCODER_INIT_PEER_PARAMS := unit;
     setCodecConfig := sample_setCodecConfig |}.

(** An SBC wire configuration: 44100 Hz, stereo, 16 blocks, 8 subbands,
    loudness allocation, bitpool 2 to 53. *)
Definition sbc_wire_config : list Z := [6; 0; 0; 34; 21; 2; 53].

(** A vendor wire buffer with the given vendor id, codec id and the six
    bytes that follow them (bytes 9 to 14). *)
Definition vendor_wire_config (vendor_id codec_id : Z) (tail : list Z) : list Z :=
  [Z.of_nat (8 + length tail); 0; 255;
   vendor_id mod 256; (vendor_id / 256) mod 256;
   (vendor_id / 65536) mod 256; (vendor_id / 16777216) mod 256;
   codec_id mod 256; (codec_id / 256) mod 256] ++ tail.

(** A descriptor as the constructor makes it, with a wire configuration. *)
Definition sample_codec (codec_index : Z) (name : string) (ota : list Z)
  : A2dpCodecConfig :=
  set_ota_codec_config_
    (@new_A2dpCodecConfig sample_constants codec_index name 0) ota.

(** A user configuration that only names a codec and a priority. *)
Definition user_priority_config (codec_index priority : Z) : btav_a2dp_codec_config_t :=
  {| codec_type := codec_index; codec_priority := priority;
     sample_rate := 0; bits_per_sample := 0; channel_mode := 0;
     codec_specific_1 := 0; codec_specific_2 := 0;
     codec_specific_3 := 0; codec_specific_4 := 0 |}.

(** A descriptor that has negotiated once with no user or audio override. *)
Definition negotiated_codec : A2dpCodecConfig :=
  state (@A2dpCodecConfig_setCodecUserConfig sample_constants sample_families
           sample_negotiation (sample_codec 0 "SBC" [])
           (user_priority_config 0 0) (user_priority_config 0 0) tt
           sbc_wire_config true []).

(** A user configuration that sets nothing but [codec_specific_4]. *)
Definition user_config_specific_4 (v : Z) : btav_a2dp_codec_config_t :=
  {| codec_type := 0; codec_priority := 0;
     sample_rate := 0; bits_per_sample := 0; channel_mode := 0;
     codec_specific_1 := 0; codec_specific_2 := 0;
     codec_specific_3 := 0; codec_specific_4 := v |}.

(** A registry with three source codecs (indices 0, 1 and 2, which the
    constructor gives the priorities 1001, 2001 and 3001) and two sink codecs
    (indices 10 and 11); the source codec 2 is the current one. *)
Definition sample_registry : A2dpCodecs :=
  {| codec_priorities_ := ∅;
     indexed_codecs_ :=
       <[0 := sample_codec 0 "SBC" sbc_wire_config]>
         (<[1 := sample_codec 1 "A" sbc_wire_config]>
            (<[2 := sample_codec 2 "B" sbc_wire_config]>
               (<[10 := sample_codec 10 "SINK A" sbc_wire_config]>
                  (<[11 := sample_codec 11 "SINK B" sbc_wire_config]> ∅))));
     disabled_codecs_ := ∅;
     ordered_source_codecs_ := [2; 1; 0];
     ordered_sink_codecs_ := [11; 10];
     current_codec_config_ := Some 2 |}.

(** The sample registry after the user has given codec 1 the priority 4000. *)
Definition sample_registry_after_switch : A2dpCodecs :=
  match @A2dpCodecs_setCodecUserConfig sample_constants sample_families
          sample_negotiation sample_registry (user_priority_config 1 4000) tt
          sbc_wire_config [] with
  | Some o => state o
  | None => sample_registry
  end.



(** Sample values of the codec indices: nine source codecs from 0 (index 9
    is not in use), six sink codecs from 10. *)
Definition sample_index_constants : CodecIndexConstants :=
  {| BTAV_A2DP_CODEC_INDEX_MIN := 0;
     BTAV_A2DP_CODEC_INDEX_SOURCE_SBC := 0;
     BTAV_A2DP_CODEC_INDEX_SOURCE_AAC := 1;
     BTAV_A2DP_CODEC_INDEX_SOURCE_APTX := 2;
     BTAV_A2DP_CODEC_INDEX_SOURCE_APTX_HD := 3;
     BTAV_A2DP_CODEC_INDEX_SOURCE_LDAC := 4;
     BTAV_A2DP_CODEC_INDEX_SOURCE_OPUS := 5;
     BTAV_A2DP_CODEC_INDEX_SOURCE_LHDCV2 := 6;
     BTAV_A2DP_CODEC_INDEX_SOURCE_LHDCV3 := 7;
     BTAV_A2DP_CODEC_INDEX_SOURCE_LHDCV5 := 8;
     BTAV_A2DP_CODEC_INDEX_SOURCE_MAX := 10;
     BTAV_A2DP_CODEC_INDEX_SINK_SBC := 10;
     BTAV_A2DP_CODEC_INDEX_SINK_AAC := 11;
     BTAV_A2DP_CODEC_INDEX_SINK_LDAC := 12;
     BTAV_A2DP_CODEC_INDEX_SINK_OPUS := 13;
     BTAV_A2DP_CODEC_INDEX_SINK_LHDCV3 := 14;
     BTAV_A2DP_CODEC_INDEX_SINK_LHDCV5 := 15;
     BTAV_A2DP_CODEC_PRIORITY_DISABLED := -1 |}.

Definition sample_families_more : CodecFamiliesMore :=
  {| A2DP_GetBitrateSbc := 328000;
     A2DP_GetBitRateAac := fun _ => 320000;
     A2DP_VendorGetBitRate := fun _ => 990000;
     A2DP_IsSinkCodecSupportedSbc := fun p => byte_at p 0 =? 6;
     A2DP_IsSinkCodecSupportedAac := fun p => byte_at p 0 =? 8;
     A2DP_IsVendorSinkCodecSupported := fun p => 8 <=? byte_at p 0;
     A2DP_IsPeerSourceCodecSupportedSbc := fun p => byte_at p 0 =? 6;
     A2DP_IsPeerSourceCodecSupportedAac := fun p => byte_at p 0 =? 8;
     A2DP_IsVendorPeerSourceCodecSupported := fun p => 8 <=? byte_at p 0;
     A2DP_InitDefaultCodecSbc := fun _ => [6; 0; 0; 33; 21; 2; 53];
     A2DP_CodecTypeEqualsSbc := fun _ _ => true;
     A2DP_CodecTypeEqualsAac := fun _ _ => true;
     A2DP_VendorCodecTypeEquals := fun a b => bytes_equal a b 3 6;
     A2DP_GetTrackBitsPerSampleSbc := fun _ => 16;
     A2DP_GetTrackBitsPerSampleAac := fun _ => 16;
     A2DP_VendorGetTrackBitsPerSample := fun _ => 24;
     A2DP_GetTrackChannelCountSbc := fun _ => 2;
     A2DP_GetTrackChannelCountAac := fun _ => 2;
     A2DP_VendorGetTrackChannelCount := fun _ => 2;
     A2DP_GetSinkTrackChannelTypeSbc := fun _ => 3;
     A2DP_GetSinkTrackChannelTypeAac := fun _ => 3;
     A2DP_VendorGetSinkTrackChannelType := fun _ => 3;
     A2DP_GetEncoderInterfaceSbc := fun _ => Some {| get_effective_frame_size := 119 |};
     A2DP_GetEncoderInterfaceAac := fun _ => Some {| get_effective_frame_size := 0 |};
     A2DP_VendorGetEncoderInterface := fun _ => None;
     A2DP_AdjustCodecSbc := fun p => (true, p);
     A2DP_AdjustCodecAac := fun p => (true, p);
     A2DP_VendorAdjustCodec := fun p => (true, p);
     A2DP_CodecIndexStrSbc := "SBC"%string;
     A2DP_CodecIndexStrSbcSink := "SBC SINK"%string;
     A2DP_CodecIndexStrAac := "AAC"%string;
     A2DP_CodecIndexStrAacSink := "AAC SINK"%string;
     A2DP_VendorCodecIndexStr := fun _ => "VENDOR"%string;
     A2DP_InitCodecConfigSbc := fun c => (true, c);
     A2DP_InitCodecConfigSbcSink := fun c => (true, c);
     A2DP_InitCodecConfigAac := fun c => (true, c);
     A2DP_InitCodecConfigAacSink := fun c => (true, c);
     A2DP_VendorInitCodecConfig := fun _ c => (true, c);
     A2DP_CodecInfoStringSbc := fun _ => "SBC"%string;
     A2DP_CodecInfoStringAac := fun _ => "AAC"%string;
     A2DP_VendorCodecInfoString := fun _ => "VENDOR"%string;
     loghex := fun _ => "0x"%string |}.

(** Sample codec classes: each constructor is the base-class constructor
    with the index of the class; [init()] fails for the two aptX classes and
    succeeds for the others; [setPeerCodecCapabilities] records the buffer. *)
Definition sample_codec_classes : CodecClasses :=
  let make (codec_index : Z) (name : string) (codec_priority : Z) :=
    @new_A2dpCodecConfig sample_constants codec_index name codec_priority in
  {| new_A2dpCodecConfigSbcSource := make 0 "SBC"%string;
     new_A2dpCodecConfigSbcSink := make 10 "SBC SINK"%string;
     new_A2dpCodecConfigAacSource := make 1 "AAC"%string;
     new_A2dpCodecConfigAacSink := make 11 "AAC SINK"%string;
     new_A2dpCodecConfigAptx := make 2 "aptX"%string;
     new_A2dpCodecConfigAptxHd := make 3 "aptX-HD"%string;
     new_A2dpCodecConfigLdacSource := make 4 "LDAC"%string;
     new_A2dpCodecConfigLdacSink := make 12 "LDAC SINK"%string;
     new_A2dpCodecConfigOpusSource := make 5 "Opus"%string;
     new_A2dpCodecConfigOpusSink := make 13 "Opus SINK"%string;
     new_A2dpCodecConfigLhdcV2 := make 6 "LHDC V2"%string;
     new_A2dpCodecConfigLhdcV3 := make 7 "LHDC V3"%string;
     new_A2dpCodecConfigLhdcV5Source := make 8 "LHDC V5"%string;
     new_A2dpCodecConfigLhdcV3Sink := make 14 "LHDC V3 SINK"%string;
     new_A2dpCodecConfigLhdcV5Sink := make 15 "LHDC V5 SINK"%string;
     A2dpCodecConfig_init :=
       fun c => (negb ((codec_index_ c =? 2) || (codec_index_ c =? 3)), c);
     setPeerCodecCapabilities :=
       fun c p =>
         (true,
          {| codec_index_ := codec_index_ c; name_ := name_ c;
             default_codec_priority_ := default_codec_priority_ c;
             codec_priority_ := codec_priority_ c;
             codec_config_ := codec_config_ c;
             codec_capability_ := codec_capability_ c;
             codec_local_capability_ := codec_local_capability_ c;
             codec_selectable_capability_ := codec_selectable_capability_ c;
             codec_user_config_ := codec_user_config_ c;
             codec_audio_config_ := codec_audio_config_ c;
             ota_codec_config_ := ota_codec_config_ c;
             ota_codec_peer_capability_ := p;
             ota_codec_peer_config_ := ota_codec_peer_config_ c |}) |}.

(** A codec-information array of 20 bytes. *)
Definition sample_avdt_constants : AvdtConstants :=
  {| AVDT_CODEC_SIZE := 20 |}.

Definition sample_lhdc_extend_constants : LhdcExtendConstants :=
  {| LHDC_EXTEND_FUNC_CONFIG_TOTAL_FIXED_SIZE_V1 := 41;
     LHDC_EXTEND_FUNC_A2DP_SPECIFICS1_HEAD_V1 := 9;
     LHDC_EXTEND_FUNC_A2DP_SPECIFICS2_HEAD_V1 := 17;
     LHDC_EXTEND_FUNC_A2DP_SPECIFICS3_HEAD_V1 := 25;
     LHDC_EXTEND_FUNC_A2DP_SPECIFICS4_HEAD_V1 := 33 |}.

(** Sample properties: offload supported and not disabled, with four
    capability tokens; Opus not enabled. *)
Definition sample_properties : SystemProperties :=
  {| ro_bluetooth_a2dp_offload_supported := "true";
     persist_bluetooth_a2dp_offload_disabled := "false";
     persist_bluetooth_a2dp_offload_cap := "sbc-aac--lhdcv3-ldac";
     persist_bluetooth_opus_enabled := false |}.

Definition sample_offload_vars : OffloadVars :=
  {| a2dp_offload_status := false; offload_codec_support := ∅ |}.

(** A priority table as the constructor gets it: LDAC (4) first, AAC (1)
    disabled, and a second entry for LDAC. *)
Definition sample_priorities : list btav_a2dp_codec_config_t :=
  [user_priority_config 4 9000; user_priority_config 1 (-1);
   user_priority_config 4 50].


(** What holds of the registry when the [for] loop of [A2dpCodecs::init]
    has dealt with the codec indices below [lo]. *)
Definition init_invariant `{K : A2dpConstants} `{I : CodecIndexConstants}
           (lo : Z) (this : A2dpCodecs) : Prop :=
  (forall k, is_Some (indexed_codecs_ this !! k) ->
             BTAV_A2DP_CODEC_INDEX_MIN <= k < lo) /\
  (forall k, k ∈ ordered_source_codecs_ this <->
             is_Some (indexed_codecs_ this !! k) /\
             k < BTAV_A2DP_CODEC_INDEX_SOURCE_MAX) /\
  (forall k, k ∈ ordered_sink_codecs_ this <->
             is_Some (indexed_codecs_ this !! k) /\
             BTAV_A2DP_CODEC_INDEX_SOURCE_MAX <= k) /\
  NoDup (ordered_source_codecs_ this) /\
  NoDup (ordered_sink_codecs_ this) /\
  sorted_by_priority (indexed_codecs_ this) (ordered_source_codecs_ this) /\
  sorted_by_priority (indexed_codecs_ this) (ordered_sink_codecs_ this) /\
  (forall k d, indexed_codecs_ this !! k = Some d ->
               codecPriority d <> BTAV_A2DP_CODEC_PRIORITY_DISABLED) /\
  (forall k d, disabled_codecs_ this !! k = Some d ->
               codecPriority d = BTAV_A2DP_CODEC_PRIORITY_DISABLED).


(** * Properties *)

(** ** Capability dispatch *)

Section DispatchFacts.
Context `{K : A2dpConstants} `{F : CodecFamilies}.

Lemma switch_codec_type_default {A} (t : Z) (sbc aac non_a2dp dflt : A) :
  t <> A2DP_MEDIA_CT_SBC -> t <> A2DP_MEDIA_CT_AAC ->
  t <> A2DP_MEDIA_CT_NON_A2DP ->
  switch_codec_type t sbc aac non_a2dp dflt = dflt.
Proof.
  intros Hs Ha Hn. unfold switch_codec_type.
  destruct (Z.eqb_spec t A2DP_MEDIA_CT_SBC); [contradiction|].
  destruct (Z.eqb_spec t A2DP_MEDIA_CT_AAC); [contradiction|].
  destruct (Z.eqb_spec t A2DP_MEDIA_CT_NON_A2DP); [contradiction|].
  reflexivity.
Qed.

Lemma switch_codec_type_sbc {A} (t : Z) (sbc aac non_a2dp dflt : A) :
  t = A2DP_MEDIA_CT_SBC -> switch_codec_type t sbc aac non_a2dp dflt = sbc.
Proof. intros ->. unfold switch_codec_type. by rewrite Z.eqb_refl. Qed.

Lemma switch_codec_type_non_a2dp {A} (t : Z) (sbc aac non_a2dp dflt : A) :
  t = A2DP_MEDIA_CT_NON_A2DP ->
  A2DP_MEDIA_CT_NON_A2DP <> A2DP_MEDIA_CT_SBC ->
  A2DP_MEDIA_CT_NON_A2DP <> A2DP_MEDIA_CT_AAC ->
  switch_codec_type t sbc aac non_a2dp dflt = non_a2dp.
Proof.
  intros -> Hs Ha. unfold switch_codec_type.
  destruct (Z.eqb_spec A2DP_MEDIA_CT_NON_A2DP A2DP_MEDIA_CT_SBC); [contradiction|].
  destruct (Z.eqb_spec A2DP_MEDIA_CT_NON_A2DP A2DP_MEDIA_CT_AAC); [contradiction|].
  by rewrite Z.eqb_refl.
Qed.

(** C9.  A buffer whose codec-type tag is none of SBC, AAC and NON_A2DP is
    answered by the default of every switch: the four validity predicates
    return false, [A2DP_GetTrackSampleRate] returns -1, [A2DP_CodecName]
    returns "UNKNOWN CODEC" and [A2DP_SourceCodecIndex] returns
    [BTAV_A2DP_CODEC_INDEX_MAX].  All of them are plain values: nothing
    else happens. *)
Theorem unknown_tag_sentinels (p_codec_info : list Z) :
  A2DP_GetCodecType p_codec_info <> A2DP_MEDIA_CT_SBC ->
  A2DP_GetCodecType p_codec_info <> A2DP_MEDIA_CT_AAC ->
  A2DP_GetCodecType p_codec_info <> A2DP_MEDIA_CT_NON_A2DP ->
  A2DP_IsSourceCodecValid p_codec_info = false /\
  A2DP_IsSinkCodecValid p_codec_info = false /\
  A2DP_IsPeerSourceCodecValid p_codec_info = false /\
  A2DP_IsPeerSinkCodecValid p_codec_info = false /\
  A2DP_GetTrackSampleRate p_codec_info = -1 /\
  A2DP_CodecName p_codec_info = "UNKNOWN CODEC"%string /\
  A2DP_SourceCodecIndex p_codec_info = BTAV_A2DP_CODEC_INDEX_MAX.
Proof.
  intros Hs Ha Hn.
  unfold A2DP_IsSourceCodecValid, A2DP_IsSinkCodecValid,
    A2DP_IsPeerSourceCodecValid, A2DP_IsPeerSinkCodecValid,
    A2DP_GetTrackSampleRate, A2DP_CodecName, A2DP_SourceCodecIndex.
  by rewrite !switch_codec_type_default.
Qed.

(** C10.  [A2DP_UsesRtpHeader] answers true for every buffer whose
    codec-type tag is not NON_A2DP, whatever the tag is (known or not);
    for a NON_A2DP tag the answer is the vendor policy's. *)
Theorem uses_rtp_header_unless_vendor (content_protection_enabled : bool)
        (p_codec_info : list Z) :
  (A2DP_GetCodecType p_codec_info <> A2DP_MEDIA_CT_NON_A2DP ->
   A2DP_UsesRtpHeader content_protection_enabled p_codec_info = true) /\
  (A2DP_GetCodecType p_codec_info = A2DP_MEDIA_CT_NON_A2DP ->
   A2DP_UsesRtpHeader content_protection_enabled p_codec_info =
   A2DP_VendorUsesRtpHeader content_protection_enabled p_codec_info).
Proof.
  unfold A2DP_UsesRtpHeader. split; intros H.
  - destruct (Z.eqb_spec (A2DP_GetCodecType p_codec_info) A2DP_MEDIA_CT_NON_A2DP);
      [contradiction | reflexivity].
  - rewrite H, Z.eqb_refl. reflexivity.
Qed.

End DispatchFacts.

(** C9 on a buffer whose tag byte is 1. *)
Lemma unknown_tag_sentinels_witness :
  @A2DP_IsSourceCodecValid sample_constants sample_families [6; 0; 1; 34; 21; 2; 53] = false /\
  @A2DP_IsSinkCodecValid sample_constants sample_families [6; 0; 1; 34; 21; 2; 53] = false /\
  @A2DP_IsPeerSourceCodecValid sample_constants sample_families [6; 0; 1; 34; 21; 2; 53] = false /\
  @A2DP_IsPeerSinkCodecValid sample_constants sample_families [6; 0; 1; 34; 21; 2; 53] = false /\
  @A2DP_GetTrackSampleRate sample_constants sample_families [6; 0; 1; 34; 21; 2; 53] = -1 /\
  @A2DP_CodecName sample_constants sample_families [6; 0; 1; 34; 21; 2; 53]
    = "UNKNOWN CODEC"%string /\
  @A2DP_SourceCodecIndex sample_constants sample_families [6; 0; 1; 34; 21; 2; 53] = 16.
Proof.
  apply (@unknown_tag_sentinels sample_constants sample_families
           [6; 0; 1; 34; 21; 2; 53]); vm_compute; discriminate.
Defined.

(** C10 on a buffer with the unknown tag 1 and on an SBC buffer. *)
Lemma uses_rtp_header_unless_vendor_witness :
  @A2DP_UsesRtpHeader sample_constants sample_families false [6; 0; 1; 34; 21; 2; 53] = true /\
  @A2DP_UsesRtpHeader sample_constants sample_families true sbc_wire_config = true.
Proof.
  split.
  - apply (proj1 (@uses_rtp_header_unless_vendor sample_constants sample_families
                    false [6; 0; 1; 34; 21; 2; 53])).
    vm_compute; discriminate.
  - apply (proj1 (@uses_rtp_header_unless_vendor sample_constants sample_families
                    true sbc_wire_config)).
    vm_compute; discriminate.
Defined.


(** ** The offload encoder *)

Section OffloadFacts.
Context `{K : A2dpConstants} `{F : CodecFamilies} `{O : OffloadConstants}.

Lemma lhdc_split_mode_unsupported (codec_config codec_info : list Z) :
  lhdc_split_unsupported codec_config ->
  (lhdc_split_mode codec_config codec_info).1 = false.
Proof.
  unfold lhdc_split_unsupported, lhdc_split_mode. cbv zeta. intros [Hn Ht].
  destruct (Z.eqb_spec (Z.land (byte_at codec_config 11) A2DP_LHDC_CH_SPLIT_MSK)
                       A2DP_LHDC_CH_SPLIT_NONE); [contradiction|].
  destruct (Z.eqb_spec (Z.land (byte_at codec_config 11) A2DP_LHDC_CH_SPLIT_MSK)
                       A2DP_LHDC_CH_SPLIT_TWS); [contradiction|].
  reflexivity.
Qed.

Lemma offload_lhdcv3_unsupported (codec_config : list Z) (specific_1 : Z)
      (codec_info : list Z) :
  lhdcv3_unsupported codec_config ->
  (offload_lhdcv3 codec_config specific_1 codec_info).1 = false.
Proof.
  unfold lhdcv3_unsupported, offload_lhdcv3. cbv zeta. intros [[H3 H6] | Hsplit].
  - destruct (Z.eqb_spec (Z.land (byte_at codec_config 10) A2DP_LHDC_VERSION_MASK)
                         A2DP_LHDC_VER3); [contradiction|].
    destruct (Z.eqb_spec (Z.land (byte_at codec_config 10) A2DP_LHDC_VERSION_MASK)
                         A2DP_LHDC_VER6); [contradiction|].
    reflexivity.
  - destruct (negb _ && negb _); [reflexivity|].
    by apply lhdc_split_mode_unsupported.
Qed.

Lemma offload_lhdcv2_unsupported (codec_config : list Z) (specific_1 : Z)
      (codec_info : list Z) :
  lhdcv2_unsupported codec_config ->
  (offload_lhdcv2 codec_config specific_1 codec_info).1 = false.
Proof.
  unfold lhdcv2_unsupported, offload_lhdcv2. cbv zeta. intros [Hv | Hsplit].
  - destruct (Z.gtb_spec (Z.land (byte_at codec_config 10) A2DP_LHDC_VERSION_MASK)
                         A2DP_LHDC_VER2); [reflexivity | lia].
  - destruct (_ >? _); [reflexivity|].
    by apply lhdc_split_mode_unsupported.
Qed.

Lemma offload_lhdcv5_unsupported (codec_config : list Z) (specific_1 : Z)
      (codec_info : list Z) :
  lhdcv5_unsupported codec_config ->
  (offload_lhdcv5 codec_config specific_1 codec_info).1 = false.
Proof.
  unfold lhdcv5_unsupported, offload_lhdcv5. cbv zeta. intros [Hv | Hf].
  - destruct (Z.eqb_spec (Z.land (byte_at codec_config 11) A2DP_LHDCV5_VERSION_MASK)
                         A2DP_LHDCV5_VER_1); [contradiction | reflexivity].
  - destruct (negb (_ =? A2DP_LHDCV5_VER_1)); [reflexivity|].
    rewrite Hf. reflexivity.
Qed.

(** C7.  On a vendor (NON_A2DP) wire configuration of the LHDC vendor,
    [getCodecSpecificConfig] returns false
    - for the LHDC V3 codec id when the version bits are neither VER3 nor
      VER6, or the split mode is neither NONE nor TWS;
    - for the LHDC V2 codec id when the version bits exceed VER2, or the
      split mode is neither NONE nor TWS;
    - for the LHDC V5 codec id when the version bits are not VER_1, or the
      frame-length bit is not set.
    The case labels and the vendor and codec ids are taken to be distinct, as
    they are in the headers. *)
Theorem lhdc_unsupported_is_rejected (this : A2dpCodecConfig) (codec_info : list Z) :
  let codec_config := ota_codec_config_ this in
  A2DP_MEDIA_CT_NON_A2DP <> A2DP_MEDIA_CT_SBC ->
  A2DP_MEDIA_CT_NON_A2DP <> A2DP_MEDIA_CT_AAC ->
  A2DP_LHDC_VENDOR_ID <> A2DP_LDAC_VENDOR_ID ->
  A2DP_LHDCV2_CODEC_ID <> A2DP_LHDCV3_CODEC_ID ->
  A2DP_LHDCV5_CODEC_ID <> A2DP_LHDCV3_CODEC_ID ->
  A2DP_LHDCV5_CODEC_ID <> A2DP_LHDCV2_CODEC_ID ->
  A2DP_GetCodecType codec_config = A2DP_MEDIA_CT_NON_A2DP ->
  A2DP_VendorCodecGetVendorId codec_config = A2DP_LHDC_VENDOR_ID ->
  (A2DP_VendorCodecGetCodecId codec_config = A2DP_LHDCV3_CODEC_ID /\
   lhdcv3_unsupported codec_config) \/
  (A2DP_VendorCodecGetCodecId codec_config = A2DP_LHDCV2_CODEC_ID /\
   lhdcv2_unsupported codec_config) \/
  (A2DP_VendorCodecGetCodecId codec_config = A2DP_LHDCV5_CODEC_ID /\
   lhdcv5_unsupported codec_config) ->
  (getCodecSpecificConfig this codec_info).1 = false.
Proof.
  intros codec_config Hsbc Haac Hldac H23 H53 H52 Htag Hvendor Hcase.
  unfold getCodecSpecificConfig. fold codec_config.
  destruct (negb (A2DP_IsSourceCodecValid codec_config)); [reflexivity|].
  rewrite Htag.
  destruct (Z.eqb_spec A2DP_MEDIA_CT_NON_A2DP A2DP_MEDIA_CT_SBC); [contradiction|].
  destruct (Z.eqb_spec A2DP_MEDIA_CT_NON_A2DP A2DP_MEDIA_CT_AAC); [contradiction|].
  rewrite Z.eqb_refl. unfold offload_vendor. cbv zeta. rewrite Hvendor.
  destruct (Z.eqb_spec A2DP_LHDC_VENDOR_ID A2DP_LDAC_VENDOR_ID); [contradiction|].
  rewrite Z.eqb_refl. cbn [andb].
  destruct Hcase as [[Hid Hbad] | [[Hid Hbad] | [Hid Hbad]]]; rewrite Hid.
  - rewrite Z.eqb_refl. by apply offload_lhdcv3_unsupported.
  - destruct (Z.eqb_spec A2DP_LHDCV2_CODEC_ID A2DP_LHDCV3_CODEC_ID); [contradiction|].
    rewrite Z.eqb_refl. by apply offload_lhdcv2_unsupported.
  - destruct (Z.eqb_spec A2DP_LHDCV5_CODEC_ID A2DP_LHDCV3_CODEC_ID); [contradiction|].
    destruct (Z.eqb_spec A2DP_LHDCV5_CODEC_ID A2DP_LHDCV2_CODEC_ID); [contradiction|].
    rewrite Z.eqb_refl. by apply offload_lhdcv5_unsupported.
Qed.

Lemma sbc_bytes_after_zeroing (codec_info : list Z) (b0 b1 b2 b3 : Z) :
  (4 <= length codec_info)%nat ->
  <[3%nat := b3]> (<[2%nat := b2]> (<[1%nat := b1]> (<[0%nat := b0]>
     (replicate (length codec_info) 0)))) =
  [b0; b1; b2; b3] ++ replicate (length codec_info - 4) 0.
Proof.
  intros Hlen.
  destruct codec_info as [|x0 [|x1 [|x2 [|x3 rest]]]]; simpl in Hlen; try lia.
  simpl. by rewrite Nat.sub_0_r.
Qed.

(** C8.  With an offload array of at least four bytes:
    if the wire configuration carries the SBC tag and is a valid SBC source
    codec, [getCodecSpecificConfig] returns true and leaves the array all
    zero except for its first four bytes, which are the wire bytes 4, 5, 6
    and 3 in this order; if the wire configuration is not a valid source
    codec, it returns false (and the array is all zero). *)
Theorem sbc_offload_bytes (this : A2dpCodecConfig) (codec_info : list Z) :
  (4 <= length codec_info)%nat ->
  let codec_config := ota_codec_config_ this in
  (A2DP_GetCodecType codec_config = A2DP_MEDIA_CT_SBC ->
   A2DP_IsSourceCodecValidSbc codec_config = true ->
   getCodecSpecificConfig this codec_info =
   (true,
    [byte_at codec_config 4; byte_at codec_config 5;
     byte_at codec_config 6; byte_at codec_config 3]
      ++ replicate (length codec_info - 4) 0)) /\
  (A2DP_IsSourceCodecValid codec_config = false ->
   getCodecSpecificConfig this codec_info =
   (false, replicate (length codec_info) 0)).
Proof.
  intros Hlen codec_config. unfold getCodecSpecificConfig. fold codec_config.
  split.
  - intros Htag Hvalid.
    unfold A2DP_IsSourceCodecValid. rewrite switch_codec_type_sbc by done.
    rewrite Hvalid. cbn [negb]. rewrite Htag, Z.eqb_refl.
    by rewrite sbc_bytes_after_zeroing.
  - intros ->. reflexivity.
Qed.

End OffloadFacts.

(** C7 on an LHDC V3 wire configuration whose version bits are 2. *)
Lemma lhdc_unsupported_is_rejected_witness :
  (@getCodecSpecificConfig sample_constants sample_families sample_offload_constants
     (sample_codec 6 "LHDC V3" (vendor_wire_config 1338 19507 [0; 2; 1; 0; 0; 0]))
     (replicate 32 7)).1 = false.
Proof.
  apply (@lhdc_unsupported_is_rejected sample_constants sample_families
           sample_offload_constants
           (sample_codec 6 "LHDC V3" (vendor_wire_config 1338 19507 [0; 2; 1; 0; 0; 0]))
           (replicate 32 7)); try (vm_compute; congruence).
  left. split; [reflexivity|]. left. vm_compute. split; discriminate.
Defined.

(** C8 on the SBC configuration 44100 Hz, stereo, 16 blocks, 8 subbands,
    bitpool 2 to 53 (wire bytes 3..6 are 0x22, 0x15, 2, 53): the offload
    bytes are 0x15, 2, 53, 0x22. *)
Lemma sbc_offload_bytes_witness :
  @getCodecSpecificConfig sample_constants sample_families sample_offload_constants
    (sample_codec 0 "SBC" sbc_wire_config) (replicate 32 7) =
  (true, [21; 2; 53; 34] ++ replicate 28 0).
Proof.
  apply (proj1 (@sbc_offload_bytes sample_constants sample_families
                  sample_offload_constants
                  (sample_codec 0 "SBC" sbc_wire_config) (replicate 32 7)
                  ltac:(vm_compute; lia))); reflexivity.
Defined.

(** ** Descriptor-level [setCodecUserConfig] *)

Section DescriptorFacts.
Context `{K : A2dpConstants} `{F : CodecFamilies} `{N : CodecNegotiation}.

Lemma neq_eqb_true (a b : Z) : negb (a =? b) = true <-> a <> b.
Proof. rewrite negb_true_iff. apply Z.eqb_neq. Qed.

(** A successful call reports an update exactly when it asks for a restart. *)
Lemma setCodecUserConfig_config_updated
      (this : A2dpCodecConfig)
      (codec_user_config codec_audio_config : btav_a2dp_codec_config_t)
      (p_peer_params : tA2DP_ENCODER_INIT_PEER_PARAMS)
      (p_peer_codec_info : list Z) (is_capability : bool)
      (p_result_codec_config : list Z) :
  let o := A2dpCodecConfig_setCodecUserConfig this codec_user_config
             codec_audio_config p_peer_params p_peer_codec_info is_capability
             p_result_codec_config in
  config_updated o = restart_input o || restart_output o.
Proof.
  unfold A2dpCodecConfig_setCodecUserConfig. cbv zeta.
  destruct (setCodecConfig _ _ _ _) as [[success this3] result].
  destruct success; cbn [negb returned config_updated restart_input restart_output].
  - by destruct (_ || _).
  - reflexivity.
Qed.

(** A failed call puts the user and audio configuration back, whatever
    [setCodecConfig] did to them. *)
Lemma setCodecUserConfig_restores_overrides
      (this : A2dpCodecConfig)
      (codec_user_config codec_audio_config : btav_a2dp_codec_config_t)
      (p_peer_params : tA2DP_ENCODER_INIT_PEER_PARAMS)
      (p_peer_codec_info : list Z) (is_capability : bool)
      (p_result_codec_config : list Z) :
  let o := A2dpCodecConfig_setCodecUserConfig this codec_user_config
             codec_audio_config p_peer_params p_peer_codec_info is_capability
             p_result_codec_config in
  returned o = false ->
  codec_user_config_ (state o) = codec_user_config_ this /\
  codec_audio_config_ (state o) = codec_audio_config_ this.
Proof.
  unfold A2dpCodecConfig_setCodecUserConfig. cbv zeta.
  destruct (setCodecConfig _ _ _ _) as [[success this3] result].
  destruct success; cbn [negb returned state]; [discriminate|].
  intros _. split; reflexivity.
Qed.

(** What the code compares for [*p_restart_output]: the flag is set
    exactly when the result buffer filled by [setCodecConfig] is not
    [A2DP_CodecEquals] to the [ota_codec_config_] of entry. *)
Lemma restart_output_of_result_buffer
      (this : A2dpCodecConfig)
      (codec_user_config codec_audio_config : btav_a2dp_codec_config_t)
      (p_peer_params : tA2DP_ENCODER_INIT_PEER_PARAMS)
      (p_peer_codec_info : list Z) (is_capability : bool)
      (p_result_codec_config : list Z) :
  let o := A2dpCodecConfig_setCodecUserConfig this codec_user_config
             codec_audio_config p_peer_params p_peer_codec_info is_capability
             p_result_codec_config in
  returned o = true ->
  (restart_output o = true <->
   A2DP_CodecEquals (ota_codec_config_ this) (result_codec_config o) = false).
Proof.
  unfold A2dpCodecConfig_setCodecUserConfig. cbv zeta.
  destruct (setCodecConfig _ _ _ _) as [[success this3] result].
  destruct success; cbn [negb returned restart_output result_codec_config];
    [|discriminate].
  intros _. apply negb_true_iff.
Qed.

(** On success the result buffer and the descriptor are the ones
    [setCodecConfig] left. *)
Lemma result_buffer_is_ota_config
      (this : A2dpCodecConfig)
      (codec_user_config codec_audio_config : btav_a2dp_codec_config_t)
      (p_peer_params : tA2DP_ENCODER_INIT_PEER_PARAMS)
      (p_peer_codec_info : list Z) (is_capability : bool)
      (p_result_codec_config : list Z) :
  setCodecConfig_hands_out_ota_config ->
  let o := A2dpCodecConfig_setCodecUserConfig this codec_user_config
             codec_audio_config p_peer_params p_peer_codec_info is_capability
             p_result_codec_config in
  returned o = true ->
  result_codec_config o = ota_codec_config_ (state o).
Proof.
  intros Hota. unfold A2dpCodecConfig_setCodecUserConfig. cbv zeta.
  destruct (setCodecConfig _ _ _ _) as [[success this3] result] eqn:Hcall.
  destruct success; cbn [negb returned state result_codec_config];
    [|discriminate].
  intros _. exact (Hota _ _ _ _ _ _ Hcall).
Qed.

(** C1, as the code has it.  When [setCodecUserConfig] returns true:
    - [restart_input] is set exactly when the sample rate, the bits per
      sample, the channel mode, or one of [codec_specific_1],
      [codec_specific_2], [codec_specific_3] of [codec_config_] differs
      between entry and exit ([codec_specific_4] is not looked at);
    - [restart_output] is set exactly when the [ota_codec_config_] of exit
      is not [A2DP_CodecEquals] to the [ota_codec_config_] of entry.  The
      code compares the result buffer with the wire configuration of entry;
      that the buffer holds the new wire configuration is what the codec
      classes' [setCodecConfig] does
      ([setCodecConfig_hands_out_ota_config]). *)
Theorem restart_flags_of_setCodecUserConfig
        (this : A2dpCodecConfig)
        (codec_user_config codec_audio_config : btav_a2dp_codec_config_t)
        (p_peer_params : tA2DP_ENCODER_INIT_PEER_PARAMS)
        (p_peer_codec_info : list Z) (is_capability : bool)
        (p_result_codec_config : list Z) :
  setCodecConfig_hands_out_ota_config ->
  let o := A2dpCodecConfig_setCodecUserConfig this codec_user_config
             codec_audio_config p_peer_params p_peer_codec_info is_capability
             p_result_codec_config in
  returned o = true ->
  (restart_input o = true <->
   audio_format_changed (codec_config_ this) (codec_config_ (state o))) /\
  (restart_output o = true <->
   A2DP_CodecEquals (ota_codec_config_ this) (ota_codec_config_ (state o)) = false).
Proof.
  intros Hota o Hret. split.
  - revert Hret. subst o. unfold A2dpCodecConfig_setCodecUserConfig. cbv zeta.
    destruct (setCodecConfig _ _ _ _) as [[success this3] result].
    destruct success; cbn [negb returned state restart_input]; [|discriminate].
    intros _. unfold audio_format_changed, getCodecConfig.
    cbn [codec_config_ set_codec_audio_config_ set_codec_user_config_].
    rewrite !orb_true_iff, !neq_eqb_true. tauto.
  - pose proof (result_buffer_is_ota_config this codec_user_config
                  codec_audio_config p_peer_params p_peer_codec_info
                  is_capability p_result_codec_config Hota Hret) as Hres.
    cbv zeta in Hres. fold o in Hres. rewrite <- Hres.
    exact (restart_output_of_result_buffer this codec_user_config
             codec_audio_config p_peer_params p_peer_codec_info
             is_capability p_result_codec_config Hret).
Qed.

(** C2.  When [setCodecUserConfig] returns false, [codec_config_],
    [ota_codec_config_], [codec_user_config_] and [codec_audio_config_] are
    what they were on entry: the function puts the last two back itself, and
    the first two are as the rejecting [setCodecConfig] leaves them. *)
Theorem failed_setCodecUserConfig_is_rolled_back
        (this : A2dpCodecConfig)
        (codec_user_config codec_audio_config : btav_a2dp_codec_config_t)
        (p_peer_params : tA2DP_ENCODER_INIT_PEER_PARAMS)
        (p_peer_codec_info : list Z) (is_capability : bool)
        (p_result_codec_config : list Z) :
  setCodecConfig_rejects_unchanged ->
  let o := A2dpCodecConfig_setCodecUserConfig this codec_user_config
             codec_audio_config p_peer_params p_peer_codec_info is_capability
             p_result_codec_config in
  returned o = false ->
  codec_config_ (state o) = codec_config_ this /\
  ota_codec_config_ (state o) = ota_codec_config_ this /\
  codec_user_config_ (state o) = codec_user_config_ this /\
  codec_audio_config_ (state o) = codec_audio_config_ this.
Proof.
  intros Hrej o Hret.
  destruct (setCodecUserConfig_restores_overrides this codec_user_config
              codec_audio_config p_peer_params p_peer_codec_info is_capability
              p_result_codec_config Hret) as [Hu Ha].
  fold o in Hu, Ha.
  assert (Hc : codec_config_ (state o) = codec_config_ this /\
               ota_codec_config_ (state o) = ota_codec_config_ this).
  { revert Hret. subst o. unfold A2dpCodecConfig_setCodecUserConfig. cbv zeta.
    destruct (setCodecConfig _ _ _ _) as [[success this3] result] eqn:Hcall.
    destruct success; cbn [negb returned state]; [discriminate|].
    intros _. apply Hrej in Hcall. destruct Hcall as [Hc Ho].
    cbn [codec_config_ ota_codec_config_ set_codec_audio_config_
         set_codec_user_config_] in *.
    split; assumption. }
  destruct Hc as [Hc Ho]. repeat split; assumption.
Qed.

End DescriptorFacts.

(** The sample negotiation refuses without touching the descriptor. *)
Lemma sample_negotiation_rejects_unchanged :
  @setCodecConfig_rejects_unchanged sample_negotiation.
Proof.
  intros d peer cap res d' res'. cbn [setCodecConfig sample_negotiation].
  unfold sample_setCodecConfig.
  destruct (negb (byte_at peer 0 =? 6)); intros Heq; inversion Heq; subst.
  split; reflexivity.
Defined.

(** The sample negotiation hands out the wire configuration it stores. *)
Lemma sample_negotiation_hands_out_ota_config :
  @setCodecConfig_hands_out_ota_config sample_negotiation.
Proof.
  intros d peer cap res d' res'. cbn [setCodecConfig sample_negotiation].
  unfold sample_setCodecConfig.
  destruct (negb (byte_at peer 0 =? 6)); intros Heq; inversion Heq; subst.
  reflexivity.
Defined.

(** C1 as stated fails: renegotiating with a user configuration that sets
    only [codec_specific_4] succeeds and changes [codec_specific_4] of the
    configuration from 0 to 5, yet [restart_input] stays false. *)
Lemma restart_input_ignores_codec_specific_4 :
  let o := @A2dpCodecConfig_setCodecUserConfig sample_constants sample_families
             sample_negotiation negotiated_codec (user_config_specific_4 5)
             (user_priority_config 0 0) tt sbc_wire_config true [] in
  returned o = true /\
  ~ (restart_input o = true <->
     any_format_field_changed (codec_config_ negotiated_codec)
                              (codec_config_ (state o))).
Proof.
  cbv zeta. split; [reflexivity|].
  intros [_ H].
  assert (Hf : restart_input
                 (@A2dpCodecConfig_setCodecUserConfig sample_constants
                    sample_families sample_negotiation negotiated_codec
                    (user_config_specific_4 5) (user_priority_config 0 0) tt
                    sbc_wire_config true []) = false) by reflexivity.
  rewrite Hf in H. enough (false = true) by discriminate. apply H.
  unfold any_format_field_changed. do 6 right. vm_compute. discriminate.
Qed.

(** C1 (amended) on a renegotiation that changes the sample rate and keeps
    the wire configuration. *)
Lemma restart_flags_of_setCodecUserConfig_witness :
  let o := @A2dpCodecConfig_setCodecUserConfig sample_constants sample_families
             sample_negotiation negotiated_codec
             {| codec_type := 0; codec_priority := 0; sample_rate := 2;
                bits_per_sample := 0; channel_mode := 0;
                codec_specific_1 := 0; codec_specific_2 := 0;
                codec_specific_3 := 0; codec_specific_4 := 0 |}
             (user_priority_config 0 0) tt sbc_wire_config true [] in
  returned o = true /\
  (restart_input o = true <->
   audio_format_changed (codec_config_ negotiated_codec) (codec_config_ (state o))) /\
  (restart_output o = true <->
   @A2DP_CodecEquals sample_constants sample_families
     (ota_codec_config_ negotiated_codec) (ota_codec_config_ (state o)) = false).
Proof.
  cbv zeta. split; [reflexivity|].
  apply (@restart_flags_of_setCodecUserConfig sample_constants sample_families
           sample_negotiation negotiated_codec
           {| codec_type := 0; codec_priority := 0; sample_rate := 2;
              bits_per_sample := 0; channel_mode := 0;
              codec_specific_1 := 0; codec_specific_2 := 0;
              codec_specific_3 := 0; codec_specific_4 := 0 |}
           (user_priority_config 0 0) tt sbc_wire_config true []
           sample_negotiation_hands_out_ota_config).
  reflexivity.
Defined.

(** C2 on a call that is refused (the peer buffer is empty). *)
Lemma failed_setCodecUserConfig_is_rolled_back_witness :
  let o := @A2dpCodecConfig_setCodecUserConfig sample_constants sample_families
             sample_negotiation negotiated_codec (user_config_specific_4 5)
             (user_config_specific_4 7) tt [] true [] in
  returned o = false /\
  codec_config_ (state o) = codec_config_ negotiated_codec /\
  ota_codec_config_ (state o) = ota_codec_config_ negotiated_codec /\
  codec_user_config_ (state o) = codec_user_config_ negotiated_codec /\
  codec_audio_config_ (state o) = codec_audio_config_ negotiated_codec.
Proof.
  cbv zeta. split; [reflexivity|].
  apply (@failed_setCodecUserConfig_is_rolled_back sample_constants sample_families
           sample_negotiation negotiated_codec (user_config_specific_4 5)
           (user_config_specific_4 7) tt [] true []
           sample_negotiation_rejects_unchanged).
  reflexivity.
Defined.

(** ** Sorting *)

Section SortFacts.
Context {A : Type} (comp : A -> A -> bool).
Hypothesis comp_asym : forall a b, comp a b = true -> comp b a = false.

(** [a] may stand before [b]: [b] does not go before [a]. *)
Let not_after (a b : A) : Prop := comp b a = false.

Lemma sort_insert_elem (x y : A) (l : list A) :
  y ∈ sort_insert comp x l <-> y = x \/ y ∈ l.
Proof.
  induction l as [|z l IH]; simpl.
  - rewrite list_elem_of_singleton, elem_of_nil. tauto.
  - destruct (comp z x); rewrite !elem_of_cons; [rewrite IH|]; tauto.
Qed.

Lemma list_sort_elem (y : A) (l : list A) : y ∈ list_sort comp l <-> y ∈ l.
Proof.
  induction l as [|x l IH]; simpl; [reflexivity|].
  rewrite sort_insert_elem, elem_of_cons, IH. tauto.
Qed.

Lemma sort_insert_HdRel (a x : A) (l : list A) :
  not_after a x -> HdRel not_after a l -> HdRel not_after a (sort_insert comp x l).
Proof.
  intros Hax Hal. destruct l as [|z l]; simpl.
  - by constructor.
  - destruct (comp z x); constructor; [|assumption].
    by inversion Hal.
Qed.

Lemma sort_insert_Sorted (x : A) (l : list A) :
  Sorted not_after l -> Sorted not_after (sort_insert comp x l).
Proof.
  induction l as [|z l IH]; simpl; intros Hs.
  - repeat constructor.
  - inversion Hs as [|? ? Hl Hhd]; subst.
    destruct (comp z x) eqn:Hzx.
    + constructor; [by apply IH|].
      apply sort_insert_HdRel; [|assumption].
      unfold not_after. by apply comp_asym.
    + constructor; [assumption|]. constructor. exact Hzx.
Qed.

Lemma list_sort_Sorted (l : list A) : Sorted not_after (list_sort comp l).
Proof.
  induction l as [|x l IH]; simpl; [constructor|].
  by apply sort_insert_Sorted.
Qed.

End SortFacts.


(** ** The registry *)

Section RegistryFacts.
Context `{K : A2dpConstants} `{F : CodecFamilies} `{N : CodecNegotiation}.

Lemma compare_codec_priority_asym (x y : A2dpCodecConfig) :
  compare_codec_priority x y = true -> compare_codec_priority y x = false.
Proof.
  unfold compare_codec_priority.
  destruct (Z.gtb_spec (codecPriority x) (codecPriority y));
    destruct (Z.ltb_spec (codecPriority x) (codecPriority y));
    destruct (Z.gtb_spec (codecPriority y) (codecPriority x));
    destruct (Z.ltb_spec (codecPriority y) (codecPriority x));
    destruct (Z.gtb_spec (codecIndex x) (codecIndex y));
    destruct (Z.gtb_spec (codecIndex y) (codecIndex x));
    intros; try reflexivity; try discriminate; lia.
Qed.

Lemma compare_at_asym (m : gmap Z A2dpCodecConfig) (a b : Z) :
  compare_at m a b = true -> compare_at m b a = false.
Proof.
  unfold compare_at. destruct (m !! a), (m !! b); try reflexivity.
  apply compare_codec_priority_asym.
Qed.

(** The comparator and the order it describes. *)
Lemma compare_codec_priority_false (x y : A2dpCodecConfig) :
  compare_codec_priority y x = false <-> priority_order x y.
Proof.
  unfold compare_codec_priority, priority_order.
  destruct (Z.gtb_spec (codecPriority y) (codecPriority x));
    destruct (Z.ltb_spec (codecPriority y) (codecPriority x));
    destruct (Z.gtb_spec (codecIndex y) (codecIndex x));
    split; intros; try reflexivity; try discriminate; lia.
Qed.

Lemma priority_order_trans (x y z : A2dpCodecConfig) :
  priority_order x y -> priority_order y z -> priority_order x z.
Proof. unfold priority_order. lia. Qed.

(** A list the comparator finds no adjacent fault in is sorted, when every
    pointer in it is a descriptor. *)
Lemma Sorted_sorted_by_priority (m : gmap Z A2dpCodecConfig) (l : list Z) :
  Forall (fun p => is_Some (m !! p)) l ->
  Sorted (fun a b => compare_at m b a = false) l ->
  sorted_by_priority m l.
Proof.
  unfold sorted_by_priority.
  induction l as [|a l IH]; intros Hres Hs; [constructor|].
  inversion Hs as [|? ? Hl Hhd]; subst.
  inversion Hres as [|? ? Ha Hresl]; subst.
  specialize (IH Hresl Hl). constructor; [exact IH|].
  destruct l as [|b l]; [constructor|].
  inversion Hhd as [|? ? Hab]; subst.
  inversion IH as [|? ? IHl Hb]; subst.
  inversion Hresl as [|? ? Hbres _]; subst.
  assert (Hab' : forall x y, m !! a = Some x -> m !! b = Some y -> priority_order x y).
  { intros x y Hx Hy. unfold compare_at in Hab. rewrite Hx, Hy in Hab.
    by apply compare_codec_priority_false. }
  constructor; [exact Hab'|].
  destruct Hbres as [y Hy].
  eapply Forall_impl; [exact Hb|]. cbv beta.
  intros c Hbc x z Hx Hz.
  eapply priority_order_trans; [by apply Hab' | by apply Hbc].
Qed.

(** [std::list::sort] with the comparator leaves the list sorted. *)
Lemma list_sort_sorted_by_priority (m : gmap Z A2dpCodecConfig) (l : list Z) :
  Forall (fun p => is_Some (m !! p)) l ->
  sorted_by_priority m (list_sort (compare_at m) l).
Proof.
  intros Hres. apply Sorted_sorted_by_priority.
  - rewrite Forall_forall in *. intros p Hp. apply Hres.
    by apply list_sort_elem in Hp.
  - apply list_sort_Sorted. apply compare_at_asym.
Qed.

(** Sortedness only looks at the descriptors the list points to. *)
Lemma sorted_by_priority_ext (m m' : gmap Z A2dpCodecConfig) (l : list Z) :
  (forall p, p ∈ l -> m' !! p = m !! p) ->
  sorted_by_priority m l -> sorted_by_priority m' l.
Proof.
  unfold sorted_by_priority. induction l as [|a l IH]; intros Heq Hs; [constructor|].
  inversion Hs as [|? ? Hl Hfa]; subst. constructor.
  - apply IH; [|assumption]. intros p Hp. apply Heq. by right.
  - rewrite Forall_forall in *. intros b Hb x y Hx Hy.
    apply (Hfa b Hb); [rewrite <- Heq by left | rewrite <- Heq by (by right)];
      assumption.
Qed.

(** The reconciliation block keeps every descriptor in place and writes only
    the target and the previously current descriptor. *)
Lemma reconcile_priority_keeps (codecs : gmap Z A2dpCodecConfig)
      (last_codec_config : option Z) (p : Z) (d1 : A2dpCodecConfig)
      (user_priority : Z) (ri ro cu : bool) (rc : Reconciled) (k : Z) :
  reconcile_priority codecs last_codec_config p d1 user_priority ri ro cu = Some rc ->
  (is_Some (codecs !! k) -> is_Some (rc_codecs rc !! k)) /\
  (k <> p -> last_codec_config <> Some k -> rc_codecs rc !! k = codecs !! k).
Proof.
  unfold reconcile_priority. cbv zeta. intros Hrc.
  assert (Hins : forall (d : A2dpCodecConfig),
             (is_Some (codecs !! k) -> is_Some (<[p := d]> codecs !! k)) /\
             (k <> p -> <[p := d]> codecs !! k = codecs !! k)).
  { intros d. split.
    - intros Hk. destruct (decide (p = k)) as [->|Hne].
      + rewrite lookup_insert_eq. by eexists.
      + by rewrite lookup_insert_ne.
    - intros Hne. by rewrite lookup_insert_ne. }
  destruct last_codec_config as [l|].
  - destruct (p =? l).
    + destruct (_ =? _); inversion Hrc; subst; cbn [rc_codecs];
        split; intros; by apply Hins.
    + destruct (_ <=? _).
      * inversion Hrc; subst; cbn [rc_codecs]. split; intros; by apply Hins.
      * destruct (<[p := setCodecPriority d1 user_priority]> codecs !! l)
          as [dl|] eqn:Hl; cbn [mbind option_bind] in Hrc; [|discriminate].
        destruct (_ >=? _); inversion Hrc; subst; cbn [rc_codecs];
          try (split; intros; by apply Hins).
        split.
        -- intros Hk. destruct (decide (l = k)) as [->|Hne].
           ++ rewrite lookup_insert_eq. by eexists.
           ++ rewrite lookup_insert_ne by done. by apply Hins.
        -- intros Hkp Hkl. rewrite lookup_insert_ne by congruence.
           by apply Hins.
  - inversion Hrc; subst; cbn [rc_codecs]. split; intros; by apply Hins.
Qed.

(** In a registry whose pointers are descriptors, [setCodecUserConfig]
    dereferences nothing else: it returns. *)
Lemma setCodecUserConfig_returns (this : A2dpCodecs)
      (codec_user_config : btav_a2dp_codec_config_t)
      (p_peer_params : tA2DP_ENCODER_INIT_PEER_PARAMS)
      (p_peer_sink_capabilities p_result_codec_config : list Z) :
  registry_wf this ->
  is_Some (A2dpCodecs_setCodecUserConfig this codec_user_config p_peer_params
             p_peer_sink_capabilities p_result_codec_config).
Proof.
  intros [Hcur _]. unfold A2dpCodecs_setCodecUserConfig. cbv zeta.
  destruct (user_config_target this codec_user_config) as [p|] eqn:Ht;
    [|by eexists].
  assert (Hp : is_Some (indexed_codecs_ this !! p)).
  { unfold user_config_target in Ht.
    destruct (_ <? _).
    - destruct (indexed_codecs_ this !! codec_type codec_user_config) eqn:Hl;
        inversion Ht; subst. rewrite Hl. by eexists.
    - by apply Hcur. }
  destruct Hp as [d Hd]. rewrite Hd. cbn [mbind option_bind].
  destruct (negb (returned _)); [by eexists|].
  unfold reconcile_priority. cbv zeta.
  destruct (current_codec_config_ this) as [l|] eqn:Hl;
    [|cbn [mbind option_bind]; by eexists].
  destruct (p =? l); [destruct (_ =? _); cbn [mbind option_bind]; by eexists|].
  destruct (_ <=? _); [cbn [mbind option_bind]; by eexists|].
  destruct (Hcur l eq_refl) as [dl Hdl].
  assert (Hl' : is_Some (<[p := setCodecPriority
                   (state (A2dpCodecConfig_setCodecUserConfig d codec_user_config
                             (getCodecAudioConfig d) p_peer_params
                             p_peer_sink_capabilities true p_result_codec_config))
                   (codec_priority codec_user_config)]>
                   (indexed_codecs_ this) !! l)).
  { destruct (decide (p = l)) as [->|Hne].
    - rewrite lookup_insert_eq. by eexists.
    - rewrite lookup_insert_ne by done. by eexists. }
  destruct Hl' as [dl' Hdl']. rewrite Hdl'. cbn [mbind option_bind].
  destruct (_ >=? _); cbn [mbind option_bind]; by eexists.
Qed.

(** C3, as the code has it.  After a successful [setCodecUserConfig] on a
    registry whose pointers are descriptors, [ordered_source_codecs_] is
    sorted by the comparator (larger priority first, larger codec index
    first among equal priorities).  [ordered_sink_codecs_] is the list it
    was, not sorted again: it is still sorted if it was and neither the
    target of the call nor the previously current codec is in it. *)
Theorem ordered_lists_after_setCodecUserConfig
        (this : A2dpCodecs) (codec_user_config : btav_a2dp_codec_config_t)
        (p_peer_params : tA2DP_ENCODER_INIT_PEER_PARAMS)
        (p_peer_sink_capabilities p_result_codec_config : list Z)
        (o : Outcome A2dpCodecs) :
  registry_wf this ->
  A2dpCodecs_setCodecUserConfig this codec_user_config p_peer_params
    p_peer_sink_capabilities p_result_codec_config = Some o ->
  returned o = true ->
  sorted_by_priority (indexed_codecs_ (state o)) (ordered_source_codecs_ (state o)) /\
  ordered_sink_codecs_ (state o) = ordered_sink_codecs_ this /\
  ((forall p, user_config_target this codec_user_config = Some p ->
              p ∉ ordered_sink_codecs_ this) ->
   (forall l, current_codec_config_ this = Some l ->
              l ∉ ordered_sink_codecs_ this) ->
   sorted_by_priority (indexed_codecs_ this) (ordered_sink_codecs_ this) ->
   sorted_by_priority (indexed_codecs_ (state o)) (ordered_sink_codecs_ (state o))).
Proof.
  intros (Hcur & Hsrc & Hsink) Hcall Hret.
  unfold A2dpCodecs_setCodecUserConfig in Hcall. cbv zeta in Hcall.
  destruct (user_config_target this codec_user_config) as [p|] eqn:Ht;
    [|inversion Hcall; subst; discriminate Hret].
  destruct (indexed_codecs_ this !! p) as [d|] eqn:Hd;
    cbn [mbind option_bind] in Hcall; [|discriminate].
  destruct (negb (returned _)) in Hcall;
    [inversion Hcall; subst; discriminate Hret|].
  destruct (reconcile_priority _ _ _ _ _ _ _ _) as [rc|] eqn:Hrc;
    cbn [mbind option_bind] in Hcall; [|discriminate].
  inversion Hcall; subst o; clear Hcall.
  cbn [state indexed_codecs_ ordered_source_codecs_ ordered_sink_codecs_
       set_ordered_source_codecs_ set_current_codec_config_ set_indexed_codecs_].
  split; [|split; [reflexivity|]].
  - apply list_sort_sorted_by_priority.
    eapply Forall_impl; [exact Hsrc|]. cbv beta. intros k Hk.
    by apply (reconcile_priority_keeps _ _ _ _ _ _ _ _ _ k Hrc).
  - intros Htarget Hlast Hsorted.
    eapply sorted_by_priority_ext; [|exact Hsorted].
    intros k Hk. apply (reconcile_priority_keeps _ _ _ _ _ _ _ _ _ k Hrc).
    + intros ->. by apply (Htarget p).
    + intros Hl. by apply (Hlast k).
Qed.

(** C5.  In [A2dpCodecs::setCodecUserConfig], let the descriptor-level call
    on the target [p] succeed, let there be a current codec [l] other than
    [p], and let the target's recomputed priority be strictly greater than
    the priority it had when the descriptor-level call returned, and at
    least the priority of [l].  Then the call returns true, the current
    codec becomes [p], the descriptor of [l] is the old one after
    [setDefaultCodecPriority] (its priority is its construction-time default,
    or 1000 * (index + 1) + 1 when that is [DEFAULT]), and [restart_input],
    [restart_output] and [config_updated] are all true. *)
Theorem switch_to_higher_priority_codec
        (this : A2dpCodecs) (codec_user_config : btav_a2dp_codec_config_t)
        (p_peer_params : tA2DP_ENCODER_INIT_PEER_PARAMS)
        (p_peer_sink_capabilities p_result_codec_config : list Z)
        (p l : Z) (d dl : A2dpCodecConfig) :
  let r := A2dpCodecConfig_setCodecUserConfig d codec_user_config
             (getCodecAudioConfig d) p_peer_params p_peer_sink_capabilities
             true p_result_codec_config in
  let old_priority := codecPriority (state r) in
  let new_priority :=
    codecPriority (setCodecPriority (state r) (codec_priority codec_user_config)) in
  user_config_target this codec_user_config = Some p ->
  indexed_codecs_ this !! p = Some d ->
  returned r = true ->
  current_codec_config_ this = Some l ->
  p <> l ->
  indexed_codecs_ this !! l = Some dl ->
  new_priority > old_priority ->
  new_priority >= codecPriority dl ->
  exists o,
    A2dpCodecs_setCodecUserConfig this codec_user_config p_peer_params
      p_peer_sink_capabilities p_result_codec_config = Some o /\
    returned o = true /\
    current_codec_config_ (state o) = Some p /\
    indexed_codecs_ (state o) !! l = Some (setDefaultCodecPriority dl) /\
    codecPriority (setDefaultCodecPriority dl) =
      (if default_codec_priority_ dl =? BTAV_A2DP_CODEC_PRIORITY_DEFAULT
       then to_int32 (to_uint32 (1000 * (codec_index_ dl + 1) + 1))
       else default_codec_priority_ dl) /\
    restart_input o = true /\
    restart_output o = true /\
    config_updated o = true.
Proof.
  intros r old_priority new_priority Ht Hd Hret Hcur Hne Hdl Hgt Hge.
  unfold A2dpCodecs_setCodecUserConfig. cbv zeta.
  rewrite Ht, Hd. cbn [mbind option_bind]. fold r. rewrite Hret. cbn [negb].
  unfold reconcile_priority. cbv zeta. rewrite Hcur.
  fold old_priority. fold new_priority.
  destruct (Z.eqb_spec p l); [contradiction|].
  destruct (Z.leb_spec new_priority old_priority); [lia|].
  rewrite lookup_insert_ne by done. rewrite Hdl. cbn [mbind option_bind].
  destruct (Z.geb_spec new_priority (codecPriority dl)); [|lia].
  eexists. split; [reflexivity|].
  cbn [returned state restart_input restart_output config_updated
       rc_codecs rc_current rc_restart_input rc_restart_output rc_config_updated
       current_codec_config_ indexed_codecs_ set_ordered_source_codecs_
       set_current_codec_config_ set_indexed_codecs_ orb].
  rewrite lookup_insert_eq.
  repeat split; try reflexivity.
  unfold setDefaultCodecPriority, codecPriority. cbv zeta.
  destruct (default_codec_priority_ dl =? BTAV_A2DP_CODEC_PRIORITY_DEFAULT);
    reflexivity.
Qed.

(** C6.  In [A2dpCodecs::setCodecUserConfig], let the descriptor-level call
    on the target [p] succeed, let there be a current codec [l] other than
    [p], and let the target's recomputed priority be at most the priority it
    had when the descriptor-level call returned.  Then the call returns
    true, the current codec is still [l], [restart_input] and
    [restart_output] are false, and [config_updated] is true exactly when
    the priority changed or the descriptor-level call had set one of the two
    restart flags. *)
Theorem backup_codec_change_keeps_stream
        (this : A2dpCodecs) (codec_user_config : btav_a2dp_codec_config_t)
        (p_peer_params : tA2DP_ENCODER_INIT_PEER_PARAMS)
        (p_peer_sink_capabilities p_result_codec_config : list Z)
        (p l : Z) (d : A2dpCodecConfig) :
  let r := A2dpCodecConfig_setCodecUserConfig d codec_user_config
             (getCodecAudioConfig d) p_peer_params p_peer_sink_capabilities
             true p_result_codec_config in
  let old_priority := codecPriority (state r) in
  let new_priority :=
    codecPriority (setCodecPriority (state r) (codec_priority codec_user_config)) in
  user_config_target this codec_user_config = Some p ->
  indexed_codecs_ this !! p = Some d ->
  returned r = true ->
  current_codec_config_ this = Some l ->
  p <> l ->
  new_priority <= old_priority ->
  exists o,
    A2dpCodecs_setCodecUserConfig this codec_user_config p_peer_params
      p_peer_sink_capabilities p_result_codec_config = Some o /\
    returned o = true /\
    current_codec_config_ (state o) = current_codec_config_ this /\
    restart_input o = false /\
    restart_output o = false /\
    (config_updated o = true <->
     new_priority <> old_priority \/
     restart_input r = true \/ restart_output r = true).
Proof.
  intros r old_priority new_priority Ht Hd Hret Hcur Hne Hle.
  assert (Hcu : config_updated r = restart_input r || restart_output r)
    by apply setCodecUserConfig_config_updated.
  unfold A2dpCodecs_setCodecUserConfig. cbv zeta.
  rewrite Ht, Hd. cbn [mbind option_bind]. fold r. rewrite Hret. cbn [negb].
  unfold reconcile_priority. cbv zeta. rewrite Hcur.
  fold old_priority. fold new_priority.
  destruct (Z.eqb_spec p l) as [Hpl|Hpl]; [contradiction|].
  destruct (Z.leb_spec new_priority old_priority) as [Hcmp|Hcmp]; [|lia].
  cbn [mbind option_bind].
  eexists. split; [reflexivity|].
  cbn [returned state restart_input restart_output config_updated
       rc_codecs rc_current rc_restart_input rc_restart_output rc_config_updated
       current_codec_config_ indexed_codecs_ set_ordered_source_codecs_
       set_current_codec_config_ set_indexed_codecs_ orb].
  repeat split; try reflexivity.
  - intros Hup. rewrite Hcu in Hup.
    destruct (restart_input r), (restart_output r); auto.
    cbn [orb] in Hup.
    destruct (Z.eqb_spec old_priority new_priority) as [Heq|Heq]; [discriminate|].
    left. congruence.
  - intros [Hch | [Hch | Hch]].
    + destruct (Z.eqb_spec old_priority new_priority) as [Heq|Heq]; [congruence|].
      cbn [negb]. by rewrite orb_true_r.
    + by rewrite Hch.
    + rewrite Hch. by rewrite orb_true_r.
Qed.

(** C4.  [A2dpCodecs::setCodecOtaConfig], on a registry whose pointers are
    descriptors, returns; whenever it returns false the current codec is the
    one of entry; and it returns false when the current codec's user
    configuration is not empty, and when the user configuration of the
    enabled descriptor [A2DP_SourceCodecIndex] finds for the peer buffer is
    not empty. *)
Theorem ota_config_yields_to_user_config
        (this : A2dpCodecs) (p_ota_codec_config : list Z)
        (p_peer_params : tA2DP_ENCODER_INIT_PEER_PARAMS)
        (p_result_codec_config : list Z) :
  registry_wf this ->
  exists o,
    A2dpCodecs_setCodecOtaConfig this p_ota_codec_config p_peer_params
      p_result_codec_config = Some o /\
    (returned o = false ->
     current_codec_config_ (state o) = current_codec_config_ this) /\
    ((exists c dc, current_codec_config_ this = Some c /\
                   indexed_codecs_ this !! c = Some dc /\
                   isCodecConfigEmpty (getCodecUserConfig dc) = false) ->
     returned o = false) /\
    ((exists d, indexed_codecs_ this !! A2DP_SourceCodecIndex p_ota_codec_config
                = Some d /\
                isCodecConfigEmpty (getCodecUserConfig d) = false) ->
     returned o = false).
Proof.
  intros [Hwf _]. unfold A2dpCodecs_setCodecOtaConfig. cbv zeta.
  assert (Hcurrent :
    exists b : bool,
      match current_codec_config_ this with
      | Some c =>
          indexed_codecs_ this !! c ≫= fun dc =>
            Some (negb (isCodecConfigEmpty (getCodecUserConfig dc)))
      | None => Some false
      end = Some b /\
      ((exists c dc, current_codec_config_ this = Some c /\
                     indexed_codecs_ this !! c = Some dc /\
                     isCodecConfigEmpty (getCodecUserConfig dc) = false) ->
       b = true)).
  { destruct (current_codec_config_ this) as [c|] eqn:Hc.
    - destruct (Hwf c eq_refl) as [dc Hdc]. rewrite Hdc. cbn [mbind option_bind].
      eexists. split; [reflexivity|].
      intros (c' & dc' & Hc' & Hdc' & He). inversion Hc'; subst c'.
      rewrite Hdc in Hdc'. inversion Hdc'; subst dc'. by rewrite He.
    - exists false. split; [reflexivity|].
      intros (c' & dc' & Hc' & _). discriminate. }
  destruct Hcurrent as (b & -> & Hb). cbn [mbind option_bind].
  destruct b.
  { eexists. split; [reflexivity|]. cbn [returned state current_codec_config_
      set_current_codec_config_]. repeat split; reflexivity. }
  assert (Hnotcur : ~ (exists c dc, current_codec_config_ this = Some c /\
                     indexed_codecs_ this !! c = Some dc /\
                     isCodecConfigEmpty (getCodecUserConfig dc) = false)).
  { intros H. apply Hb in H. discriminate. }
  destruct (_ =? BTAV_A2DP_CODEC_INDEX_MAX).
  { eexists. split; [reflexivity|]. cbn [returned state current_codec_config_
      set_current_codec_config_]. repeat split; reflexivity. }
  destruct (indexed_codecs_ this !! A2DP_SourceCodecIndex p_ota_codec_config)
    as [d|] eqn:Hd.
  2:{ eexists. split; [reflexivity|]. cbn [returned state current_codec_config_
        set_current_codec_config_]. repeat split; reflexivity. }
  destruct (isCodecConfigEmpty (getCodecUserConfig d)) eqn:He; cbn [negb].
  2:{ eexists. split; [reflexivity|]. cbn [returned state current_codec_config_
        set_current_codec_config_]. repeat split; reflexivity. }
  destruct (returned _) eqn:Hr; cbn [negb].
  - eexists. split; [reflexivity|]. cbn [returned]. split; [discriminate|].
    split; [intros H; contradiction|].
    intros (d' & Hd' & He'). inversion Hd'; subst d'. congruence.
  - eexists. split; [reflexivity|]. cbn [returned state current_codec_config_
      set_current_codec_config_]. repeat split; reflexivity.
Qed.

End RegistryFacts.


(** *** The registry on concrete calls *)

Ltac solve_is_Some := vm_compute; eexists; reflexivity.

Lemma sample_registry_wf : @registry_wf sample_registry.
Proof.
  split; [|split].
  - intros c Hc. inversion Hc; subst. solve_is_Some.
  - repeat constructor; solve_is_Some.
  - repeat constructor; solve_is_Some.
Defined.

Lemma sample_registry_after_switch_wf : @registry_wf sample_registry_after_switch.
Proof.
  split; [|split].
  - intros c Hc. vm_compute in Hc. inversion Hc; subst. solve_is_Some.
  - repeat constructor; solve_is_Some.
  - repeat constructor; solve_is_Some.
Defined.

(** C3 as stated fails: in the sample registry both lists are sorted; the
    user gives the sink codec 10 the priority 1000000; the call succeeds and
    leaves [ordered_sink_codecs_] as [11; 10], where codec 10 now has the
    larger priority. *)
Lemma sink_list_is_not_sorted_again :
  @registry_wf sample_registry /\
  @sorted_by_priority (indexed_codecs_ sample_registry)
    (ordered_source_codecs_ sample_registry) /\
  @sorted_by_priority (indexed_codecs_ sample_registry)
    (ordered_sink_codecs_ sample_registry) /\
  exists o,
    @A2dpCodecs_setCodecUserConfig sample_constants sample_families
      sample_negotiation sample_registry (user_priority_config 10 1000000) tt
      sbc_wire_config [] = Some o /\
    returned o = true /\
    ~ @sorted_by_priority (indexed_codecs_ (state o)) (ordered_sink_codecs_ (state o)).
Proof.
  split; [exact sample_registry_wf|]. split; [|split].
  - apply Sorted_sorted_by_priority; [apply sample_registry_wf|].
    repeat constructor.
  - apply Sorted_sorted_by_priority; [apply sample_registry_wf|].
    repeat constructor.
  - eexists. split; [vm_compute; reflexivity|]. split; [reflexivity|].
    cbn [state ordered_sink_codecs_ indexed_codecs_].
    intros Hs. unfold sorted_by_priority in Hs.
    inversion Hs as [|? ? _ Hfa]; subst.
    inversion Hfa as [|? ? H11 _]; subst.
    specialize (H11 _ _ eq_refl eq_refl).
    unfold priority_order, codecPriority, codecIndex in H11.
    cbn [codec_priority_ codec_index_] in H11. lia.
Qed.

(** C3 (amended) on the call that gives source codec 1 the priority 4000. *)
Lemma ordered_lists_after_setCodecUserConfig_witness :
  exists o,
    @A2dpCodecs_setCodecUserConfig sample_constants sample_families
      sample_negotiation sample_registry (user_priority_config 1 4000) tt
      sbc_wire_config [] = Some o /\
    @sorted_by_priority (indexed_codecs_ (state o)) (ordered_source_codecs_ (state o)) /\
    ordered_source_codecs_ (state o) = [1; 2; 0] /\
    ordered_sink_codecs_ (state o) = [11; 10].
Proof.
  eexists. split; [vm_compute; reflexivity|].
  split; [|split; reflexivity].
  refine (proj1 (@ordered_lists_after_setCodecUserConfig sample_constants
                   sample_families sample_negotiation sample_registry
                   (user_priority_config 1 4000) tt sbc_wire_config [] _
                   sample_registry_wf _ _)).
  - vm_compute; reflexivity.
  - reflexivity.
Defined.

(** C5 on the scenario of two codecs A (priority 2001) and B (priority 3001,
    current): the user gives A the priority 4000. *)
Lemma switch_to_higher_priority_codec_witness :
  exists o,
    @A2dpCodecs_setCodecUserConfig sample_constants sample_families
      sample_negotiation sample_registry (user_priority_config 1 4000) tt
      sbc_wire_config [] = Some o /\
    returned o = true /\
    current_codec_config_ (state o) = Some 1 /\
    codec_priority_ <$> (indexed_codecs_ (state o) !! 2) = Some 3001 /\
    restart_input o = true /\ restart_output o = true /\ config_updated o = true.
Proof.
  destruct (@switch_to_higher_priority_codec sample_constants sample_families
              sample_negotiation sample_registry (user_priority_config 1 4000) tt
              sbc_wire_config [] 1 2
              (sample_codec 1 "A" sbc_wire_config)
              (sample_codec 2 "B" sbc_wire_config))
    as (o & Hcall & Hret & Hcur & Hlast & Hdefault & Hin & Hout & Hup);
    try (vm_compute; reflexivity); try (vm_compute; discriminate).
  exists o. repeat split; try assumption.
  rewrite Hlast. reflexivity.
Defined.

(** C6 on the sample registry: the user lowers the priority of the backup
    codec 1 from 2001 to 1500. *)
Lemma backup_codec_change_keeps_stream_witness :
  exists o,
    @A2dpCodecs_setCodecUserConfig sample_constants sample_families
      sample_negotiation sample_registry (user_priority_config 1 1500) tt
      sbc_wire_config [] = Some o /\
    returned o = true /\
    current_codec_config_ (state o) = Some 2 /\
    restart_input o = false /\ restart_output o = false /\
    config_updated o = true.
Proof.
  destruct (@backup_codec_change_keeps_stream sample_constants sample_families
              sample_negotiation sample_registry (user_priority_config 1 1500) tt
              sbc_wire_config [] 1 2 (sample_codec 1 "A" sbc_wire_config))
    as (o & Hcall & Hret & Hcur & Hin & Hout & Hup);
    try (vm_compute; reflexivity); try (vm_compute; discriminate).
  exists o. repeat split; try assumption.
  apply Hup. left. vm_compute. discriminate.
Defined.

(** C4 on the registry in which the current codec 1 carries the user's
    priority: an SBC configuration (codec 0) arriving from the peer is
    refused and codec 1 stays current. *)
Lemma ota_config_yields_to_user_config_witness :
  exists o,
    @A2dpCodecs_setCodecOtaConfig sample_constants sample_families
      sample_negotiation sample_registry_after_switch sbc_wire_config tt []
    = Some o /\
    returned o = false /\
    current_codec_config_ (state o) = Some 1.
Proof.
  destruct (@ota_config_yields_to_user_config sample_constants sample_families
              sample_negotiation sample_registry_after_switch sbc_wire_config tt []
              sample_registry_after_switch_wf)
    as (o & Hcall & Hrestore & Hcurrent & Htarget).
  assert (Hret : returned o = false).
  { apply Hcurrent. exists 1. eexists.
    split; [vm_compute; reflexivity|].
    split; vm_compute; reflexivity. }
  exists o. split; [exact Hcall|]. split; [exact Hret|].
  rewrite (Hrestore Hret). vm_compute. reflexivity.
Defined.

(** * Further properties *)

(** ** Descriptor priorities and snapshots *)

Section PriorityFacts.
Context `{K : A2dpConstants}.

Lemma to_int32_small (x : Z) :
  0 <= x < 2147483648 -> to_int32 (to_uint32 x) = x.
Proof.
  intros Hx. unfold to_int32, to_uint32. cbv zeta.
  rewrite Z.mod_mod by lia. rewrite Z.mod_small by lia.
  destruct (Z.ltb_spec x 2147483648) as [Hlt|Hge]; lia.
Qed.

(** X1.  For descriptors constructed with the default priority and a codec
    index from 0 to 2147482, [setDefaultCodecPriority] yields
    1000 * (index + 1) + 1 without wrap-around; so a larger index gets a
    strictly larger priority. *)
Theorem default_priority_follows_index (d1 d2 : A2dpCodecConfig) :
  default_codec_priority_ d1 = BTAV_A2DP_CODEC_PRIORITY_DEFAULT ->
  default_codec_priority_ d2 = BTAV_A2DP_CODEC_PRIORITY_DEFAULT ->
  0 <= codec_index_ d1 ->
  codec_index_ d1 < codec_index_ d2 ->
  codec_index_ d2 <= 2147482 ->
  codecPriority (setDefaultCodecPriority d1) = 1000 * (codec_index_ d1 + 1) + 1 /\
  codecPriority (setDefaultCodecPriority d2) = 1000 * (codec_index_ d2 + 1) + 1 /\
  codecPriority (setDefaultCodecPriority d1) < codecPriority (setDefaultCodecPriority d2).
Proof.
  intros H1 H2 H0 Hlt Hmax.
  assert (Hd : forall d, default_codec_priority_ d = BTAV_A2DP_CODEC_PRIORITY_DEFAULT ->
                         0 <= codec_index_ d <= 2147482 ->
                         codecPriority (setDefaultCodecPriority d)
                         = 1000 * (codec_index_ d + 1) + 1).
  { intros d Hd Hr. unfold setDefaultCodecPriority, codecPriority. cbv zeta.
    rewrite Hd, Z.eqb_refl. cbn [negb codec_priority_ set_codec_config_
      set_codec_priority_]. apply to_int32_small. lia. }
  rewrite (Hd d1) by (auto; lia). rewrite (Hd d2) by (auto; lia). lia.
Qed.

(** The priority snapshot follows the descriptor's priority, and only
    the last [setCodecPriority] counts: after it, [codec_config_] carries
    the descriptor's priority, and an earlier [setCodecPriority] leaves no
    trace. *)
Lemma setCodecPriority_last_call_wins (d : A2dpCodecConfig) (p q : Z) :
  codec_priority (codec_config_ (setCodecPriority d q))
  = codecPriority (setCodecPriority d q) /\
  setCodecPriority (setCodecPriority d p) q = setCodecPriority d q.
Proof.
  split.
  - unfold setCodecPriority. cbv zeta. reflexivity.
  - unfold setCodecPriority, setDefaultCodecPriority. cbv zeta.
    destruct (p =? BTAV_A2DP_CODEC_PRIORITY_DEFAULT),
             (q =? BTAV_A2DP_CODEC_PRIORITY_DEFAULT),
             (default_codec_priority_ d =? BTAV_A2DP_CODEC_PRIORITY_DEFAULT) eqn:Hd;
      cbn [negb default_codec_priority_ codec_index_ codec_priority_ codec_config_
           set_codec_config_ set_codec_priority_ set_codec_config_priority
           codec_type codec_priority sample_rate bits_per_sample channel_mode
           codec_specific_1 codec_specific_2 codec_specific_3 codec_specific_4
           name_ codec_capability_ codec_local_capability_
           codec_selectable_capability_ codec_user_config_ codec_audio_config_
           ota_codec_config_ ota_codec_peer_capability_ ota_codec_peer_config_];
      rewrite ?Hd; reflexivity.
Qed.

(** X2.  A configuration that [codecConfigIsValid] accepts is never empty
    for [isCodecConfigEmpty]. *)
Theorem valid_config_is_not_empty (codec_config : btav_a2dp_codec_config_t) :
  codecConfigIsValid codec_config = true ->
  isCodecConfigEmpty codec_config = false.
Proof.
  unfold codecConfigIsValid, isCodecConfigEmpty. intros Hv.
  rewrite !andb_true_iff in Hv. destruct Hv as [[[_ Hs] _] _].
  apply negb_true_iff in Hs. rewrite Hs, andb_false_r. reflexivity.
Qed.

(** X3.  With the "none" values being 0 (what [memset] leaves), a descriptor
    fresh from the constructor has an empty user configuration and an empty
    audio configuration, its configuration is not valid yet, and its
    priority is the one given, or the computed default when that is
    [DEFAULT]. *)
Theorem new_codec_has_no_overrides (codec_index : Z) (name : string)
        (priority : Z) :
  BTAV_A2DP_CODEC_SAMPLE_RATE_NONE = 0 ->
  BTAV_A2DP_CODEC_BITS_PER_SAMPLE_NONE = 0 ->
  BTAV_A2DP_CODEC_CHANNEL_MODE_NONE = 0 ->
  let d := new_A2dpCodecConfig codec_index name priority in
  isCodecConfigEmpty (codec_user_config_ d) = true /\
  isCodecConfigEmpty (codec_audio_config_ d) = true /\
  codecConfigIsValid (codec_config_ d) = false /\
  codec_priority (codec_config_ d) = codecPriority d /\
  codecPriority d =
    (if priority =? BTAV_A2DP_CODEC_PRIORITY_DEFAULT
     then to_int32 (to_uint32 (1000 * (codec_index + 1) + 1))
     else priority).
Proof.
  intros Hs Hb Hc d. subst d.
  unfold isCodecConfigEmpty, codecConfigIsValid, new_A2dpCodecConfig. cbv zeta.
  cbn [codec_user_config_ codec_audio_config_ codec_config_ codec_priority_
       init_btav_a2dp_codec_config codec_priority sample_rate bits_per_sample
       channel_mode codec_specific_1 codec_specific_2 codec_specific_3
       codec_specific_4 codec_type codecPriority].
  rewrite Hs, Hb, Hc, !Z.eqb_refl. cbn [andb negb].
  repeat split; try reflexivity.
  - by rewrite andb_false_r.
  - unfold setCodecPriority, setDefaultCodecPriority, codecPriority. cbv zeta.
    cbn [default_codec_priority_].
    destruct (priority =? BTAV_A2DP_CODEC_PRIORITY_DEFAULT) eqn:Hp;
      cbn [negb codec_priority_ set_codec_config_ set_codec_priority_ codec_index_];
      reflexivity.
Qed.

End PriorityFacts.

Lemma default_priority_follows_index_witness :
  codecPriority (@setDefaultCodecPriority sample_constants
                   (sample_codec 1 "A" sbc_wire_config)) = 2001 /\
  codecPriority (@setDefaultCodecPriority sample_constants
                   (sample_codec 2 "B" sbc_wire_config)) = 3001 /\
  codecPriority (@setDefaultCodecPriority sample_constants
                   (sample_codec 1 "A" sbc_wire_config))
  < codecPriority (@setDefaultCodecPriority sample_constants
                     (sample_codec 2 "B" sbc_wire_config)).
Proof.
  apply (@default_priority_follows_index sample_constants
           (sample_codec 1 "A" sbc_wire_config) (sample_codec 2 "B" sbc_wire_config));
    vm_compute; congruence.
Defined.

Lemma valid_config_is_not_empty_witness :
  @isCodecConfigEmpty sample_constants (codec_config_ negotiated_codec) = false.
Proof.
  apply (@valid_config_is_not_empty sample_constants (codec_config_ negotiated_codec)).
  reflexivity.
Defined.

Lemma new_codec_has_no_overrides_witness :
  let d := @new_A2dpCodecConfig sample_constants 4 "LDAC" 0 in
  @isCodecConfigEmpty sample_constants (codec_user_config_ d) = true /\
  @isCodecConfigEmpty sample_constants (codec_audio_config_ d) = true /\
  @codecConfigIsValid sample_constants (codec_config_ d) = false /\
  codec_priority (codec_config_ d) = codecPriority d /\
  codecPriority d = 5001.
Proof.
  apply (@new_codec_has_no_overrides sample_constants 4 "LDAC" 0); reflexivity.
Defined.

(** ** More on the offload encoder *)

Section OffloadMoreFacts.
Context `{K : A2dpConstants} `{F : CodecFamilies} `{O : OffloadConstants}
        `{M : CodecFamiliesMore} `{I : CodecIndexConstants} `{V : AvdtConstants}.

(** X4.  The offload encoder and [copyOutOtaCodecConfig] stand behind the
    same validity check: whenever [getCodecSpecificConfig] returns true,
    [copyOutOtaCodecConfig] returns true and overwrites the first
    [AVDT_CODEC_SIZE] bytes of the caller's buffer with the wire
    configuration array, leaving what comes after them; and whenever
    [copyOutOtaCodecConfig] returns false it leaves the caller's buffer
    alone and [getCodecSpecificConfig] returns false with an all-zero
    array. *)
Theorem offload_and_copy_out_agree (this : A2dpCodecConfig)
        (offload_info p_codec_info : list Z) :
  ((getCodecSpecificConfig this offload_info).1 = true ->
   exists buffer',
     copyOutOtaCodecConfig this p_codec_info = (true, buffer') /\
     (forall i, (i < AVDT_CODEC_SIZE)%nat ->
                buffer' !! i = Some (byte_at (ota_codec_config_ this) i)) /\
     drop AVDT_CODEC_SIZE buffer' = drop AVDT_CODEC_SIZE p_codec_info) /\
  ((copyOutOtaCodecConfig this p_codec_info).1 = false ->
   copyOutOtaCodecConfig this p_codec_info = (false, p_codec_info) /\
   getCodecSpecificConfig this offload_info =
   (false, replicate (length offload_info) 0)).
Proof.
  unfold getCodecSpecificConfig, copyOutOtaCodecConfig.
  destruct (negb (A2DP_IsSourceCodecValid (ota_codec_config_ this)));
    cbn [fst]; split; intros Hr; try discriminate; auto.
  eexists. split; [reflexivity|].
  assert (Hlen : length (byte_at (ota_codec_config_ this) <$> seq 0 AVDT_CODEC_SIZE)
                 = AVDT_CODEC_SIZE) by (by rewrite length_fmap, length_seq).
  split.
  - intros i Hi. rewrite lookup_app_l by lia.
    rewrite list_lookup_fmap, lookup_seq_lt by lia. reflexivity.
  - rewrite drop_app_length' by (by rewrite Hlen). reflexivity.
Qed.

Lemma aac_bytes_after_zeroing (offload_info : list Z) (b0 b1 : Z) :
  (2 <= length offload_info)%nat ->
  <[1%nat := b1]> (<[0%nat := b0]> (replicate (length offload_info) 0)) =
  [b0; b1] ++ replicate (length offload_info - 2) 0.
Proof.
  intros Hlen.
  destruct offload_info as [|x0 [|x1 rest]]; simpl in Hlen; try lia.
  simpl. by rewrite Nat.sub_0_r.
Qed.

(** X5.  For a wire configuration with the AAC tag that is a valid AAC
    source codec, and an offload array of at least two bytes,
    [getCodecSpecificConfig] returns true and leaves the array all zero
    except byte 0, the wire byte 3 (object type), and byte 1, the wire
    byte 6 (VBR and bit rate). *)
Theorem aac_offload_bytes (this : A2dpCodecConfig) (offload_info : list Z) :
  (2 <= length offload_info)%nat ->
  A2DP_MEDIA_CT_AAC <> A2DP_MEDIA_CT_SBC ->
  let codec_config := ota_codec_config_ this in
  A2DP_GetCodecType codec_config = A2DP_MEDIA_CT_AAC ->
  A2DP_IsSourceCodecValidAac codec_config = true ->
  getCodecSpecificConfig this offload_info =
  (true, [byte_at codec_config 3; byte_at codec_config 6]
           ++ replicate (length offload_info - 2) 0).
Proof.
  intros Hlen Hne codec_config Htag Hvalid.
  unfold getCodecSpecificConfig, A2DP_IsSourceCodecValid, switch_codec_type.
  fold codec_config. rewrite Htag.
  destruct (Z.eqb_spec A2DP_MEDIA_CT_AAC A2DP_MEDIA_CT_SBC) as [He|_];
    [contradiction|].
  rewrite Z.eqb_refl, Hvalid. cbn [negb].
  by rewrite aac_bytes_after_zeroing.
Qed.

(** The byte a mask-and-shift pair picks out of an integer. *)
Lemma masked_byte (v : Z) (k : Z) :
  0 <= k ->
  to_uint8 (Z.shiftr (Z.land v (Z.shiftl 255 k)) k) = (v / 2 ^ k) mod 256.
Proof.
  intros Hk. unfold to_uint8.
  rewrite Z.shiftr_land, Z.shiftr_shiftl_l by lia.
  rewrite Z.sub_diag, Z.shiftl_0_r.
  change 255 with (Z.ones 8). rewrite Z.land_ones by lia.
  change (2 ^ 8) with 256. rewrite Z.mod_mod by lia.
  by rewrite Z.shiftr_div_pow2.
Qed.

Lemma vendor_bytes_after_zeroing (offload_info : list Z) (b0 b1 b2 b3 b4 b5 : Z) :
  (6 <= length offload_info)%nat ->
  <[5%nat := b5]> (<[4%nat := b4]> (<[3%nat := b3]> (<[2%nat := b2]>
    (<[1%nat := b1]> (<[0%nat := b0]> (replicate (length offload_info) 0)))))) =
  [b0; b1; b2; b3; b4; b5] ++ replicate (length offload_info - 6) 0.
Proof.
  intros Hlen.
  destruct offload_info as [|x0 [|x1 [|x2 [|x3 [|x4 [|x5 rest]]]]]];
    simpl in Hlen; try lia.
  simpl. by rewrite Nat.sub_0_r.
Qed.

(** X6.  For a valid vendor (NON_A2DP) wire configuration whose vendor and
    codec id select none of the LDAC and LHDC branches, with a vendor id
    below 2^32, a codec id below 2^16 and an offload array of at least six
    bytes, [getCodecSpecificConfig] returns true, the first four offload
    bytes spell the vendor id and the next two the codec id (least
    significant byte first), and every later byte is zero. *)
Theorem other_vendor_offload_bytes (this : A2dpCodecConfig) (offload_info : list Z) :
  (6 <= length offload_info)%nat ->
  A2DP_MEDIA_CT_NON_A2DP <> A2DP_MEDIA_CT_SBC ->
  A2DP_MEDIA_CT_NON_A2DP <> A2DP_MEDIA_CT_AAC ->
  let codec_config := ota_codec_config_ this in
  let vendor_id := A2DP_VendorCodecGetVendorId codec_config in
  let codec_id := A2DP_VendorCodecGetCodecId codec_config in
  A2DP_GetCodecType codec_config = A2DP_MEDIA_CT_NON_A2DP ->
  A2DP_IsVendorSourceCodecValid codec_config = true ->
  0 <= vendor_id < 4294967296 ->
  0 <= codec_id < 65536 ->
  ~ (vendor_id = A2DP_LDAC_VENDOR_ID /\ codec_id = A2DP_LDAC_CODEC_ID) ->
  ~ (vendor_id = A2DP_LHDC_VENDOR_ID /\
     (codec_id = A2DP_LHDCV3_CODEC_ID \/ codec_id = A2DP_LHDCV2_CODEC_ID \/
      codec_id = A2DP_LHDCV5_CODEC_ID)) ->
  exists info,
    getCodecSpecificConfig this offload_info = (true, info) /\
    bytes_le info 0 4 = vendor_id /\
    bytes_le info 4 2 = codec_id /\
    drop 6 info = replicate (length offload_info - 6) 0.
Proof.
  intros Hlen Hsbc Haac codec_config vendor_id codec_id Htag Hvalid Hv Hc
         Hldac Hlhdc.
  unfold getCodecSpecificConfig, A2DP_IsSourceCodecValid, switch_codec_type.
  fold codec_config. rewrite Htag.
  destruct (Z.eqb_spec A2DP_MEDIA_CT_NON_A2DP A2DP_MEDIA_CT_SBC) as [He|_];
    [contradiction|].
  destruct (Z.eqb_spec A2DP_MEDIA_CT_NON_A2DP A2DP_MEDIA_CT_AAC) as [He|_];
    [contradiction|].
  rewrite Z.eqb_refl, Hvalid. cbn [negb].
  unfold offload_vendor. cbv zeta. fold vendor_id. fold codec_id.
  assert (Hno : forall (a b : Z), ~ (vendor_id = a /\ codec_id = b) ->
                (vendor_id =? a) && (codec_id =? b) = false).
  { intros a b Hn. destruct (Z.eqb_spec vendor_id a), (Z.eqb_spec codec_id b);
      try reflexivity. tauto. }
  rewrite (Hno _ _ Hldac).
  rewrite !Hno by tauto.
  rewrite vendor_bytes_after_zeroing by done.
  eexists. split; [reflexivity|].
  change 65280 with (Z.shiftl 255 8). change 16711680 with (Z.shiftl 255 16).
  change 4278190080 with (Z.shiftl 255 24).
  replace (Z.land vendor_id 255)
    with (Z.shiftr (Z.land vendor_id (Z.shiftl 255 0)) 0) by reflexivity.
  replace (Z.land codec_id 255)
    with (Z.shiftr (Z.land codec_id (Z.shiftl 255 0)) 0) by reflexivity.
  rewrite !masked_byte by lia.
  change (2 ^ 0) with 1. change (2 ^ 8) with 256. change (2 ^ 16) with 65536.
  change (2 ^ 24) with 16777216.
  cbn [bytes_le byte_at lookup list_lookup app default from_option].
  unfold id. rewrite !Z.div_1_r.
  split; [|split].
  - clear -Hv. Z.div_mod_to_equations. lia.
  - clear -Hc. Z.div_mod_to_equations. lia.
  - reflexivity.
Qed.

End OffloadMoreFacts.

(** X4 on the SBC wire configuration of seven bytes and a caller's buffer of
    22 bytes, all 9: the whole array of 20 bytes is copied, so bytes 7 to 19
    of the buffer become 0, and only the last two bytes stay. *)
Lemma offload_and_copy_out_agree_witness :
  exists buffer',
    @copyOutOtaCodecConfig sample_constants sample_families sample_avdt_constants
      (sample_codec 0 "SBC" sbc_wire_config) (replicate 22 9) = (true, buffer') /\
    buffer' !! 6%nat = Some 53 /\ buffer' !! 7%nat = Some 0 /\
    buffer' !! 19%nat = Some 0 /\ drop 20 buffer' = [9; 9].
Proof.
  destruct (proj1 (@offload_and_copy_out_agree sample_constants sample_families
                     sample_offload_constants sample_avdt_constants
                     (sample_codec 0 "SBC" sbc_wire_config)
                     (replicate 32 7) (replicate 22 9)))
    as (buffer' & Hcall & Hbytes & Hrest); [vm_compute; reflexivity|].
  exists buffer'. split; [exact Hcall|].
  split; [apply (Hbytes 6%nat); vm_compute; lia|].
  split; [apply (Hbytes 7%nat); vm_compute; lia|].
  split; [apply (Hbytes 19%nat); vm_compute; lia|].
  exact Hrest.
Defined.

Lemma aac_offload_bytes_witness :
  @getCodecSpecificConfig sample_constants sample_families sample_offload_constants
    (sample_codec 1 "AAC" [8; 0; 2; 128; 1; 4; 131; 232; 0]) (replicate 32 7) =
  (true, [128; 131] ++ replicate 30 0).
Proof.
  apply (@aac_offload_bytes sample_constants sample_families
           sample_offload_constants
           (sample_codec 1 "AAC" [8; 0; 2; 128; 1; 4; 131; 232; 0])
           (replicate 32 7)); try reflexivity.
  - vm_compute; lia.
  - vm_compute; discriminate.
Defined.

(** X6 on an aptX wire configuration (vendor id 0x4F, codec id 1). *)
Lemma other_vendor_offload_bytes_witness :
  exists info,
    @getCodecSpecificConfig sample_constants sample_families
      sample_offload_constants
      (sample_codec 2 "aptX" (vendor_wire_config 79 1 [34])) (replicate 32 7)
    = (true, info) /\
    bytes_le info 0 4 = 79 /\ bytes_le info 4 2 = 1 /\
    drop 6 info = replicate 26 0.
Proof.
  apply (@other_vendor_offload_bytes sample_constants sample_families
           sample_offload_constants
           (sample_codec 2 "aptX" (vendor_wire_config 79 1 [34])) (replicate 32 7));
    first [ reflexivity
          | vm_compute; lia
          | vm_compute; discriminate
          | vm_compute; split; [discriminate | reflexivity]
          | vm_compute; intros [H _]; discriminate ].
Defined.

Section OffloadVendorFacts.
Context `{K : A2dpConstants} `{F : CodecFamilies} `{O : OffloadConstants}.

(** A valid vendor wire configuration reaches [offload_vendor]. *)
Lemma getCodecSpecificConfig_vendor (this : A2dpCodecConfig) (offload_info : list Z) :
  A2DP_MEDIA_CT_NON_A2DP <> A2DP_MEDIA_CT_SBC ->
  A2DP_MEDIA_CT_NON_A2DP <> A2DP_MEDIA_CT_AAC ->
  A2DP_GetCodecType (ota_codec_config_ this) = A2DP_MEDIA_CT_NON_A2DP ->
  A2DP_IsVendorSourceCodecValid (ota_codec_config_ this) = true ->
  getCodecSpecificConfig this offload_info =
  offload_vendor (ota_codec_config_ this) (codec_specific_1 (codec_config_ this))
                 (replicate (length offload_info) 0).
Proof.
  intros Hsbc Haac Htag Hvalid.
  unfold getCodecSpecificConfig, A2DP_IsSourceCodecValid, switch_codec_type.
  rewrite Htag.
  destruct (Z.eqb_spec A2DP_MEDIA_CT_NON_A2DP A2DP_MEDIA_CT_SBC) as [He|_];
    [contradiction|].
  destruct (Z.eqb_spec A2DP_MEDIA_CT_NON_A2DP A2DP_MEDIA_CT_AAC) as [He|_];
    [contradiction|].
  rewrite Z.eqb_refl, Hvalid. reflexivity.
Qed.

(** X7.  For a valid LDAC wire configuration and an offload array of at
    least eight bytes, [getCodecSpecificConfig] always returns true; offload
    byte 7 is the wire byte 10 (channel mode), and offload byte 6 is the
    quality index: ABR when [codec_specific_1] is 0, else HIGH, MID or LOW
    when its last decimal digit ([% 10]) is 0, 1 or 2, and ABR for every
    other remainder (so also for every negative value that is not a multiple
    of ten). *)
Theorem ldac_offload_bytes (this : A2dpCodecConfig) (offload_info : list Z) :
  (8 <= length offload_info)%nat ->
  A2DP_MEDIA_CT_NON_A2DP <> A2DP_MEDIA_CT_SBC ->
  A2DP_MEDIA_CT_NON_A2DP <> A2DP_MEDIA_CT_AAC ->
  let codec_config := ota_codec_config_ this in
  let specific_1 := codec_specific_1 (codec_config_ this) in
  A2DP_GetCodecType codec_config = A2DP_MEDIA_CT_NON_A2DP ->
  A2DP_IsVendorSourceCodecValid codec_config = true ->
  A2DP_VendorCodecGetVendorId codec_config = A2DP_LDAC_VENDOR_ID ->
  A2DP_VendorCodecGetCodecId codec_config = A2DP_LDAC_CODEC_ID ->
  exists info,
    getCodecSpecificConfig this offload_info = (true, info) /\
    byte_at info 7 = byte_at codec_config 10 /\
    (specific_1 = 0 -> byte_at info 6 = to_uint8 A2DP_LDAC_QUALITY_ABR_OFFLOAD) /\
    (specific_1 <> 0 -> Z.rem specific_1 10 = 0 ->
     byte_at info 6 = to_uint8 A2DP_LDAC_QUALITY_HIGH) /\
    (Z.rem specific_1 10 = 1 -> byte_at info 6 = to_uint8 A2DP_LDAC_QUALITY_MID) /\
    (Z.rem specific_1 10 = 2 -> byte_at info 6 = to_uint8 A2DP_LDAC_QUALITY_LOW) /\
    (Z.rem specific_1 10 <> 0 -> Z.rem specific_1 10 <> 1 ->
     Z.rem specific_1 10 <> 2 ->
     byte_at info 6 = to_uint8 A2DP_LDAC_QUALITY_ABR_OFFLOAD).
Proof.
  intros Hlen Hsbc Haac codec_config specific_1 Htag Hvalid Hvendor Hcodec.
  rewrite getCodecSpecificConfig_vendor by assumption.
  fold codec_config. fold specific_1.
  unfold offload_vendor. cbv zeta. rewrite Hvendor, Hcodec, !Z.eqb_refl.
  cbn [andb]. eexists. split; [reflexivity|].
  destruct offload_info as [|x0 [|x1 [|x2 [|x3 [|x4 [|x5 [|x6 [|x7 rest]]]]]]]];
    simpl in Hlen; try lia.
  unfold offload_ldac. cbv zeta.
  assert (Hz : specific_1 = 0 -> Z.rem specific_1 10 = 0) by (intros ->; reflexivity).
  destruct (Z.eqb_spec specific_1 0) as [H0|H0];
    [| destruct (Z.eqb_spec (Z.rem specific_1 10) 0) as [Hr0|Hr0];
       [| destruct (Z.eqb_spec (Z.rem specific_1 10) 1) as [Hr1|Hr1];
          [| destruct (Z.eqb_spec (Z.rem specific_1 10) 2) as [Hr2|Hr2]]]];
    cbn [length replicate insert list_insert byte_at lookup list_lookup default
         from_option id];
    repeat split; intros; try reflexivity; try contradiction; try congruence;
    try (specialize (Hz H0); congruence).
Qed.

Lemma lhdc_split_mode_supported (codec_config offload_info : list Z) :
  ~ lhdc_split_unsupported codec_config ->
  (lhdc_split_mode codec_config offload_info).1 = true.
Proof.
  unfold lhdc_split_unsupported, lhdc_split_mode. cbv zeta. intros Hn.
  destruct (Z.eqb_spec (Z.land (byte_at codec_config 11) A2DP_LHDC_CH_SPLIT_MSK)
                       A2DP_LHDC_CH_SPLIT_NONE) as [Hnone|Hnone]; [reflexivity|].
  destruct (Z.eqb_spec (Z.land (byte_at codec_config 11) A2DP_LHDC_CH_SPLIT_MSK)
                       A2DP_LHDC_CH_SPLIT_TWS) as [Htws|Htws]; [reflexivity|].
  tauto.
Qed.

Lemma offload_lhdcv3_supported (codec_config : list Z) (specific_1 : Z)
      (offload_info : list Z) :
  ~ lhdcv3_unsupported codec_config ->
  (offload_lhdcv3 codec_config specific_1 offload_info).1 = true.
Proof.
  unfold lhdcv3_unsupported, offload_lhdcv3. cbv zeta. intros Hn.
  destruct (Z.eqb_spec (Z.land (byte_at codec_config 10) A2DP_LHDC_VERSION_MASK)
                       A2DP_LHDC_VER3) as [H3|H3];
    destruct (Z.eqb_spec (Z.land (byte_at codec_config 10) A2DP_LHDC_VERSION_MASK)
                         A2DP_LHDC_VER6) as [H6|H6];
    cbn [negb andb]; try (apply lhdc_split_mode_supported; tauto).
  tauto.
Qed.

Lemma offload_lhdcv2_supported (codec_config : list Z) (specific_1 : Z)
      (offload_info : list Z) :
  ~ lhdcv2_unsupported codec_config ->
  (offload_lhdcv2 codec_config specific_1 offload_info).1 = true.
Proof.
  unfold lhdcv2_unsupported, offload_lhdcv2. cbv zeta. intros Hn.
  destruct (Z.gtb_spec (Z.land (byte_at codec_config 10) A2DP_LHDC_VERSION_MASK)
                       A2DP_LHDC_VER2) as [Hgt|Hle].
  - exfalso. apply Hn. left. lia.
  - apply lhdc_split_mode_supported. tauto.
Qed.

Lemma offload_lhdcv5_supported (codec_config : list Z) (specific_1 : Z)
      (offload_info : list Z) :
  ~ lhdcv5_unsupported codec_config ->
  (offload_lhdcv5 codec_config specific_1 offload_info).1 = true.
Proof.
  unfold lhdcv5_unsupported, offload_lhdcv5. cbv zeta. intros Hn.
  destruct (Z.eqb_spec (Z.land (byte_at codec_config 11) A2DP_LHDCV5_VERSION_MASK)
                       A2DP_LHDCV5_VER_1) as [Hv|Hv]; [|tauto].
  cbn [negb].
  destruct (Z.eqb_spec (Z.land (byte_at codec_config 11) A2DP_LHDCV5_FRAME_LEN_MASK)
                       0) as [Hf|Hf]; [tauto|].
  reflexivity.
Qed.

(** X8.  On a valid vendor wire configuration of the LHDC vendor, the
    version, split-mode and frame-duration checks are the only way to fail:
    for the V3, the V2 and the V5 codec id, [getCodecSpecificConfig]
    returns true exactly when the configuration is not one of the
    unsupported ones of that revision. *)
Theorem lhdc_offload_accepts_exactly_supported
        (this : A2dpCodecConfig) (offload_info : list Z) :
  let codec_config := ota_codec_config_ this in
  A2DP_MEDIA_CT_NON_A2DP <> A2DP_MEDIA_CT_SBC ->
  A2DP_MEDIA_CT_NON_A2DP <> A2DP_MEDIA_CT_AAC ->
  A2DP_LHDC_VENDOR_ID <> A2DP_LDAC_VENDOR_ID ->
  A2DP_LHDCV2_CODEC_ID <> A2DP_LHDCV3_CODEC_ID ->
  A2DP_LHDCV5_CODEC_ID <> A2DP_LHDCV3_CODEC_ID ->
  A2DP_LHDCV5_CODEC_ID <> A2DP_LHDCV2_CODEC_ID ->
  A2DP_GetCodecType codec_config = A2DP_MEDIA_CT_NON_A2DP ->
  A2DP_IsVendorSourceCodecValid codec_config = true ->
  A2DP_VendorCodecGetVendorId codec_config = A2DP_LHDC_VENDOR_ID ->
  (A2DP_VendorCodecGetCodecId codec_config = A2DP_LHDCV3_CODEC_ID ->
   ((getCodecSpecificConfig this offload_info).1 = true <->
    ~ lhdcv3_unsupported codec_config)) /\
  (A2DP_VendorCodecGetCodecId codec_config = A2DP_LHDCV2_CODEC_ID ->
   ((getCodecSpecificConfig this offload_info).1 = true <->
    ~ lhdcv2_unsupported codec_config)) /\
  (A2DP_VendorCodecGetCodecId codec_config = A2DP_LHDCV5_CODEC_ID ->
   ((getCodecSpecificConfig this offload_info).1 = true <->
    ~ lhdcv5_unsupported codec_config)).
Proof.
  intros codec_config Hsbc Haac Hldac H23 H53 H52 Htag Hvalid Hvendor.
  rewrite getCodecSpecificConfig_vendor by assumption.
  fold codec_config. unfold offload_vendor. cbv zeta. rewrite Hvendor.
  destruct (Z.eqb_spec A2DP_LHDC_VENDOR_ID A2DP_LDAC_VENDOR_ID) as [He|_];
    [contradiction|].
  rewrite Z.eqb_refl. cbn [andb].
  split; [|split]; intros Hid; rewrite Hid.
  - rewrite Z.eqb_refl. split.
    + intros Hr Hu. rewrite offload_lhdcv3_unsupported in Hr by done. discriminate.
    + apply offload_lhdcv3_supported.
  - destruct (Z.eqb_spec A2DP_LHDCV2_CODEC_ID A2DP_LHDCV3_CODEC_ID) as [He|_];
      [contradiction|].
    rewrite Z.eqb_refl. split.
    + intros Hr Hu. rewrite offload_lhdcv2_unsupported in Hr by done. discriminate.
    + apply offload_lhdcv2_supported.
  - destruct (Z.eqb_spec A2DP_LHDCV5_CODEC_ID A2DP_LHDCV3_CODEC_ID) as [He|_];
      [contradiction|].
    destruct (Z.eqb_spec A2DP_LHDCV5_CODEC_ID A2DP_LHDCV2_CODEC_ID) as [He|_];
      [contradiction|].
    rewrite Z.eqb_refl. split.
    + intros Hr Hu. rewrite offload_lhdcv5_unsupported in Hr by done. discriminate.
    + apply offload_lhdcv5_supported.
Qed.

End OffloadVendorFacts.

(** X7 on an LDAC wire configuration (vendor id 0x12D, codec id 0xAA) with
    [codec_specific_1] left at 0. *)
Lemma ldac_offload_bytes_witness :
  exists info,
    @getCodecSpecificConfig sample_constants sample_families
      sample_offload_constants
      (sample_codec 4 "LDAC" (vendor_wire_config 301 170 [60; 1])) (replicate 32 7)
    = (true, info) /\
    byte_at info 7 = 1 /\ byte_at info 6 = 127.
Proof.
  destruct (@ldac_offload_bytes sample_constants sample_families
              sample_offload_constants
              (sample_codec 4 "LDAC" (vendor_wire_config 301 170 [60; 1]))
              (replicate 32 7))
    as (info & Hcall & H7 & H0 & _);
    try reflexivity; try (vm_compute; lia); try (vm_compute; discriminate).
  exists info. split; [exact Hcall|]. split; [exact H7|].
  apply H0. reflexivity.
Defined.

(** X8 on an LHDC V5 wire configuration with version 1 and the 5 ms frame
    bit set. *)
Lemma lhdc_offload_accepts_exactly_supported_witness :
  (@getCodecSpecificConfig sample_constants sample_families
     sample_offload_constants
     (sample_codec 8 "LHDC V5" (vendor_wire_config 1338 19509 [0; 0; 17; 0; 0; 0]))
     (replicate 32 7)).1 = true.
Proof.
  apply (proj2 (proj2
    (@lhdc_offload_accepts_exactly_supported sample_constants sample_families
       sample_offload_constants
       (sample_codec 8 "LHDC V5" (vendor_wire_config 1338 19509 [0; 0; 17; 0; 0; 0]))
       (replicate 32 7)
       ltac:(vm_compute; discriminate) ltac:(vm_compute; discriminate)
       ltac:(vm_compute; discriminate) ltac:(vm_compute; discriminate)
       ltac:(vm_compute; discriminate) ltac:(vm_compute; discriminate)
       ltac:(reflexivity) ltac:(reflexivity) ltac:(reflexivity)))).
  - reflexivity.
  - vm_compute. intros [H | H]; [apply H; reflexivity | discriminate].
Defined.

(** ** More on the dispatch layer *)

Section DispatchMoreFacts.
Context `{K : A2dpConstants} `{F : CodecFamilies} `{M : CodecFamiliesMore}
        `{I : CodecIndexConstants}.

(** X9.  The remaining functions that switch on the codec-type tag answer a
    tag that is none of SBC, AAC and NON_A2DP with their fixed default:
    -1 from the track accessors and from [getTrackBitRate], false from the
    "supported" predicates and from [A2DP_AdjustCodec] (which leaves the
    buffer as it is), [NULL] from [A2DP_GetEncoderInterface], 0 from
    [A2DP_GetEecoderEffectiveFrameSize], [BTAV_A2DP_CODEC_INDEX_MAX] from
    [A2DP_SinkCodecIndex], and "Unsupported codec type: " followed by the
    tag from [A2DP_CodecInfoString]. *)
Theorem unknown_tag_defaults (this : A2dpCodecConfig) (p_codec_info : list Z) :
  A2DP_GetCodecType p_codec_info <> A2DP_MEDIA_CT_SBC ->
  A2DP_GetCodecType p_codec_info <> A2DP_MEDIA_CT_AAC ->
  A2DP_GetCodecType p_codec_info <> A2DP_MEDIA_CT_NON_A2DP ->
  ota_codec_config_ this = p_codec_info ->
  getTrackBitRate this = -1 /\
  A2DP_GetTrackBitsPerSample p_codec_info = -1 /\
  A2DP_GetTrackChannelCount p_codec_info = -1 /\
  A2DP_GetSinkTrackChannelType p_codec_info = -1 /\
  A2DP_IsSinkCodecSupported p_codec_info = false /\
  A2DP_IsPeerSourceCodecSupported p_codec_info = false /\
  A2DP_AdjustCodec p_codec_info = (false, p_codec_info) /\
  A2DP_GetEncoderInterface p_codec_info = None /\
  A2DP_GetEecoderEffectiveFrameSize p_codec_info = 0 /\
  A2DP_SinkCodecIndex p_codec_info = BTAV_A2DP_CODEC_INDEX_MAX /\
  A2DP_CodecInfoString p_codec_info =
    ("Unsupported codec type: " ++ loghex (A2DP_GetCodecType p_codec_info))%string.
Proof.
  intros Hs Ha Hn Hota.
  unfold getTrackBitRate, A2DP_GetTrackBitsPerSample, A2DP_GetTrackChannelCount,
    A2DP_GetSinkTrackChannelType, A2DP_IsSinkCodecSupported,
    A2DP_IsPeerSourceCodecSupported, A2DP_AdjustCodec, A2DP_GetEncoderInterface,
    A2DP_GetEecoderEffectiveFrameSize, A2DP_SinkCodecIndex, A2DP_CodecInfoString.
  cbv zeta. rewrite Hota.
  by rewrite !switch_codec_type_default.
Qed.

(** X10.  Two buffers are only ever found equal, by [A2DP_CodecEquals] or by
    [A2DP_CodecTypeEquals], when they carry the same codec-type tag and that
    tag is SBC, AAC or NON_A2DP; in particular two buffers with the same
    unknown tag are not equal, not even a buffer and itself. *)
Theorem equal_codecs_share_a_known_tag (p_codec_info_a p_codec_info_b : list Z) :
  A2DP_CodecEquals p_codec_info_a p_codec_info_b = true \/
  A2DP_CodecTypeEquals p_codec_info_a p_codec_info_b = true ->
  A2DP_GetCodecType p_codec_info_a = A2DP_GetCodecType p_codec_info_b /\
  (A2DP_GetCodecType p_codec_info_a = A2DP_MEDIA_CT_SBC \/
   A2DP_GetCodecType p_codec_info_a = A2DP_MEDIA_CT_AAC \/
   A2DP_GetCodecType p_codec_info_a = A2DP_MEDIA_CT_NON_A2DP).
Proof.
  unfold A2DP_CodecEquals, A2DP_CodecTypeEquals, switch_codec_type. cbv zeta.
  destruct (Z.eqb_spec (A2DP_GetCodecType p_codec_info_a)
                       (A2DP_GetCodecType p_codec_info_b)) as [Heq|Hne];
    cbn [negb]; [|intros [H|H]; discriminate].
  destruct (Z.eqb_spec (A2DP_GetCodecType p_codec_info_a) A2DP_MEDIA_CT_SBC);
    [tauto|].
  destruct (Z.eqb_spec (A2DP_GetCodecType p_codec_info_a) A2DP_MEDIA_CT_AAC);
    [tauto|].
  destruct (Z.eqb_spec (A2DP_GetCodecType p_codec_info_a) A2DP_MEDIA_CT_NON_A2DP);
    [tauto|].
  intros [H|H]; discriminate.
Qed.

(** X11.  [A2DP_GetMediaType] is the high nibble of byte 1: for a buffer of
    bytes it is byte 1 divided by 16, between 0 and 15. *)
Theorem media_type_is_high_nibble (p_codec_info : list Z) :
  0 <= byte_at p_codec_info 1 < 256 ->
  A2DP_GetMediaType p_codec_info = byte_at p_codec_info 1 / 16 /\
  0 <= A2DP_GetMediaType p_codec_info <= 15.
Proof.
  intros Hb. unfold A2DP_GetMediaType, to_uint8.
  rewrite Z.shiftr_div_pow2 by lia. change (2 ^ 4) with 16.
  change 15 with (Z.ones 4). rewrite Z.land_ones by lia. change (2 ^ 4) with 16.
  assert (0 <= byte_at p_codec_info 1 / 16 < 16).
  { split; [apply Z.div_pos; lia | apply Z.div_lt_upper_bound; lia]. }
  rewrite (Z.mod_small (byte_at p_codec_info 1 / 16) 16) by lia.
  rewrite Z.mod_small by lia. change (Z.ones 4) with 15. lia.
Qed.

(** X12.  A codec index that is none of the SBC and AAC indices and is not
    below [BTAV_A2DP_CODEC_INDEX_MAX] has the name "UNKNOWN CODEC INDEX", and
    [A2DP_InitCodecConfig] returns false for it; the content-protection
    fields are reset all the same ([num_protect] and [protect_info[0]] are 0
    on exit) and the rest of the configuration is left alone. *)
Theorem unknown_codec_index (codec_index : Z) (p_cfg : AvdtpSepConfig) :
  codec_index <> BTAV_A2DP_CODEC_INDEX_SOURCE_SBC ->
  codec_index <> BTAV_A2DP_CODEC_INDEX_SINK_SBC ->
  codec_index <> BTAV_A2DP_CODEC_INDEX_SOURCE_AAC ->
  codec_index <> BTAV_A2DP_CODEC_INDEX_SINK_AAC ->
  BTAV_A2DP_CODEC_INDEX_MAX <= codec_index ->
  A2DP_CodecIndexStr codec_index = "UNKNOWN CODEC INDEX"%string /\
  A2DP_InitCodecConfig codec_index p_cfg =
  (false, {| codec_info := codec_info p_cfg; num_protect := 0;
             protect_info := <[0%nat := 0]> (protect_info p_cfg) |}).
Proof.
  intros H1 H2 H3 H4 Hmax. unfold A2DP_CodecIndexStr, A2DP_InitCodecConfig.
  cbv zeta.
  destruct (Z.eqb_spec codec_index BTAV_A2DP_CODEC_INDEX_SOURCE_SBC); [contradiction|].
  destruct (Z.eqb_spec codec_index BTAV_A2DP_CODEC_INDEX_SINK_SBC); [contradiction|].
  destruct (Z.eqb_spec codec_index BTAV_A2DP_CODEC_INDEX_SOURCE_AAC); [contradiction|].
  destruct (Z.eqb_spec codec_index BTAV_A2DP_CODEC_INDEX_SINK_AAC); [contradiction|].
  destruct (Z.ltb_spec codec_index BTAV_A2DP_CODEC_INDEX_MAX); [lia|].
  split; reflexivity.
Qed.

End DispatchMoreFacts.

Lemma unknown_tag_defaults_witness :
  @getTrackBitRate sample_constants sample_families_more
    (sample_codec 0 "?" [6; 0; 1; 34; 21; 2; 53]) = -1 /\
  @A2DP_AdjustCodec sample_constants sample_families_more [6; 0; 1; 34; 21; 2; 53]
  = (false, [6; 0; 1; 34; 21; 2; 53]) /\
  @A2DP_GetEecoderEffectiveFrameSize sample_constants sample_families_more
    [6; 0; 1; 34; 21; 2; 53] = 0.
Proof.
  destruct (@unknown_tag_defaults sample_constants sample_families
              sample_families_more
              (sample_codec 0 "?" [6; 0; 1; 34; 21; 2; 53])
              [6; 0; 1; 34; 21; 2; 53])
    as (H1 & _ & _ & _ & _ & _ & H7 & _ & H9 & _);
    try (vm_compute; discriminate); try reflexivity.
  repeat split; assumption.
Defined.

(** X10 on two SBC buffers that agree in bytes 3 to 6. *)
Lemma equal_codecs_share_a_known_tag_witness :
  @A2DP_GetCodecType sample_constants sbc_wire_config
  = @A2DP_GetCodecType sample_constants [6; 0; 0; 34; 21; 2; 53; 99].
Proof.
  apply (@equal_codecs_share_a_known_tag sample_constants sample_families
           sample_families_more sbc_wire_config [6; 0; 0; 34; 21; 2; 53; 99]).
  left. reflexivity.
Defined.

Lemma media_type_is_high_nibble_witness :
  A2DP_GetMediaType [6; 16; 0; 34; 21; 2; 53] = 1.
Proof.
  apply (proj1 (media_type_is_high_nibble [6; 16; 0; 34; 21; 2; 53]
                  ltac:(vm_compute; split; [discriminate | reflexivity]))).
Defined.

Lemma unknown_codec_index_witness :
  @A2DP_CodecIndexStr sample_constants sample_families_more sample_index_constants 16
  = "UNKNOWN CODEC INDEX"%string /\
  @A2DP_InitCodecConfig sample_constants sample_families_more sample_index_constants
    16 {| codec_info := sbc_wire_config; num_protect := 1; protect_info := [2; 0; 2] |}
  = (false, {| codec_info := sbc_wire_config; num_protect := 0;
               protect_info := [0; 0; 2] |}).
Proof.
  apply (@unknown_codec_index sample_constants sample_families_more
           sample_index_constants 16
           {| codec_info := sbc_wire_config; num_protect := 1;
              protect_info := [2; 0; 2] |}); vm_compute; discriminate.
Defined.

(** ** Building the registry *)

Section SortMoreFacts.
Context {A : Type} (comp : A -> A -> bool).

Lemma sort_insert_Permutation (x : A) (l : list A) :
  sort_insert comp x l ≡ₚ x :: l.
Proof.
  induction l as [|y l IH]; simpl; [reflexivity|].
  destruct (comp y x); [|reflexivity].
  rewrite IH. apply Permutation_swap.
Qed.

Lemma list_sort_Permutation (l : list A) : list_sort comp l ≡ₚ l.
Proof.
  induction l as [|x l IH]; simpl; [reflexivity|].
  by rewrite sort_insert_Permutation, IH.
Qed.

End SortMoreFacts.

Section InitFacts.
Context `{K : A2dpConstants} `{F : CodecFamilies} `{N : CodecNegotiation}
        `{I : CodecIndexConstants} `{C : CodecClasses}.

Lemma codec_priorities_foldl (l : list btav_a2dp_codec_config_t)
      (m : gmap Z Z) (k : Z) :
  foldl (fun m config => map_insert_new (codec_type config) (codec_priority config) m)
        m l !! k =
  match m !! k with
  | Some v => Some v
  | None => codec_priority <$> head (filter (fun c => codec_type c = k) l)
  end.
Proof.
  revert m. induction l as [|c l IH]; intros m; simpl.
  - by destruct (m !! k).
  - rewrite IH. unfold map_insert_new.
    destruct (decide (codec_type c = k)) as [Hk|Hk].
    + rewrite filter_cons_True by done. simpl. subst k.
      destruct (m !! codec_type c) eqn:Hm; [by rewrite Hm|].
      by rewrite lookup_insert_eq.
    + rewrite filter_cons_False by done.
      destruct (m !! codec_type c) eqn:Hm; [reflexivity|].
      by rewrite lookup_insert_ne.
Qed.

(** X13.  The registry's constructor keeps, for each codec index, the
    priority of the first entry of its argument that names that index;
    later entries for the same index are ignored, and an index that no entry
    names has no priority in the table. *)
Theorem codec_priorities_first_entry_wins
        (codec_priorities : list btav_a2dp_codec_config_t) (k : Z) :
  codec_priorities_ (new_A2dpCodecs codec_priorities) !! k =
  codec_priority <$> head (filter (fun c => codec_type c = k) codec_priorities).
Proof.
  unfold new_A2dpCodecs. cbn [codec_priorities_].
  rewrite codec_priorities_foldl. by rewrite lookup_empty.
Qed.

Lemma init_invariant_new (codec_priorities : list btav_a2dp_codec_config_t) :
  init_invariant BTAV_A2DP_CODEC_INDEX_MIN (new_A2dpCodecs codec_priorities).
Proof.
  unfold init_invariant, new_A2dpCodecs, sorted_by_priority.
  cbn [indexed_codecs_ disabled_codecs_ ordered_source_codecs_ ordered_sink_codecs_].
  assert (Hnone : forall k, ~ is_Some ((∅ : gmap Z A2dpCodecConfig) !! k)).
  { intros k [d Hd]. rewrite lookup_empty in Hd. discriminate. }
  split; [intros k Hk; by apply Hnone in Hk|].
  split; [intros k; split;
            [intros Hk; by apply elem_of_nil in Hk
            | intros [Hk _]; by apply Hnone in Hk]|].
  split; [intros k; split;
            [intros Hk; by apply elem_of_nil in Hk
            | intros [Hk _]; by apply Hnone in Hk]|].
  split; [constructor|]. split; [constructor|].
  split; [constructor|]. split; [constructor|].
  split; intros k d Hd; rewrite lookup_empty in Hd; discriminate.
Qed.

(** Adding a new descriptor under a new key and sorting it into one list. *)
Lemma sorted_after_push (m : gmap Z A2dpCodecConfig) (l : list Z) (i : Z)
      (c : A2dpCodecConfig) :
  Forall (fun p => is_Some (m !! p)) l ->
  sorted_by_priority (<[i := c]> m)
    (list_sort (compare_at (<[i := c]> m)) (l ++ [i])).
Proof.
  intros Hres. apply list_sort_sorted_by_priority.
  apply Forall_app. split.
  - eapply Forall_impl; [exact Hres|]. cbv beta. intros p [d Hd].
    destruct (decide (i = p)) as [->|Hne].
    + rewrite lookup_insert_eq. by eexists.
    + rewrite lookup_insert_ne by done. by eexists.
  - constructor; [|constructor]. rewrite lookup_insert_eq. by eexists.
Qed.

Lemma init_codec_step (opus_enabled : bool) (this : A2dpCodecs) (lo : Z) :
  BTAV_A2DP_CODEC_INDEX_MIN <= lo ->
  init_invariant lo this ->
  exists this',
    init_codec opus_enabled this lo = Some this' /\
    init_invariant (lo + 1) this' /\
    current_codec_config_ this' = current_codec_config_ this /\
    codec_priorities_ this' = codec_priorities_ this.
Proof.
  intros Hlo (Hdom & Hsrc & Hsnk & Hnds & Hndk & Hss & Hsk & Hen & Hdis).
  unfold init_codec. cbv zeta.
  destruct (createCodec lo _) as [c|] eqn:Hc.
  2:{ exists this. split; [reflexivity|]. split; [|done].
      split; [intros k Hk; apply Hdom in Hk; lia|].
      repeat (split; [assumption|]). assumption. }
  destruct (Z.eqb_spec (codecPriority c) BTAV_A2DP_CODEC_PRIORITY_DISABLED)
    as [Hp|Hp].
  { eexists. split; [reflexivity|]. split; [|done].
    unfold init_invariant.
    cbn [indexed_codecs_ disabled_codecs_ ordered_source_codecs_
         ordered_sink_codecs_ set_disabled_codecs_].
    split; [intros k Hk; apply Hdom in Hk; lia|].
    repeat (split; [assumption|]).
    intros k d. unfold map_insert_new.
    destruct (disabled_codecs_ this !! lo) eqn:Hl; [apply Hdis|].
    destruct (decide (lo = k)) as [->|Hne].
    - rewrite lookup_insert_eq. intros Heq. by inversion Heq; subst.
    - rewrite lookup_insert_ne by done. apply Hdis. }
  assert (Hfresh : indexed_codecs_ this !! lo = None).
  { destruct (indexed_codecs_ this !! lo) eqn:Hl; [|reflexivity].
    assert (Hs : is_Some (indexed_codecs_ this !! lo)) by (rewrite Hl; by eexists).
    apply Hdom in Hs. lia. }
  rewrite Hfresh.
  assert (Hlook : forall k, k <> lo ->
            <[lo := c]> (indexed_codecs_ this) !! k = indexed_codecs_ this !! k).
  { intros k Hk. by rewrite lookup_insert_ne. }
  assert (Hsome : forall k, is_Some (<[lo := c]> (indexed_codecs_ this) !! k) <->
                            k = lo \/ is_Some (indexed_codecs_ this !! k)).
  { intros k. destruct (decide (k = lo)) as [->|Hne].
    - rewrite lookup_insert_eq. split; [by left | intros _; by eexists].
    - rewrite Hlook by done. split; [by right | by intros [?|?]]. }
  assert (Hnosrc : lo ∉ ordered_source_codecs_ this).
  { intros Hin. apply Hsrc in Hin. destruct Hin as [Hs _].
    rewrite Hfresh in Hs. by destruct Hs. }
  assert (Hnosnk : lo ∉ ordered_sink_codecs_ this).
  { intros Hin. apply Hsnk in Hin. destruct Hin as [Hs _].
    rewrite Hfresh in Hs. by destruct Hs. }
  assert (Hen' : forall k d, <[lo := c]> (indexed_codecs_ this) !! k = Some d ->
                 codecPriority d <> BTAV_A2DP_CODEC_PRIORITY_DISABLED).
  { intros k d. destruct (decide (k = lo)) as [->|Hne].
    - rewrite lookup_insert_eq. intros Heq. by inversion Heq; subst.
    - rewrite Hlook by done. apply Hen. }
  assert (Hdom' : forall k, is_Some (<[lo := c]> (indexed_codecs_ this) !! k) ->
                  BTAV_A2DP_CODEC_INDEX_MIN <= k < lo + 1).
  { intros k Hk. apply Hsome in Hk. destruct Hk as [->|Hk]; [lia|].
    apply Hdom in Hk. lia. }
  assert (Hres_src : Forall (fun p => is_Some (indexed_codecs_ this !! p))
                            (ordered_source_codecs_ this)).
  { apply Forall_forall. intros q Hq. by apply Hsrc in Hq as [? _]. }
  assert (Hres_snk : Forall (fun p => is_Some (indexed_codecs_ this !! p))
                            (ordered_sink_codecs_ this)).
  { apply Forall_forall. intros q Hq. by apply Hsnk in Hq as [? _]. }
  destruct (Z.ltb_spec lo BTAV_A2DP_CODEC_INDEX_SOURCE_MAX) as [Hlt|Hge].
  - eexists. split; [reflexivity|]. split; [|done].
    unfold init_invariant.
    cbn [indexed_codecs_ disabled_codecs_ ordered_source_codecs_
         ordered_sink_codecs_ set_ordered_source_codecs_ set_indexed_codecs_].
    split; [exact Hdom'|]. split; [|split; [|split; [|split; [|split;
      [|split; [|split; [exact Hen' | exact Hdis]]]]]]].
    + intros k. rewrite list_sort_elem, elem_of_app, list_elem_of_singleton,
        Hsrc, Hsome.
      split; [intros [[? ?] | ->]; split; auto | intros [[-> | ?] ?]; auto].
    + intros k. rewrite Hsnk, Hsome.
      split; [intros [? ?]; split; auto | intros [[-> | ?] ?]; [lia | auto]].
    + rewrite list_sort_Permutation. apply NoDup_app. split; [assumption|].
      split; [|apply NoDup_singleton].
      intros x Hx Hx'. apply list_elem_of_singleton in Hx'. by subst.
    + assumption.
    + by apply sorted_after_push.
    + eapply sorted_by_priority_ext; [|exact Hsk].
      intros q Hq. apply Hlook. intros ->. contradiction.
  - eexists. split; [reflexivity|]. split; [|done].
    unfold init_invariant.
    cbn [indexed_codecs_ disabled_codecs_ ordered_source_codecs_
         ordered_sink_codecs_ set_ordered_sink_codecs_ set_indexed_codecs_].
    split; [exact Hdom'|]. split; [|split; [|split; [|split; [|split;
      [|split; [|split; [exact Hen' | exact Hdis]]]]]]].
    + intros k. rewrite Hsrc, Hsome.
      split; [intros [? ?]; split; auto | intros [[-> | ?] ?]; [lia | auto]].
    + intros k. rewrite list_sort_elem, elem_of_app, list_elem_of_singleton,
        Hsnk, Hsome.
      split; [intros [[? ?] | ->]; split; auto | intros [[-> | ?] ?]; auto].
    + assumption.
    + rewrite list_sort_Permutation. apply NoDup_app. split; [assumption|].
      split; [|apply NoDup_singleton].
      intros x Hx Hx'. apply list_elem_of_singleton in Hx'. by subst.
    + eapply sorted_by_priority_ext; [|exact Hss].
      intros q Hq. apply Hlook. intros ->. contradiction.
    + by apply sorted_after_push.
Qed.

Lemma init_codecs_loop (opus_enabled : bool) (n : nat) :
  forall (lo len : Z) (this : A2dpCodecs),
    Z.to_nat len = n ->
    BTAV_A2DP_CODEC_INDEX_MIN <= lo ->
    init_invariant lo this ->
    exists this',
      init_codecs opus_enabled this (seqZ lo len) = Some this' /\
      init_invariant (lo + Z.of_nat n) this' /\
      current_codec_config_ this' = current_codec_config_ this /\
      codec_priorities_ this' = codec_priorities_ this.
Proof.
  induction n as [|n IH]; intros lo len this Hn Hlo Hinv.
  - rewrite seqZ_nil by lia. exists this. split; [reflexivity|].
    rewrite Z.add_0_r. done.
  - rewrite seqZ_cons by lia. cbn [init_codecs].
    destruct (init_codec_step opus_enabled this lo Hlo Hinv)
      as (this1 & -> & Hinv1 & Hc1 & Hp1).
    destruct (IH (Z.succ lo) (Z.pred len) this1) as (this2 & Hrun & Hinv2 & Hc2 & Hp2);
      [lia | lia | by rewrite <- Z.add_1_r |].
    exists this2. split; [exact Hrun|].
    split; [|split; congruence].
    replace (lo + Z.of_nat (S n)) with (Z.succ lo + Z.of_nat n) by lia.
    exact Hinv2.
Qed.

(** [init] on a registry fresh from the constructor runs through. *)
Lemma init_of_new_registry (codec_priorities : list btav_a2dp_codec_config_t)
      (props : SystemProperties) (vars : OffloadVars) :
  exists this',
    A2dpCodecs_init (new_A2dpCodecs codec_priorities) props vars =
    Some (match ordered_source_codecs_ this', ordered_sink_codecs_ this' with
          | _ :: _, _ :: _ => true
          | _, _ => false
          end, this', init_offload props vars) /\
    init_invariant
      (BTAV_A2DP_CODEC_INDEX_MIN +
       Z.of_nat (Z.to_nat (BTAV_A2DP_CODEC_INDEX_MAX - BTAV_A2DP_CODEC_INDEX_MIN)))
      this' /\
    current_codec_config_ this' = None /\
    codec_priorities_ this' = codec_priorities_ (new_A2dpCodecs codec_priorities).
Proof.
  destruct (init_codecs_loop (persist_bluetooth_opus_enabled props)
              (Z.to_nat (BTAV_A2DP_CODEC_INDEX_MAX - BTAV_A2DP_CODEC_INDEX_MIN))
              BTAV_A2DP_CODEC_INDEX_MIN
              (BTAV_A2DP_CODEC_INDEX_MAX - BTAV_A2DP_CODEC_INDEX_MIN)
              (new_A2dpCodecs codec_priorities) eq_refl (Z.le_refl _)
              (init_invariant_new codec_priorities))
    as (this' & Hrun & Hinv & Hc & Hp).
  exists this'. unfold A2dpCodecs_init. cbv zeta. rewrite Hrun.
  cbn [mbind option_bind]. split; [reflexivity|].
  split; [exact Hinv|]. split; [exact Hc | exact Hp].
Qed.

(** X14.  [init] on a registry fresh from the constructor returns, and
    leaves a registry in which every pointer of the two ordered lists is an
    enabled descriptor, both lists are sorted by the comparator, and no
    codec is current yet; it returns true exactly when neither list is
    empty. *)
Theorem init_establishes_the_registry
        (codec_priorities : list btav_a2dp_codec_config_t)
        (props : SystemProperties) (vars : OffloadVars) :
  exists (b : bool) (this' : A2dpCodecs) (vars' : OffloadVars),
    A2dpCodecs_init (new_A2dpCodecs codec_priorities) props vars
    = Some (b, this', vars') /\
    registry_wf this' /\
    sorted_by_priority (indexed_codecs_ this') (ordered_source_codecs_ this') /\
    sorted_by_priority (indexed_codecs_ this') (ordered_sink_codecs_ this') /\
    current_codec_config_ this' = None /\
    (b = true <->
     ordered_source_codecs_ this' <> [] /\ ordered_sink_codecs_ this' <> []).
Proof.
  destruct (init_of_new_registry codec_priorities props vars)
    as (this' & Hrun & Hinv & Hc & _).
  destruct Hinv as (_ & Hsrc & Hsnk & _ & _ & Hss & Hsk & _).
  eexists _, this', _. split; [exact Hrun|].
  split; [|split; [exact Hss | split; [exact Hsk | split; [exact Hc|]]]].
  - split; [|split].
    + intros c Hcur. congruence.
    + apply Forall_forall. intros p Hp. by apply Hsrc in Hp as [? _].
    + apply Forall_forall. intros p Hp. by apply Hsnk in Hp as [? _].
  - destruct (ordered_source_codecs_ this'), (ordered_sink_codecs_ this');
      split; try discriminate; try (intros [? ?]; congruence); try done.
Qed.

(** X15.  After [init] on a registry fresh from the constructor, the enabled
    codecs have indices from [MIN] to below [MAX] and none has the disabled
    priority, while every codec kept in [disabled_codecs_] has it; the
    source list holds exactly the enabled codecs with an index below
    [SOURCE_MAX] and the sink list exactly the others, each codec once. *)
Theorem init_partitions_the_codecs
        (codec_priorities : list btav_a2dp_codec_config_t)
        (props : SystemProperties) (vars : OffloadVars) :
  exists (b : bool) (this' : A2dpCodecs) (vars' : OffloadVars),
    A2dpCodecs_init (new_A2dpCodecs codec_priorities) props vars
    = Some (b, this', vars') /\
    (forall k d, indexed_codecs_ this' !! k = Some d ->
                 BTAV_A2DP_CODEC_INDEX_MIN <= k < BTAV_A2DP_CODEC_INDEX_MAX /\
                 codecPriority d <> BTAV_A2DP_CODEC_PRIORITY_DISABLED) /\
    (forall k d, disabled_codecs_ this' !! k = Some d ->
                 codecPriority d = BTAV_A2DP_CODEC_PRIORITY_DISABLED) /\
    (forall k, k ∈ ordered_source_codecs_ this' <->
               is_Some (indexed_codecs_ this' !! k) /\
               k < BTAV_A2DP_CODEC_INDEX_SOURCE_MAX) /\
    (forall k, k ∈ ordered_sink_codecs_ this' <->
               is_Some (indexed_codecs_ this' !! k) /\
               BTAV_A2DP_CODEC_INDEX_SOURCE_MAX <= k) /\
    NoDup (ordered_source_codecs_ this') /\
    NoDup (ordered_sink_codecs_ this').
Proof.
  destruct (init_of_new_registry codec_priorities props vars)
    as (this' & Hrun & Hinv & _).
  destruct Hinv as (Hdom & Hsrc & Hsnk & Hnds & Hndk & _ & _ & Hen & Hdis).
  eexists _, this', _. split; [exact Hrun|].
  repeat split; try assumption; try (by apply Hsrc); try (by apply Hsnk).
  - assert (Hs : is_Some (indexed_codecs_ this' !! k)) by (rewrite H; by eexists).
    apply Hdom in Hs. lia.
  - assert (Hs : is_Some (indexed_codecs_ this' !! k)) by (rewrite H; by eexists).
    apply Hdom in Hs. lia.
  - by apply (Hen k).
Qed.

(** X16.  [init] sets [a2dp_offload_status] exactly when the "supported"
    property is "true" and the "disabled" property is "false"; when it is
    not set the support flags are not touched; and whatever the capability
    string says, a codec index that is none of the SBC, AAC, aptX, aptX-HD
    and LDAC indices (an LHDC index, for one) is not switched on: if its
    flag was not true before, it is not true after. *)
Theorem init_offload_flags (props : SystemProperties) (vars : OffloadVars) (k : Z) :
  k <> BTAV_A2DP_CODEC_INDEX_SOURCE_SBC ->
  k <> BTAV_A2DP_CODEC_INDEX_SOURCE_AAC ->
  k <> BTAV_A2DP_CODEC_INDEX_SOURCE_APTX ->
  k <> BTAV_A2DP_CODEC_INDEX_SOURCE_APTX_HD ->
  k <> BTAV_A2DP_CODEC_INDEX_SOURCE_LDAC ->
  let vars' := init_offload props vars in
  (a2dp_offload_status vars' = true <->
   ro_bluetooth_a2dp_offload_supported props = "true"%string /\
   persist_bluetooth_a2dp_offload_disabled props = "false"%string) /\
  (a2dp_offload_status vars' = false ->
   offload_codec_support vars' = offload_codec_support vars) /\
  (offload_codec_support vars !! k <> Some true ->
   offload_codec_support vars' !! k <> Some true).
Proof.
  intros H1 H2 H3 H4 H5 vars'. subst vars'. unfold init_offload. cbv zeta.
  cbn [a2dp_offload_status offload_codec_support].
  split; [|split].
  - rewrite andb_true_iff, !String.eqb_eq. reflexivity.
  - intros ->. reflexivity.
  - intros Hk. destruct (_ && _); [|exact Hk].
    revert Hk. generalize (offload_codec_support vars).
    induction (strtok_tokens "-" (persist_bluetooth_a2dp_offload_cap props))
      as [|tok toks IH]; intros support Hk; [exact Hk|].
    cbn [foldl]. apply IH. unfold offload_token.
    repeat (destruct (String.eqb tok _);
            [first [ by rewrite lookup_insert_ne
                   | destruct (decide
                       (k = BTAV_A2DP_CODEC_INDEX_SOURCE_LHDCV2)) as [->|?];
                     [by rewrite lookup_insert_eq | by rewrite lookup_insert_ne]
                   | destruct (decide
                       (k = BTAV_A2DP_CODEC_INDEX_SOURCE_LHDCV3)) as [->|?];
                     [by rewrite lookup_insert_eq | by rewrite lookup_insert_ne]
                   | destruct (decide
                       (k = BTAV_A2DP_CODEC_INDEX_SOURCE_LHDCV5)) as [->|?];
                     [by rewrite lookup_insert_eq | by rewrite lookup_insert_ne] ]
            |]).
    exact Hk.
Qed.

End InitFacts.

(** X16 on the sample properties, for the LHDC V3 index 7 (which the
    capability string names). *)
Lemma init_offload_flags_witness :
  let vars' := @init_offload sample_index_constants sample_properties
                 sample_offload_vars in
  a2dp_offload_status vars' = true /\
  offload_codec_support vars' !! 7 <> Some true /\
  offload_codec_support vars' !! 4 = Some true.
Proof.
  cbv zeta. split; [|split].
  - apply (proj1 (@init_offload_flags sample_index_constants sample_properties
                    sample_offload_vars 7
                    ltac:(vm_compute; discriminate) ltac:(vm_compute; discriminate)
                    ltac:(vm_compute; discriminate) ltac:(vm_compute; discriminate)
                    ltac:(vm_compute; discriminate))).
    split; reflexivity.
  - apply (proj2 (proj2 (@init_offload_flags sample_index_constants
                    sample_properties sample_offload_vars 7
                    ltac:(vm_compute; discriminate) ltac:(vm_compute; discriminate)
                    ltac:(vm_compute; discriminate) ltac:(vm_compute; discriminate)
                    ltac:(vm_compute; discriminate)))).
    vm_compute. discriminate.
  - reflexivity.
Defined.

(** ** The registry's operations *)

Section RegistryOperationFacts.
Context `{K : A2dpConstants} `{F : CodecFamilies} `{N : CodecNegotiation}.

Lemma insert_existing_is_Some (m : gmap Z A2dpCodecConfig) (p k : Z)
      (x : A2dpCodecConfig) :
  is_Some (m !! p) -> (is_Some (<[p := x]> m !! k) <-> is_Some (m !! k)).
Proof.
  intros Hp. destruct (decide (p = k)) as [->|Hne].
  - rewrite lookup_insert_eq. split; [done | intros _; by eexists].
  - by rewrite lookup_insert_ne.
Qed.

Lemma registry_wf_intro (this this' : A2dpCodecs) :
  (forall k, is_Some (indexed_codecs_ this !! k) ->
             is_Some (indexed_codecs_ this' !! k)) ->
  (forall c, current_codec_config_ this' = Some c ->
             is_Some (indexed_codecs_ this' !! c)) ->
  (forall k, k ∈ ordered_source_codecs_ this' -> k ∈ ordered_source_codecs_ this) ->
  (forall k, k ∈ ordered_sink_codecs_ this' -> k ∈ ordered_sink_codecs_ this) ->
  registry_wf this -> registry_wf this'.
Proof.
  intros Hdom Hcur Hsrc Hsnk (_ & Hs & Hk). split; [exact Hcur|].
  rewrite Forall_forall in Hs, Hk.
  split; apply Forall_forall; intros k Hin; apply Hdom; auto.
Qed.

(** The reconciliation block neither adds nor drops a descriptor, and the
    codec it makes current is the target or the one that was current. *)
Lemma reconcile_priority_dom (codecs : gmap Z A2dpCodecConfig)
      (last_codec_config : option Z) (p : Z) (d1 : A2dpCodecConfig)
      (user_priority : Z) (ri ro cu : bool) (rc : Reconciled) :
  is_Some (codecs !! p) ->
  reconcile_priority codecs last_codec_config p d1 user_priority ri ro cu = Some rc ->
  (forall k, is_Some (rc_codecs rc !! k) <-> is_Some (codecs !! k)) /\
  (rc_current rc = Some p \/ rc_current rc = last_codec_config).
Proof.
  intros Hp. unfold reconcile_priority. cbv zeta. intros Hrc.
  destruct last_codec_config as [l|].
  - destruct (p =? l).
    + destruct (_ =? _); inversion Hrc; subst; cbn [rc_codecs rc_current];
        (split; [intros k; by apply insert_existing_is_Some | by right]).
    + destruct (_ <=? _).
      * inversion Hrc; subst; cbn [rc_codecs rc_current].
        split; [intros k; by apply insert_existing_is_Some | by right].
      * destruct (<[p := setCodecPriority d1 user_priority]> codecs !! l)
          as [dl|] eqn:Hl; cbn [mbind option_bind] in Hrc; [|discriminate].
        destruct (_ >=? _); inversion Hrc; subst; cbn [rc_codecs rc_current].
        -- split; [|by left]. intros k.
           rewrite insert_existing_is_Some by (rewrite Hl; by eexists).
           by apply insert_existing_is_Some.
        -- split; [intros k; by apply insert_existing_is_Some | by right].
  - inversion Hrc; subst; cbn [rc_codecs rc_current].
    split; [intros k; by apply insert_existing_is_Some | by left].
Qed.

(** The ways [A2dpCodecs::setCodecUserConfig] ends. *)
Lemma setCodecUserConfig_cases
      (this : A2dpCodecs) (codec_user_config : btav_a2dp_codec_config_t)
      (p_peer_params : tA2DP_ENCODER_INIT_PEER_PARAMS)
      (p_peer_sink_capabilities p_result_codec_config : list Z)
      (o : Outcome A2dpCodecs) :
  A2dpCodecs_setCodecUserConfig this codec_user_config p_peer_params
    p_peer_sink_capabilities p_result_codec_config = Some o ->
  (user_config_target this codec_user_config = None /\
   returned o = false /\
   state o = set_current_codec_config_ this (current_codec_config_ this)) \/
  (exists p d,
     user_config_target this codec_user_config = Some p /\
     indexed_codecs_ this !! p = Some d /\
     let r := A2dpCodecConfig_setCodecUserConfig d codec_user_config
                (getCodecAudioConfig d) p_peer_params p_peer_sink_capabilities
                true p_result_codec_config in
     (returned r = false /\ returned o = false /\
      state o = set_current_codec_config_
                  (set_indexed_codecs_ this (<[p := state r]> (indexed_codecs_ this)))
                  (current_codec_config_ this)) \/
     (returned r = true /\ returned o = true /\
      exists rc,
        reconcile_priority (indexed_codecs_ this) (current_codec_config_ this) p
          (state r) (codec_priority codec_user_config)
          (restart_input r) (restart_output r) (config_updated r) = Some rc /\
        state o =
          set_ordered_source_codecs_
            (set_current_codec_config_
               (set_indexed_codecs_ this (rc_codecs rc)) (rc_current rc))
            (list_sort (compare_at (rc_codecs rc)) (ordered_source_codecs_ this)) /\
        restart_input o = rc_restart_input rc /\
        restart_output o = rc_restart_output rc /\
        config_updated o =
          (if rc_restart_input rc || rc_restart_output rc then true
           else rc_config_updated rc))).
Proof.
  unfold A2dpCodecs_setCodecUserConfig. cbv zeta. intros Hcall.
  destruct (user_config_target this codec_user_config) as [p|] eqn:Ht.
  2:{ left. inversion Hcall; subst. done. }
  right. destruct (indexed_codecs_ this !! p) as [d|] eqn:Hd;
    cbn [mbind option_bind] in Hcall; [|discriminate].
  exists p, d. split; [reflexivity|]. split; [exact Hd|]. cbv zeta.
  destruct (returned (A2dpCodecConfig_setCodecUserConfig d codec_user_config
              (getCodecAudioConfig d) p_peer_params p_peer_sink_capabilities
              true p_result_codec_config)) eqn:Hr; cbn [negb] in Hcall.
  - right. destruct (reconcile_priority _ _ _ _ _ _ _ _) as [rc|] eqn:Hrc;
      cbn [mbind option_bind] in Hcall; [|discriminate].
    inversion Hcall; subst o. split; [reflexivity|]. split; [reflexivity|].
    exists rc. done.
  - left. inversion Hcall; subst o. done.
Qed.

Lemma user_config_target_resolves (this : A2dpCodecs)
      (codec_user_config : btav_a2dp_codec_config_t) (p : Z) (d : A2dpCodecConfig) :
  indexed_codecs_ this !! p = Some d -> is_Some (indexed_codecs_ this !! p).
Proof. intros ->. by eexists. Qed.

(** X17.  [A2dpCodecs::setCodecUserConfig], whether it succeeds or fails,
    keeps the registry in shape: every pointer still is a descriptor, no
    codec is added to or dropped from the enabled ones, the source list
    holds the same codecs as before (in a possibly different order), and the
    sink list, the disabled codecs and the priority table are untouched. *)
Theorem setCodecUserConfig_keeps_the_registry
        (this : A2dpCodecs) (codec_user_config : btav_a2dp_codec_config_t)
        (p_peer_params : tA2DP_ENCODER_INIT_PEER_PARAMS)
        (p_peer_sink_capabilities p_result_codec_config : list Z)
        (o : Outcome A2dpCodecs) :
  registry_wf this ->
  A2dpCodecs_setCodecUserConfig this codec_user_config p_peer_params
    p_peer_sink_capabilities p_result_codec_config = Some o ->
  registry_wf (state o) /\
  (forall k, is_Some (indexed_codecs_ (state o) !! k) <->
             is_Some (indexed_codecs_ this !! k)) /\
  ordered_source_codecs_ (state o) ≡ₚ ordered_source_codecs_ this /\
  ordered_sink_codecs_ (state o) = ordered_sink_codecs_ this /\
  disabled_codecs_ (state o) = disabled_codecs_ this /\
  codec_priorities_ (state o) = codec_priorities_ this.
Proof.
  intros Hwf Hcall.
  destruct (setCodecUserConfig_cases _ _ _ _ _ _ Hcall)
    as [(_ & _ & ->) | (p & d & Ht & Hd & Hcases)].
  - split; [|done]. eapply registry_wf_intro; [| | | |exact Hwf]; try done.
    apply Hwf.
  - assert (Hp : is_Some (indexed_codecs_ this !! p)) by (rewrite Hd; by eexists).
    cbv zeta in Hcases.
    destruct Hcases as [(_ & _ & ->) | (_ & _ & rc & Hrc & -> & _)].
    + cbn [state indexed_codecs_ ordered_source_codecs_ ordered_sink_codecs_
           disabled_codecs_ codec_priorities_ current_codec_config_
           set_current_codec_config_ set_indexed_codecs_].
      split; [|split; [intros k; by apply insert_existing_is_Some | done]].
      eapply registry_wf_intro; [| | | |exact Hwf];
        cbn [indexed_codecs_ ordered_source_codecs_ ordered_sink_codecs_
             current_codec_config_ set_current_codec_config_ set_indexed_codecs_];
        try done.
      * intros k Hk. by apply insert_existing_is_Some.
      * intros c Hc. apply insert_existing_is_Some; [done|]. by apply Hwf.
    + destruct (reconcile_priority_dom _ _ _ _ _ _ _ _ _ Hp Hrc) as [Hdom Hcur].
      cbn [state indexed_codecs_ ordered_source_codecs_ ordered_sink_codecs_
           disabled_codecs_ codec_priorities_ current_codec_config_
           set_current_codec_config_ set_indexed_codecs_
           set_ordered_source_codecs_].
      split; [|split; [exact Hdom | split; [apply list_sort_Permutation | done]]].
      eapply registry_wf_intro; [| | | |exact Hwf];
        cbn [indexed_codecs_ ordered_source_codecs_ ordered_sink_codecs_
             current_codec_config_ set_current_codec_config_ set_indexed_codecs_
             set_ordered_source_codecs_]; try done.
      * intros k Hk. by apply Hdom.
      * intros c Hc. apply Hdom. destruct Hcur as [Hcur|Hcur];
          rewrite Hcur in Hc; [by inversion Hc; subst | by apply Hwf].
      * intros k Hk. by apply list_sort_elem in Hk.
Qed.

(** X18.  [A2dpCodecs::setCodecUserConfig] writes at most two descriptors:
    every descriptor other than the target and the codec that was current
    is exactly what it was.  When the call fails, also the current codec
    and both ordered lists are what they were, and no descriptor but the
    target has changed. *)
Theorem setCodecUserConfig_touches_two_descriptors
        (this : A2dpCodecs) (codec_user_config : btav_a2dp_codec_config_t)
        (p_peer_params : tA2DP_ENCODER_INIT_PEER_PARAMS)
        (p_peer_sink_capabilities p_result_codec_config : list Z)
        (o : Outcome A2dpCodecs) :
  A2dpCodecs_setCodecUserConfig this codec_user_config p_peer_params
    p_peer_sink_capabilities p_result_codec_config = Some o ->
  (forall k, user_config_target this codec_user_config <> Some k ->
             current_codec_config_ this <> Some k ->
             indexed_codecs_ (state o) !! k = indexed_codecs_ this !! k) /\
  (returned o = false ->
   current_codec_config_ (state o) = current_codec_config_ this /\
   ordered_source_codecs_ (state o) = ordered_source_codecs_ this /\
   ordered_sink_codecs_ (state o) = ordered_sink_codecs_ this /\
   forall k, user_config_target this codec_user_config <> Some k ->
             indexed_codecs_ (state o) !! k = indexed_codecs_ this !! k).
Proof.
  intros Hcall.
  destruct (setCodecUserConfig_cases _ _ _ _ _ _ Hcall)
    as [(_ & _ & ->) | (p & d & Ht & Hd & Hcases)]; [done|].
  cbv zeta in Hcases. rewrite Ht.
  destruct Hcases as [(_ & _ & ->) | (_ & Hret & rc & Hrc & -> & _)].
  - cbn [state indexed_codecs_ ordered_source_codecs_ ordered_sink_codecs_
         current_codec_config_ set_current_codec_config_ set_indexed_codecs_].
    split; [intros k Hk _ | intros _; repeat split; try done; intros k Hk];
      rewrite lookup_insert_ne; congruence.
  - split; [|rewrite Hret; discriminate].
    cbn [state indexed_codecs_ set_current_codec_config_ set_indexed_codecs_
         set_ordered_source_codecs_].
    intros k Hk Hcur.
    apply (reconcile_priority_keeps _ _ _ _ _ _ _ _ _ k Hrc); congruence.
Qed.

(** X19.  First selection: when no codec is current and the descriptor-level
    call on the target succeeds, [A2dpCodecs::setCodecUserConfig] returns
    true, makes the target the current codec, gives it the priority
    recomputed from the user's priority, and reports [restart_input],
    [restart_output] and [config_updated] all true. *)
Theorem first_codec_is_adopted
        (this : A2dpCodecs) (codec_user_config : btav_a2dp_codec_config_t)
        (p_peer_params : tA2DP_ENCODER_INIT_PEER_PARAMS)
        (p_peer_sink_capabilities p_result_codec_config : list Z)
        (p : Z) (d : A2dpCodecConfig) :
  let r := A2dpCodecConfig_setCodecUserConfig d codec_user_config
             (getCodecAudioConfig d) p_peer_params p_peer_sink_capabilities
             true p_result_codec_config in
  current_codec_config_ this = None ->
  user_config_target this codec_user_config = Some p ->
  indexed_codecs_ this !! p = Some d ->
  returned r = true ->
  exists o,
    A2dpCodecs_setCodecUserConfig this codec_user_config p_peer_params
      p_peer_sink_capabilities p_result_codec_config = Some o /\
    returned o = true /\
    current_codec_config_ (state o) = Some p /\
    indexed_codecs_ (state o) !! p
    = Some (setCodecPriority (state r) (codec_priority codec_user_config)) /\
    restart_input o = true /\ restart_output o = true /\ config_updated o = true.
Proof.
  intros r Hcur Ht Hd Hret.
  unfold A2dpCodecs_setCodecUserConfig. cbv zeta.
  rewrite Ht, Hd. cbn [mbind option_bind]. fold r. rewrite Hret. cbn [negb].
  unfold reconcile_priority. cbv zeta. rewrite Hcur. cbn [mbind option_bind].
  eexists. split; [reflexivity|].
  cbn [returned state restart_input restart_output config_updated
       rc_codecs rc_current rc_restart_input rc_restart_output rc_config_updated
       current_codec_config_ indexed_codecs_ set_ordered_source_codecs_
       set_current_codec_config_ set_indexed_codecs_ orb].
  rewrite lookup_insert_eq. repeat split; reflexivity.
Qed.

(** X20.  Changing the current codec itself.  When the target is the
    current codec and the descriptor-level call succeeds, the codec stays
    current and [restart_input] is what the descriptor-level call set.  If
    the recomputed priority equals the old one, [restart_output] is also
    what that call set, and [config_updated] is true exactly when one of
    the two is.  If the priority changed, [config_updated] is true, and
    [restart_output] is true exactly when the priority went down or the
    descriptor-level call had set it. *)
Theorem current_codec_priority_change
        (this : A2dpCodecs) (codec_user_config : btav_a2dp_codec_config_t)
        (p_peer_params : tA2DP_ENCODER_INIT_PEER_PARAMS)
        (p_peer_sink_capabilities p_result_codec_config : list Z)
        (p : Z) (d : A2dpCodecConfig) :
  let r := A2dpCodecConfig_setCodecUserConfig d codec_user_config
             (getCodecAudioConfig d) p_peer_params p_peer_sink_capabilities
             true p_result_codec_config in
  let old_priority := codecPriority (state r) in
  let new_priority :=
    codecPriority (setCodecPriority (state r) (codec_priority codec_user_config)) in
  user_config_target this codec_user_config = Some p ->
  indexed_codecs_ this !! p = Some d ->
  current_codec_config_ this = Some p ->
  returned r = true ->
  exists o,
    A2dpCodecs_setCodecUserConfig this codec_user_config p_peer_params
      p_peer_sink_capabilities p_result_codec_config = Some o /\
    returned o = true /\
    current_codec_config_ (state o) = Some p /\
    restart_input o = restart_input r /\
    (new_priority = old_priority ->
     restart_output o = restart_output r /\
     config_updated o = restart_input r || restart_output r) /\
    (new_priority <> old_priority ->
     config_updated o = true /\
     (restart_output o = true <->
      new_priority < old_priority \/ restart_output r = true)).
Proof.
  intros r old_priority new_priority Ht Hd Hcur Hret.
  assert (Hcu : config_updated r = restart_input r || restart_output r)
    by apply setCodecUserConfig_config_updated.
  unfold A2dpCodecs_setCodecUserConfig. cbv zeta.
  rewrite Ht, Hd. cbn [mbind option_bind]. fold r. rewrite Hret. cbn [negb].
  unfold reconcile_priority. cbv zeta. rewrite Hcur, Z.eqb_refl.
  fold old_priority. fold new_priority.
  destruct (Z.eqb_spec old_priority new_priority) as [Heq|Hne];
    cbn [mbind option_bind]; eexists; (split; [reflexivity|]);
    cbn [returned state restart_input restart_output config_updated
         rc_codecs rc_current rc_restart_input rc_restart_output rc_config_updated
         current_codec_config_ indexed_codecs_ set_ordered_source_codecs_
         set_current_codec_config_ set_indexed_codecs_ orb].
  - repeat split; try reflexivity; try congruence.
    rewrite Hcu. by destruct (restart_input r), (restart_output r).
  - split; [reflexivity|]. split; [reflexivity|]. split; [reflexivity|].
    split; [intros Heq; congruence|]. intros _.
    destruct (Z.ltb_spec new_priority old_priority) as [Hlt|Hge].
    + split; [by rewrite orb_true_r; destruct (restart_input r)|].
      split; [intros _; by left | reflexivity].
    + split; [by destruct (restart_input r), (restart_output r)|].
      split; [intros Hro; by right | intros [Hlt|Hro]; [lia | exact Hro]].
Qed.

(** X21.  Raising a backup codec, but not up to the current one.  When the
    target is not the current codec, the descriptor-level call succeeds, and
    the recomputed priority is above the target's old one but below the
    current codec's priority, the current codec stays, [config_updated] is
    true, and the two restart flags are passed on as the descriptor-level
    call set them (they are not cleared, unlike when the priority does not
    go up). *)
Theorem raised_backup_codec_below_current
        (this : A2dpCodecs) (codec_user_config : btav_a2dp_codec_config_t)
        (p_peer_params : tA2DP_ENCODER_INIT_PEER_PARAMS)
        (p_peer_sink_capabilities p_result_codec_config : list Z)
        (p l : Z) (d dl : A2dpCodecConfig) :
  let r := A2dpCodecConfig_setCodecUserConfig d codec_user_config
             (getCodecAudioConfig d) p_peer_params p_peer_sink_capabilities
             true p_result_codec_config in
  let old_priority := codecPriority (state r) in
  let new_priority :=
    codecPriority (setCodecPriority (state r) (codec_priority codec_user_config)) in
  user_config_target this codec_user_config = Some p ->
  indexed_codecs_ this !! p = Some d ->
  returned r = true ->
  current_codec_config_ this = Some l ->
  p <> l ->
  indexed_codecs_ this !! l = Some dl ->
  new_priority > old_priority ->
  new_priority < codecPriority dl ->
  exists o,
    A2dpCodecs_setCodecUserConfig this codec_user_config p_peer_params
      p_peer_sink_capabilities p_result_codec_config = Some o /\
    returned o = true /\
    current_codec_config_ (state o) = Some l /\
    indexed_codecs_ (state o) !! l = Some dl /\
    restart_input o = restart_input r /\
    restart_output o = restart_output r /\
    config_updated o = true.
Proof.
  intros r old_priority new_priority Ht Hd Hret Hcur Hne Hdl Hgt Hlt.
  unfold A2dpCodecs_setCodecUserConfig. cbv zeta.
  rewrite Ht, Hd. cbn [mbind option_bind]. fold r. rewrite Hret. cbn [negb].
  unfold reconcile_priority. cbv zeta. rewrite Hcur.
  fold old_priority. fold new_priority.
  destruct (Z.eqb_spec p l) as [Hpl|Hpl]; [contradiction|].
  destruct (Z.leb_spec new_priority old_priority) as [Hcmp|Hcmp]; [lia|].
  rewrite lookup_insert_ne by done. rewrite Hdl. cbn [mbind option_bind].
  destruct (Z.geb_spec new_priority (codecPriority dl)) as [Hge|Hge]; [lia|].
  eexists. split; [reflexivity|].
  cbn [returned state restart_input restart_output config_updated
       rc_codecs rc_current rc_restart_input rc_restart_output rc_config_updated
       current_codec_config_ indexed_codecs_ set_ordered_source_codecs_
       set_current_codec_config_ set_indexed_codecs_].
  rewrite lookup_insert_ne by done.
  repeat split; try assumption; try reflexivity.
  by destruct (restart_input r || restart_output r).
Qed.

End RegistryOperationFacts.

(** X17 on the sample registry: the user gives codec 1 the priority 4000. *)
Lemma setCodecUserConfig_keeps_the_registry_witness :
  exists o,
    @A2dpCodecs_setCodecUserConfig sample_constants sample_families
      sample_negotiation sample_registry (user_priority_config 1 4000) tt
      sbc_wire_config [] = Some o /\
    @registry_wf (state o) /\
    ordered_source_codecs_ (state o) ≡ₚ [2; 1; 0] /\
    ordered_sink_codecs_ (state o) = [11; 10].
Proof.
  eexists. split; [vm_compute; reflexivity|].
  destruct (@setCodecUserConfig_keeps_the_registry sample_constants
              sample_families sample_negotiation sample_registry
              (user_priority_config 1 4000) tt sbc_wire_config [] _
              sample_registry_wf ltac:(vm_compute; reflexivity))
    as (Hwf & _ & Hsrc & Hsnk & _).
  split; [exact Hwf|]. split; [exact Hsrc | exact Hsnk].
Defined.

(** X18 on the sample registry: the user gives codec 1 the priority 4000;
    the descriptor of codec 0 is neither the target nor current. *)
Lemma setCodecUserConfig_touches_two_descriptors_witness :
  exists o,
    @A2dpCodecs_setCodecUserConfig sample_constants sample_families
      sample_negotiation sample_registry (user_priority_config 1 4000) tt
      sbc_wire_config [] = Some o /\
    indexed_codecs_ (state o) !! 0 = indexed_codecs_ sample_registry !! 0 /\
    indexed_codecs_ (state o) !! 11 = indexed_codecs_ sample_registry !! 11.
Proof.
  eexists. split; [vm_compute; reflexivity|].
  pose proof (proj1 (@setCodecUserConfig_touches_two_descriptors sample_constants
              sample_families sample_negotiation sample_registry
              (user_priority_config 1 4000) tt sbc_wire_config [] _
              ltac:(vm_compute; reflexivity))) as Hkeep.
  split; apply Hkeep; vm_compute; discriminate.
Defined.

(** X19 on the sample registry without a current codec: the user names
    codec 1. *)
Lemma first_codec_is_adopted_witness :
  exists o,
    @A2dpCodecs_setCodecUserConfig sample_constants sample_families
      sample_negotiation (set_current_codec_config_ sample_registry None)
      (user_priority_config 1 4000) tt sbc_wire_config [] = Some o /\
    returned o = true /\
    current_codec_config_ (state o) = Some 1 /\
    restart_input o = true /\ restart_output o = true /\ config_updated o = true.
Proof.
  destruct (@first_codec_is_adopted sample_constants sample_families
              sample_negotiation (set_current_codec_config_ sample_registry None)
              (user_priority_config 1 4000) tt sbc_wire_config [] 1
              (sample_codec 1 "A" sbc_wire_config))
    as (o & Hcall & Hret & Hcur & _ & Hin & Hout & Hup);
    try (vm_compute; reflexivity).
  exists o. repeat split; assumption.
Defined.

(** X20 on the sample registry: the user raises the current codec 2 from
    the priority 3001 to 3500. *)
Lemma current_codec_priority_change_witness :
  exists o,
    @A2dpCodecs_setCodecUserConfig sample_constants sample_families
      sample_negotiation sample_registry (user_priority_config 2 3500) tt
      sbc_wire_config [] = Some o /\
    returned o = true /\
    current_codec_config_ (state o) = Some 2 /\
    config_updated o = true.
Proof.
  destruct (@current_codec_priority_change sample_constants sample_families
              sample_negotiation sample_registry (user_priority_config 2 3500) tt
              sbc_wire_config [] 2 (sample_codec 2 "B" sbc_wire_config))
    as (o & Hcall & Hret & Hcur & _ & _ & Hchanged);
    try (vm_compute; reflexivity).
  exists o. repeat split; try assumption.
  apply Hchanged. vm_compute. discriminate.
Defined.

(** X21 on the sample registry: the user raises the backup codec 1 from the
    priority 2001 to 2500, below the current codec's 3001. *)
Lemma raised_backup_codec_below_current_witness :
  exists o,
    @A2dpCodecs_setCodecUserConfig sample_constants sample_families
      sample_negotiation sample_registry (user_priority_config 1 2500) tt
      sbc_wire_config [] = Some o /\
    returned o = true /\
    current_codec_config_ (state o) = Some 2 /\
    config_updated o = true.
Proof.
  destruct (@raised_backup_codec_below_current sample_constants sample_families
              sample_negotiation sample_registry (user_priority_config 1 2500) tt
              sbc_wire_config [] 1 2 (sample_codec 1 "A" sbc_wire_config)
              (sample_codec 2 "B" sbc_wire_config))
    as (o & Hcall & Hret & Hcur & _ & _ & _ & Hup);
    try (vm_compute; reflexivity); try (vm_compute; discriminate).
  exists o. repeat split; assumption.
Defined.

(** ** The other operations of the registry *)

Section RegistryMoreFacts.
Context `{K : A2dpConstants} `{F : CodecFamilies} `{N : CodecNegotiation}
        `{I : CodecIndexConstants} `{C : CodecClasses}.

Lemma findSourceCodecConfig_resolves (this : A2dpCodecs) (p_codec_info : list Z)
      (k : Z) :
  findSourceCodecConfig this p_codec_info = Some k ->
  k = A2DP_SourceCodecIndex p_codec_info /\
  k <> BTAV_A2DP_CODEC_INDEX_MAX /\ is_Some (indexed_codecs_ this !! k).
Proof.
  unfold findSourceCodecConfig. cbv zeta.
  destruct (Z.eqb_spec (A2DP_SourceCodecIndex p_codec_info) BTAV_A2DP_CODEC_INDEX_MAX)
    as [Heq|Hne]; [discriminate|].
  destruct (indexed_codecs_ this !! A2DP_SourceCodecIndex p_codec_info) eqn:Hl;
    [|discriminate].
  intros [= <-]. rewrite Hl. split; [reflexivity|]. split; [exact Hne | by eexists].
Qed.

Lemma findSinkCodecConfig_resolves (this : A2dpCodecs) (p_codec_info : list Z)
      (k : Z) :
  findSinkCodecConfig this p_codec_info = Some k ->
  k = A2DP_SinkCodecIndex p_codec_info /\
  k <> BTAV_A2DP_CODEC_INDEX_MAX /\ is_Some (indexed_codecs_ this !! k).
Proof.
  unfold findSinkCodecConfig. cbv zeta.
  destruct (Z.eqb_spec (A2DP_SinkCodecIndex p_codec_info) BTAV_A2DP_CODEC_INDEX_MAX)
    as [Heq|Hne]; [discriminate|].
  destruct (indexed_codecs_ this !! A2DP_SinkCodecIndex p_codec_info) eqn:Hl;
    [|discriminate].
  intros [= <-]. rewrite Hl. split; [reflexivity|]. split; [exact Hne | by eexists].
Qed.



Lemma set_peer_capabilities_of_outcome (this : A2dpCodecs) (found : option Z)
      (p_peer_codec_capabilities : list Z) :
  (forall k, found = Some k -> is_Some (indexed_codecs_ this !! k)) ->
  exists ok this',
    set_peer_capabilities_of this found p_peer_codec_capabilities
    = Some (ok, this') /\
    current_codec_config_ this' = current_codec_config_ this /\
    ordered_source_codecs_ this' = ordered_source_codecs_ this /\
    ordered_sink_codecs_ this' = ordered_sink_codecs_ this /\
    (forall k, found <> Some k ->
               indexed_codecs_ this' !! k = indexed_codecs_ this !! k) /\
    (found = None -> ok = false /\ this' = this).
Proof.
  intros Hfound. unfold set_peer_capabilities_of.
  destruct found as [p|].
  2:{ exists false, this. done. }
  destruct (Hfound p eq_refl) as [d Hd]. rewrite Hd. cbn [mbind option_bind].
  destruct (setPeerCodecCapabilities d p_peer_codec_capabilities) as [ok d'].
  do 2 eexists. split; [reflexivity|].
  cbn [current_codec_config_ ordered_source_codecs_ ordered_sink_codecs_
       indexed_codecs_ set_indexed_codecs_].
  repeat split; try discriminate.
  intros k Hk. rewrite lookup_insert_ne; congruence.
Qed.

(** X23.  [A2dpCodecs::setPeerSinkCodecCapabilities] and
    [A2dpCodecs::setPeerSourceCodecCapabilities] ([source] says which)
    always return, never change the current codec or the ordered lists, and
    write no descriptor but the one found for the buffer.  A buffer that
    fails the validity check, or for which no enabled codec is found, gives
    false and an unchanged registry.  A sink's capabilities are looked up
    among the source codecs, a source's among the sink codecs. *)
Theorem peer_capabilities_outcome
        (source : bool) (this : A2dpCodecs) (p_peer_codec_capabilities : list Z) :
  let call := if source then A2dpCodecs_setPeerSourceCodecCapabilities
              else A2dpCodecs_setPeerSinkCodecCapabilities in
  let valid := if source then A2DP_IsPeerSourceCodecValid p_peer_codec_capabilities
               else A2DP_IsPeerSinkCodecValid p_peer_codec_capabilities in
  let found := if source then findSinkCodecConfig this p_peer_codec_capabilities
               else findSourceCodecConfig this p_peer_codec_capabilities in
  exists ok this',
    call this p_peer_codec_capabilities = Some (ok, this') /\
    current_codec_config_ this' = current_codec_config_ this /\
    ordered_source_codecs_ this' = ordered_source_codecs_ this /\
    ordered_sink_codecs_ this' = ordered_sink_codecs_ this /\
    (forall k, found <> Some k ->
               indexed_codecs_ this' !! k = indexed_codecs_ this !! k) /\
    (valid = false \/ found = None -> ok = false /\ this' = this).
Proof.
  assert (Hinvalid : exists ok this',
             Some (false, this) = Some (ok, this') /\
             current_codec_config_ this' = current_codec_config_ this /\
             ordered_source_codecs_ this' = ordered_source_codecs_ this /\
             ordered_sink_codecs_ this' = ordered_sink_codecs_ this /\
             (forall k, (if source
                         then findSinkCodecConfig this p_peer_codec_capabilities
                         else findSourceCodecConfig this p_peer_codec_capabilities)
                        <> Some k ->
                        indexed_codecs_ this' !! k = indexed_codecs_ this !! k) /\
             (false = false \/
              (if source then findSinkCodecConfig this p_peer_codec_capabilities
               else findSourceCodecConfig this p_peer_codec_capabilities) = None ->
              ok = false /\ this' = this)).
  { exists false, this. done. }
  destruct source; cbv zeta;
    unfold A2dpCodecs_setPeerSourceCodecCapabilities,
      A2dpCodecs_setPeerSinkCodecCapabilities.
  - destruct (A2DP_IsPeerSourceCodecValid p_peer_codec_capabilities);
      cbn [negb]; [|exact Hinvalid].
    destruct (set_peer_capabilities_of_outcome this
                (findSinkCodecConfig this p_peer_codec_capabilities)
                p_peer_codec_capabilities)
      as (ok & this' & Hcall & Hcur & Hsrc & Hsnk & Hkeep & Hnone).
    { intros k Hk. by apply findSinkCodecConfig_resolves in Hk as (_ & _ & Hk). }
    exists ok, this'. repeat split; try assumption;
      destruct H as [Hv|Hf]; try discriminate; by apply Hnone.
  - destruct (A2DP_IsPeerSinkCodecValid p_peer_codec_capabilities);
      cbn [negb]; [|exact Hinvalid].
    destruct (set_peer_capabilities_of_outcome this
                (findSourceCodecConfig this p_peer_codec_capabilities)
                p_peer_codec_capabilities)
      as (ok & this' & Hcall & Hcur & Hsrc & Hsnk & Hkeep & Hnone).
    { intros k Hk. by apply findSourceCodecConfig_resolves in Hk as (_ & _ & Hk). }
    exists ok, this'. repeat split; try assumption;
      destruct H as [Hv|Hf]; try discriminate; by apply Hnone.
Qed.

End RegistryMoreFacts.

Section RegistryOtaFacts.
Context `{K : A2dpConstants} `{F : CodecFamilies} `{N : CodecNegotiation}
        `{I : CodecIndexConstants} `{C : CodecClasses}.

(** X24.  When [A2dpCodecs::setCodecOtaConfig] returns true, the codec the
    peer's configuration names (by [A2DP_SourceCodecIndex]) is an enabled
    codec with no user configuration, it is the current codec on exit, its
    descriptor is the one the descriptor-level call left, the restart flags
    are that call's, and [config_updated] is true exactly when one of the
    restart flags is. *)
Theorem ota_config_selects_the_codec
        (this : A2dpCodecs) (p_ota_codec_config : list Z)
        (p_peer_params : tA2DP_ENCODER_INIT_PEER_PARAMS)
        (p_result_codec_config : list Z) (o : Outcome A2dpCodecs) :
  A2dpCodecs_setCodecOtaConfig this p_ota_codec_config p_peer_params
    p_result_codec_config = Some o ->
  returned o = true ->
  let codec_type := A2DP_SourceCodecIndex p_ota_codec_config in
  codec_type <> BTAV_A2DP_CODEC_INDEX_MAX /\
  current_codec_config_ (state o) = Some codec_type /\
  config_updated o = restart_input o || restart_output o /\
  exists d,
    indexed_codecs_ this !! codec_type = Some d /\
    isCodecConfigEmpty (getCodecUserConfig d) = true /\
    let r := A2dpCodecConfig_setCodecUserConfig d (getCodecUserConfig d)
               (getCodecAudioConfig d) p_peer_params p_ota_codec_config
               false p_result_codec_config in
    returned r = true /\
    indexed_codecs_ (state o) !! codec_type = Some (state r) /\
    restart_input o = restart_input r /\
    restart_output o = restart_output r /\
    result_codec_config o = result_codec_config r.
Proof.
  unfold A2dpCodecs_setCodecOtaConfig. cbv zeta. intros Hcall Hret.
  destruct (match current_codec_config_ this with
            | Some c => _
            | None => _
            end) as [[|]|]; cbn [mbind option_bind] in Hcall;
    [inversion Hcall; subst o; discriminate | | discriminate].
  destruct (Z.eqb_spec (A2DP_SourceCodecIndex p_ota_codec_config)
              BTAV_A2DP_CODEC_INDEX_MAX) as [Heq|Hne];
    [inversion Hcall; subst o; discriminate|].
  destruct (indexed_codecs_ this !! A2DP_SourceCodecIndex p_ota_codec_config)
    as [d|] eqn:Hd; [|inversion Hcall; subst o; discriminate].
  destruct (isCodecConfigEmpty (getCodecUserConfig d)) eqn:Hempty;
    cbn [negb] in Hcall; [|inversion Hcall; subst o; discriminate].
  pose proof (setCodecUserConfig_config_updated d (getCodecUserConfig d)
                (getCodecAudioConfig d) p_peer_params p_ota_codec_config false
                p_result_codec_config) as Hcu. cbv zeta in Hcu.
  destruct (returned (A2dpCodecConfig_setCodecUserConfig d (getCodecUserConfig d)
              (getCodecAudioConfig d) p_peer_params p_ota_codec_config false
              p_result_codec_config)) eqn:Hr;
    cbn [negb] in Hcall; inversion Hcall; subst o; [|discriminate].
  cbn [returned state restart_input restart_output config_updated
       result_codec_config current_codec_config_ indexed_codecs_
       set_indexed_codecs_ set_current_codec_config_].
  split; [exact Hne|]. split; [reflexivity|].
  split; [rewrite Hcu; by destruct (restart_input _), (restart_output _)|].
  exists d. rewrite lookup_insert_eq. done.
Qed.

(** X25.  [A2dpCodecs::setCodecOtaConfig] returns on every registry whose
    pointers are descriptors, and leaves such a registry: both ordered lists
    are untouched, no descriptor but the one the peer's configuration names
    is written, and when the call returns false the current codec is the one
    it was. *)
Theorem setCodecOtaConfig_keeps_the_registry
        (this : A2dpCodecs) (p_ota_codec_config : list Z)
        (p_peer_params : tA2DP_ENCODER_INIT_PEER_PARAMS)
        (p_result_codec_config : list Z) :
  registry_wf this ->
  exists o,
    A2dpCodecs_setCodecOtaConfig this p_ota_codec_config p_peer_params
      p_result_codec_config = Some o /\
    registry_wf (state o) /\
    ordered_source_codecs_ (state o) = ordered_source_codecs_ this /\
    ordered_sink_codecs_ (state o) = ordered_sink_codecs_ this /\
    (forall k, k <> A2DP_SourceCodecIndex p_ota_codec_config ->
               indexed_codecs_ (state o) !! k = indexed_codecs_ this !! k) /\
    (returned o = false ->
     current_codec_config_ (state o) = current_codec_config_ this).
Proof.
  intros Hwf.
  assert (Hsame : registry_wf
                    (set_current_codec_config_ this (current_codec_config_ this))).
  { eapply registry_wf_intro; [| | | |exact Hwf]; try done. apply Hwf. }
  unfold A2dpCodecs_setCodecOtaConfig. cbv zeta.
  assert (Hcur : is_Some
            (match current_codec_config_ this with
             | Some c =>
                 dc ← indexed_codecs_ this !! c;
                 Some (negb (isCodecConfigEmpty (getCodecUserConfig dc)))
             | None => Some false
             end)).
  { destruct (current_codec_config_ this) as [c|] eqn:Hc; [|by eexists].
    destruct (proj1 Hwf c Hc) as [dc Hdc]. rewrite Hdc. by eexists. }
  destruct Hcur as [b Hb]. rewrite Hb. cbn [mbind option_bind].
  destruct b; [eexists; split; [reflexivity|]; by cbn|].
  destruct (Z.eqb_spec (A2DP_SourceCodecIndex p_ota_codec_config)
              BTAV_A2DP_CODEC_INDEX_MAX) as [Heq|Hne];
    [eexists; split; [reflexivity|]; by cbn|].
  destruct (indexed_codecs_ this !! A2DP_SourceCodecIndex p_ota_codec_config)
    as [d|] eqn:Hd; [|eexists; split; [reflexivity|]; by cbn].
  destruct (isCodecConfigEmpty (getCodecUserConfig d)); cbn [negb];
    [|eexists; split; [reflexivity|]; by cbn].
  assert (Hp : is_Some (indexed_codecs_ this
                          !! A2DP_SourceCodecIndex p_ota_codec_config))
    by (rewrite Hd; by eexists).
  destruct (returned (A2dpCodecConfig_setCodecUserConfig d (getCodecUserConfig d)
              (getCodecAudioConfig d) p_peer_params p_ota_codec_config false
              p_result_codec_config)); cbn [negb];
    (eexists; split; [reflexivity|]);
    cbn [returned state current_codec_config_ indexed_codecs_
         ordered_source_codecs_ ordered_sink_codecs_
         set_indexed_codecs_ set_current_codec_config_];
    (split; [|split; [reflexivity|]; split; [reflexivity|];
              split; [intros k Hk; by rewrite lookup_insert_ne | done]]);
    (eapply registry_wf_intro; [| | | |exact Hwf];
     cbn [current_codec_config_ indexed_codecs_
          ordered_source_codecs_ ordered_sink_codecs_
          set_indexed_codecs_ set_current_codec_config_]; try done;
     [intros k Hk; by apply insert_existing_is_Some|]).
  - intros c [= <-]. rewrite lookup_insert_eq. by eexists.
  - intros c Hc. apply insert_existing_is_Some; [done|]. by apply Hwf.
Qed.

(** X26.  A buffer whose codec-type tag is none of SBC, AAC and NON_A2DP is
    refused by every operation of the registry that looks a codec up for
    it: no descriptor is found, [setCodecConfig] and [setSinkCodecConfig]
    return false and leave the registry and the result buffer alone, the
    two peer-capability setters return false, and [setCodecOtaConfig] (on
    a registry whose current pointer is a descriptor) returns false with the
    current codec and all descriptors as before. *)
Theorem unknown_tag_is_refused_by_the_registry
        (this : A2dpCodecs) (p_codec_info : list Z) (is_capability : bool)
        (p_result_codec_config : list Z) (select_current_codec : bool)
        (p_peer_params : tA2DP_ENCODER_INIT_PEER_PARAMS) :
  A2DP_GetCodecType p_codec_info <> A2DP_MEDIA_CT_SBC ->
  A2DP_GetCodecType p_codec_info <> A2DP_MEDIA_CT_AAC ->
  A2DP_GetCodecType p_codec_info <> A2DP_MEDIA_CT_NON_A2DP ->
  findSourceCodecConfig this p_codec_info = None /\
  findSinkCodecConfig this p_codec_info = None /\
  A2dpCodecs_setCodecConfig this p_codec_info is_capability
    p_result_codec_config select_current_codec
  = Some (false, this, p_result_codec_config) /\
  A2dpCodecs_setSinkCodecConfig this p_codec_info is_capability
    p_result_codec_config select_current_codec
  = Some (false, this, p_result_codec_config) /\
  A2dpCodecs_setPeerSinkCodecCapabilities this p_codec_info = Some (false, this) /\
  A2dpCodecs_setPeerSourceCodecCapabilities this p_codec_info = Some (false, this) /\
  ((forall c, current_codec_config_ this = Some c ->
              is_Some (indexed_codecs_ this !! c)) ->
   exists o,
     A2dpCodecs_setCodecOtaConfig this p_codec_info p_peer_params
       p_result_codec_config = Some o /\
     returned o = false /\
     current_codec_config_ (state o) = current_codec_config_ this /\
     indexed_codecs_ (state o) = indexed_codecs_ this /\
     result_codec_config o = p_result_codec_config).
Proof.
  intros Hs Ha Hn.
  assert (Hsrc : A2DP_SourceCodecIndex p_codec_info = BTAV_A2DP_CODEC_INDEX_MAX)
    by (unfold A2DP_SourceCodecIndex; by rewrite switch_codec_type_default).
  assert (Hsnk : A2DP_SinkCodecIndex p_codec_info = BTAV_A2DP_CODEC_INDEX_MAX)
    by (unfold A2DP_SinkCodecIndex; by rewrite switch_codec_type_default).
  assert (Hfsrc : findSourceCodecConfig this p_codec_info = None)
    by (unfold findSourceCodecConfig; cbv zeta; by rewrite Hsrc, Z.eqb_refl).
  assert (Hfsnk : findSinkCodecConfig this p_codec_info = None)
    by (unfold findSinkCodecConfig; cbv zeta; by rewrite Hsnk, Z.eqb_refl).
  split; [exact Hfsrc|]. split; [exact Hfsnk|].
  unfold A2dpCodecs_setCodecConfig, A2dpCodecs_setSinkCodecConfig,
    A2dpCodecs_setPeerSinkCodecCapabilities,
    A2dpCodecs_setPeerSourceCodecCapabilities,
    A2DP_IsPeerSinkCodecValid, A2DP_IsPeerSourceCodecValid.
  rewrite Hfsrc, Hfsnk, !switch_codec_type_default by assumption.
  cbn [negb set_codec_config_of].
  repeat (split; [reflexivity|]).
  intros Hcur. unfold A2dpCodecs_setCodecOtaConfig. cbv zeta.
  rewrite Hsrc, Z.eqb_refl.
  destruct (current_codec_config_ this) as [c|] eqn:Hc.
  - destruct (Hcur c eq_refl) as [dc ->]. cbn [mbind option_bind].
    destruct (negb _); eexists; (split; [reflexivity|]);
      cbn [returned state result_codec_config current_codec_config_
           indexed_codecs_ set_current_codec_config_]; by rewrite ?Hc.
  - cbn [mbind option_bind]. eexists. split; [reflexivity|].
    cbn [returned state result_codec_config current_codec_config_
         indexed_codecs_ set_current_codec_config_]. by rewrite ?Hc.
Qed.

(** X27.  [A2dpCodecs::setCodecAudioConfig] returns on every registry whose
    pointers are descriptors, and works on the current codec only: the
    current codec and both ordered lists are untouched and no other
    descriptor is written.  With no current codec it returns false and
    changes nothing.  When it returns false, the current codec's user and
    audio configurations are the ones it had. *)
Theorem setCodecAudioConfig_outcome
        (this : A2dpCodecs) (codec_audio_config : btav_a2dp_codec_config_t)
        (p_peer_params : tA2DP_ENCODER_INIT_PEER_PARAMS)
        (p_peer_sink_capabilities p_result_codec_config : list Z) :
  registry_wf this ->
  exists o,
    A2dpCodecs_setCodecAudioConfig this codec_audio_config p_peer_params
      p_peer_sink_capabilities p_result_codec_config = Some o /\
    registry_wf (state o) /\
    current_codec_config_ (state o) = current_codec_config_ this /\
    ordered_source_codecs_ (state o) = ordered_source_codecs_ this /\
    ordered_sink_codecs_ (state o) = ordered_sink_codecs_ this /\
    (forall k, current_codec_config_ this <> Some k ->
               indexed_codecs_ (state o) !! k = indexed_codecs_ this !! k) /\
    (current_codec_config_ this = None -> returned o = false /\ state o = this) /\
    (returned o = false ->
     forall c d, current_codec_config_ this = Some c ->
                 indexed_codecs_ this !! c = Some d ->
                 exists d', indexed_codecs_ (state o) !! c = Some d' /\
                            codec_user_config_ d' = codec_user_config_ d /\
                            codec_audio_config_ d' = codec_audio_config_ d).
Proof.
  intros Hwf. unfold A2dpCodecs_setCodecAudioConfig.
  destruct (current_codec_config_ this) as [p|] eqn:Hcur.
  2:{ eexists. split; [reflexivity|]. cbn [state returned]. rewrite Hcur. done. }
  destruct (proj1 Hwf p Hcur) as [d Hd]. rewrite Hd. cbn [mbind option_bind].
  cbv zeta. eexists. split; [reflexivity|].
  assert (Hp : is_Some (indexed_codecs_ this !! p)) by (rewrite Hd; by eexists).
  cbn [returned state current_codec_config_ indexed_codecs_
       ordered_source_codecs_ ordered_sink_codecs_ set_indexed_codecs_].
  split.
  { eapply registry_wf_intro; [| | | |exact Hwf];
      cbn [current_codec_config_ indexed_codecs_ ordered_source_codecs_
           ordered_sink_codecs_ set_indexed_codecs_]; try done.
    - intros k Hk. by apply insert_existing_is_Some.
    - intros c Hc. apply insert_existing_is_Some; [done|]. by apply Hwf. }
  split; [exact Hcur|]. split; [reflexivity|]. split; [reflexivity|].
  split; [intros k Hk; rewrite lookup_insert_ne; congruence|].
  split; [discriminate|].
  intros Hret c d0 [= <-] Hd0. rewrite Hd in Hd0. injection Hd0 as <-.
  rewrite lookup_insert_eq. eexists. split; [reflexivity|].
  apply (setCodecUserConfig_restores_overrides d (getCodecUserConfig d)
           codec_audio_config p_peer_params p_peer_sink_capabilities true
           p_result_codec_config Hret).
Qed.

(** X28.  [A2dpCodecs::getCodecConfigAndCapabilities] returns true on every
    registry whose pointers are descriptors.  The local capabilities are
    those of the source codecs, one for one in the order of the list.  The
    selectable capabilities are those of the source codecs whose sample
    rate, bits per sample and channel mode are all set, so there are at
    most as many of them.  With no current codec the configuration handed
    back is all zero. *)
Theorem getCodecConfigAndCapabilities_outcome (this : A2dpCodecs) :
  registry_wf this ->
  exists r,
    getCodecConfigAndCapabilities this = Some r /\
    cc_returned r = true /\
    Forall2 (fun p c => codec_local_capability_ <$> (indexed_codecs_ this !! p)
                        = Some c)
            (ordered_source_codecs_ this) (cc_codecs_local_capabilities r) /\
    (forall c, c ∈ cc_codecs_selectable_capabilities r <->
               (exists p d, p ∈ ordered_source_codecs_ this /\
                            indexed_codecs_ this !! p = Some d /\
                            c = codec_selectable_capability_ d) /\
               sample_rate c <> BTAV_A2DP_CODEC_SAMPLE_RATE_NONE /\
               bits_per_sample c <> BTAV_A2DP_CODEC_BITS_PER_SAMPLE_NONE /\
               channel_mode c <> BTAV_A2DP_CODEC_CHANNEL_MODE_NONE) /\
    (length (cc_codecs_selectable_capabilities r)
     <= length (cc_codecs_local_capabilities r))%nat /\
    (current_codec_config_ this = None ->
     cc_codec_config r = init_btav_a2dp_codec_config 0 0) /\
    (forall c d, current_codec_config_ this = Some c ->
                 indexed_codecs_ this !! c = Some d ->
                 cc_codec_config r = codec_config_ d).
Proof.
  intros (Hcur & Hsrc & _). unfold getCodecConfigAndCapabilities.
  assert (Hcodecs : is_Some (mapM (fun p => indexed_codecs_ this !! p)
                                  (ordered_source_codecs_ this)))
    by (by apply mapM_is_Some).
  destruct Hcodecs as [codecs Hcodecs]. rewrite Hcodecs.
  assert (Hconfig : exists codec_config,
             match current_codec_config_ this with
             | Some c => d ← indexed_codecs_ this !! c; Some (getCodecConfig d)
             | None => Some (init_btav_a2dp_codec_config 0 0)
             end = Some codec_config /\
             (current_codec_config_ this = None ->
              codec_config = init_btav_a2dp_codec_config 0 0) /\
             (forall c d, current_codec_config_ this = Some c ->
                          indexed_codecs_ this !! c = Some d ->
                          codec_config = codec_config_ d)).
  { destruct (current_codec_config_ this) as [c|] eqn:Hc.
    - destruct (Hcur c eq_refl) as [d Hd]. rewrite Hd. eexists.
      split; [reflexivity|]. split; [discriminate|].
      intros c' d' [= <-] Hd'. rewrite Hd in Hd'. injection Hd' as <-. reflexivity.
    - eexists. split; [reflexivity|]. split; [reflexivity | discriminate]. }
  destruct Hconfig as (codec_config & -> & Hnone & Hsome).
  cbn [mbind option_bind]. eexists. split; [reflexivity|].
  cbn [cc_returned cc_codec_config cc_codecs_local_capabilities
       cc_codecs_selectable_capabilities].
  apply mapM_Some in Hcodecs.
  split; [reflexivity|]. split.
  { clear -Hcodecs. induction Hcodecs as [|p d ps ds Hp _ IH]; cbn; constructor;
      [by rewrite Hp | exact IH]. }
  split.
  { intros c. rewrite list_elem_of_filter, list_elem_of_fmap.
    assert (Husable :
      negb ((sample_rate c =? BTAV_A2DP_CODEC_SAMPLE_RATE_NONE) ||
            (bits_per_sample c =? BTAV_A2DP_CODEC_BITS_PER_SAMPLE_NONE) ||
            (channel_mode c =? BTAV_A2DP_CODEC_CHANNEL_MODE_NONE)) = true <->
      sample_rate c <> BTAV_A2DP_CODEC_SAMPLE_RATE_NONE /\
      bits_per_sample c <> BTAV_A2DP_CODEC_BITS_PER_SAMPLE_NONE /\
      channel_mode c <> BTAV_A2DP_CODEC_CHANNEL_MODE_NONE).
    { destruct (Z.eqb_spec (sample_rate c) BTAV_A2DP_CODEC_SAMPLE_RATE_NONE);
        destruct (Z.eqb_spec (bits_per_sample c)
                    BTAV_A2DP_CODEC_BITS_PER_SAMPLE_NONE);
        destruct (Z.eqb_spec (channel_mode c) BTAV_A2DP_CODEC_CHANNEL_MODE_NONE);
        cbn; intuition congruence. }
    rewrite Husable. split.
    - intros [Hu (d & -> & Hd)]. split; [|exact Hu].
      apply list_elem_of_lookup in Hd as [i Hi].
      destruct (Forall2_lookup_r _ _ _ _ _ Hcodecs Hi) as (p & Hp & Hpd).
      exists p, d. split; [by eapply list_elem_of_lookup_2|]. done.
    - intros [(p & d & Hp & Hd & ->) Hu]. split; [exact Hu|].
      exists d. split; [reflexivity|].
      apply list_elem_of_lookup in Hp as [i Hi].
      destruct (Forall2_lookup_l _ _ _ _ _ Hcodecs Hi) as (d' & Hd' & Hpd').
      rewrite Hd in Hpd'. injection Hpd' as <-.
      by eapply list_elem_of_lookup_2. }
  split; [|split; [exact Hnone | exact Hsome]].
  rewrite length_fmap. etransitivity; [apply length_filter|].
  by rewrite length_fmap.
Qed.

End RegistryOtaFacts.

(** X24 on the sample registry: the peer's configuration names SBC, codec 0,
    while codec 2 is current. *)
Lemma ota_config_selects_the_codec_witness :
  exists o,
    @A2dpCodecs_setCodecOtaConfig sample_constants sample_families
      sample_negotiation sample_registry sbc_wire_config tt [] = Some o /\
    returned o = true /\
    current_codec_config_ (state o) = Some 0 /\
    config_updated o = restart_input o || restart_output o.
Proof.
  eexists. split; [vm_compute; reflexivity|]. split; [reflexivity|].
  destruct (@ota_config_selects_the_codec sample_constants sample_families
              sample_negotiation sample_registry sbc_wire_config tt [] _
              ltac:(vm_compute; reflexivity) eq_refl)
    as (_ & Hcur & Hup & _).
  split; [exact Hcur | exact Hup].
Defined.

(** X25 on the sample registry. *)
Lemma setCodecOtaConfig_keeps_the_registry_witness :
  exists o,
    @A2dpCodecs_setCodecOtaConfig sample_constants sample_families
      sample_negotiation sample_registry sbc_wire_config tt [] = Some o /\
    @registry_wf (state o) /\
    ordered_source_codecs_ (state o) = [2; 1; 0] /\
    ordered_sink_codecs_ (state o) = [11; 10].
Proof.
  destruct (@setCodecOtaConfig_keeps_the_registry sample_constants
              sample_families sample_negotiation sample_registry
              sbc_wire_config tt [] sample_registry_wf)
    as (o & Hcall & Hwf & Hsrc & Hsnk & _).
  exists o. repeat split; try assumption; apply Hwf.
Defined.

(** X26 on the sample registry and a buffer with the codec-type tag 9. *)
Lemma unknown_tag_is_refused_by_the_registry_witness :
  @A2dpCodecs_setCodecConfig sample_constants sample_families sample_negotiation
    sample_registry [6; 0; 9; 1] true [] true
  = Some (false, sample_registry, []) /\
  @A2dpCodecs_setPeerSinkCodecCapabilities sample_constants sample_families
    sample_codec_classes sample_registry [6; 0; 9; 1]
  = Some (false, sample_registry).
Proof.
  destruct (@unknown_tag_is_refused_by_the_registry sample_constants
              sample_families sample_negotiation sample_codec_classes
              sample_registry [6; 0; 9; 1] true [] true tt)
    as (_ & _ & Hsrc & _ & Hpeer & _);
    try (vm_compute; discriminate).
  split; [exact Hsrc | exact Hpeer].
Defined.

(** X27 on the sample registry, whose current codec is codec 2. *)
Lemma setCodecAudioConfig_outcome_witness :
  exists o,
    @A2dpCodecs_setCodecAudioConfig sample_constants sample_families
      sample_negotiation sample_registry (user_priority_config 0 0) tt
      sbc_wire_config [] = Some o /\
    current_codec_config_ (state o) = Some 2 /\
    indexed_codecs_ (state o) !! 1 = indexed_codecs_ sample_registry !! 1.
Proof.
  destruct (@setCodecAudioConfig_outcome sample_constants sample_families
              sample_negotiation sample_registry (user_priority_config 0 0) tt
              sbc_wire_config [] sample_registry_wf)
    as (o & Hcall & _ & Hcur & _ & _ & Hkeep & _).
  exists o. split; [exact Hcall|]. split; [exact Hcur|].
  apply Hkeep. vm_compute. discriminate.
Defined.

(** X28 on the sample registry with its three source codecs. *)
Lemma getCodecConfigAndCapabilities_outcome_witness :
  exists r,
    @getCodecConfigAndCapabilities sample_constants sample_registry = Some r /\
    cc_returned r = true /\
    (length (cc_codecs_selectable_capabilities r)
     <= length (cc_codecs_local_capabilities r))%nat.
Proof.
  destruct (@getCodecConfigAndCapabilities_outcome sample_constants
              sample_registry sample_registry_wf)
    as (r & Hcall & Hret & _ & _ & Hlen & _).
  exists r. split; [exact Hcall|]. split; [exact Hret | exact Hlen].
Defined.

(** ** The LHDC extended API *)

Lemma mod_256_step (a n : Z) :
  0 < n -> a mod (256 * n) = a mod 256 + 256 * ((a / 256) mod n).
Proof. intros Hn. apply Z.rem_mul_r; lia. Qed.

Lemma big_endian_of_bytes (v : Z) :
  big_endian [(v / 2 ^ 56) mod 256; (v / 2 ^ 48) mod 256; (v / 2 ^ 40) mod 256;
              (v / 2 ^ 32) mod 256; (v / 2 ^ 24) mod 256; (v / 2 ^ 16) mod 256;
              (v / 2 ^ 8) mod 256; (v / 2 ^ 0) mod 256]
  = v mod 2 ^ 64.
Proof.
  unfold big_endian. cbn [foldl].
  change (2 ^ 64) with (256 * (256 * (256 * (256 * (256 * (256 * (256 * 256))))))).
  rewrite !mod_256_step by lia.
  rewrite !Z.div_div by lia.
  change (2 ^ 0) with 1. rewrite Z.div_1_r.
  change (2 ^ 8) with 256. change (2 ^ 16) with (256 * 256).
  change (2 ^ 24) with (256 * 256 * 256).
  change (2 ^ 32) with (256 * 256 * 256 * 256).
  change (2 ^ 40) with (256 * 256 * 256 * 256 * 256).
  change (2 ^ 48) with (256 * 256 * 256 * 256 * 256 * 256).
  change (2 ^ 56) with (256 * 256 * 256 * 256 * 256 * 256 * 256).
  ring.
Qed.

(** The eight stores of [swapInt64toByteArray], on a buffer split at the
    pointer. *)
Lemma swapInt64toByteArray_shape (pre post : list Z) (m0 m1 m2 m3 m4 m5 m6 m7 : Z)
      (v : Z) :
  swapInt64toByteArray (pre ++ [m0; m1; m2; m3; m4; m5; m6; m7] ++ post)
    (Some (length pre)) v
  = (true,
     pre ++ [(v / 2 ^ 56) mod 256; (v / 2 ^ 48) mod 256; (v / 2 ^ 40) mod 256;
             (v / 2 ^ 32) mod 256; (v / 2 ^ 24) mod 256; (v / 2 ^ 16) mod 256;
             (v / 2 ^ 8) mod 256; (v / 2 ^ 0) mod 256] ++ post).
Proof.
  unfold swapInt64toByteArray. cbv zeta.
  change 255 with (Z.shiftl 255 0) at 1.
  change 65280 with (Z.shiftl 255 8).
  change 16711680 with (Z.shiftl 255 16).
  change 4278190080 with (Z.shiftl 255 24).
  change 1095216660480 with (Z.shiftl 255 32).
  change 280375465082880 with (Z.shiftl 255 40).
  change 71776119061217280 with (Z.shiftl 255 48).
  change 18374686479671623680 with (Z.shiftl 255 56).
  rewrite !masked_byte by lia.
  rewrite !insert_app_r, insert_app_r_alt, Nat.sub_diag by lia. reflexivity.
Qed.

Lemma split_at_pointer (buffer : list Z) (off : nat) :
  (off + 8 <= length buffer)%nat ->
  exists pre m0 m1 m2 m3 m4 m5 m6 m7 post,
    buffer = pre ++ [m0; m1; m2; m3; m4; m5; m6; m7] ++ post /\
    length pre = off.
Proof.
  intros Hlen. exists (take off buffer).
  assert (Hmid : length (take 8 (drop off buffer)) = 8%nat)
    by (rewrite length_take, length_drop; lia).
  destruct (take 8 (drop off buffer))
    as [|m0 [|m1 [|m2 [|m3 [|m4 [|m5 [|m6 [|m7 [|m8 rest]]]]]]]]] eqn:Hm;
    simpl in Hmid; try lia.
  exists m0, m1, m2, m3, m4, m5, m6, m7, (drop 8 (drop off buffer)).
  split; [|rewrite length_take; lia].
  rewrite <- Hm, take_drop, take_drop. reflexivity.
Qed.

(** X29.  [swapInt64toByteArray] on a pointer with eight bytes of room
    returns true and stores the 64-bit value most significant byte first:
    read back as a big-endian number, the eight bytes spell the value
    modulo 2^64.  The rest of the buffer is untouched. *)
Theorem swapInt64toByteArray_round_trip (buffer : list Z) (off : nat) (v : Z) :
  (off + 8 <= length buffer)%nat ->
  exists buffer',
    swapInt64toByteArray buffer (Some off) v = (true, buffer') /\
    length buffer' = length buffer /\
    big_endian (take 8 (drop off buffer')) = v mod 2 ^ 64 /\
    take off buffer' = take off buffer /\
    drop (off + 8) buffer' = drop (off + 8) buffer.
Proof.
  intros Hlen.
  destruct (split_at_pointer buffer off Hlen)
    as (pre & m0 & m1 & m2 & m3 & m4 & m5 & m6 & m7 & post & -> & <-).
  rewrite swapInt64toByteArray_shape. eexists. split; [reflexivity|].
  split; [by rewrite !length_app|].
  rewrite !drop_app_length, !take_app_length.
  split; [apply big_endian_of_bytes|]. split; [reflexivity|].
  rewrite !drop_app_add. reflexivity.
Qed.

(** What one call of [swapInt64toByteArray] leaves, byte by byte. *)
Lemma swapInt64toByteArray_bytes (buffer : list Z) (off : nat) (v : Z) :
  (off + 8 <= length buffer)%nat ->
  exists buffer',
    swapInt64toByteArray buffer (Some off) v = (true, buffer') /\
    length buffer' = length buffer /\
    big_endian (take 8 (drop off buffer')) = v mod 2 ^ 64 /\
    forall i, (i < off \/ off + 8 <= i)%nat -> buffer' !! i = buffer !! i.
Proof.
  intros Hlen.
  destruct (split_at_pointer buffer off Hlen)
    as (pre & m0 & m1 & m2 & m3 & m4 & m5 & m6 & m7 & post & -> & <-).
  rewrite swapInt64toByteArray_shape. eexists. split; [reflexivity|].
  split; [by rewrite !length_app|].
  rewrite !drop_app_length.
  split; [apply big_endian_of_bytes|].
  intros i [Hi|Hi].
  - by rewrite !lookup_app_l.
  - rewrite !lookup_app_r by lia.
    rewrite !lookup_app_r by (simpl; lia). reflexivity.
Qed.

(** Eight bytes that were not written still spell the same number. *)
Lemma field_kept (buffer buffer' : list Z) (off : nat) :
  (forall i, (off <= i < off + 8)%nat -> buffer' !! i = buffer !! i) ->
  take 8 (drop off buffer') = take 8 (drop off buffer).
Proof.
  intros Hsame. apply list_eq. intros i.
  destruct (decide (i < 8)%nat) as [Hi|Hi].
  - rewrite !lookup_take_lt, !lookup_drop by lia. apply Hsame. lia.
  - by rewrite !lookup_take_ge by lia.
Qed.

Section LhdcExtendFacts.
Context `{X : LhdcExtendConstants}.

(** X30.  [getLHDCA2DPSpecficV1] refuses a payload shorter than the fixed
    size and leaves the buffer alone.  Otherwise, when the four eight-byte
    fields follow one another inside the buffer without overlap, it returns
    true, each field holds its codec-specific value big-endian (modulo
    2^64), and every byte outside the four fields is untouched. *)
Theorem getLHDCA2DPSpecficV1_outcome
        (a2dpCfg : btav_a2dp_codec_config_t) (pucConfig : list Z) (clen : Z) :
  let h1 := LHDC_EXTEND_FUNC_A2DP_SPECIFICS1_HEAD_V1 in
  let h2 := LHDC_EXTEND_FUNC_A2DP_SPECIFICS2_HEAD_V1 in
  let h3 := LHDC_EXTEND_FUNC_A2DP_SPECIFICS3_HEAD_V1 in
  let h4 := LHDC_EXTEND_FUNC_A2DP_SPECIFICS4_HEAD_V1 in
  (clen < LHDC_EXTEND_FUNC_CONFIG_TOTAL_FIXED_SIZE_V1 ->
   getLHDCA2DPSpecficV1 a2dpCfg pucConfig clen = (false, pucConfig)) /\
  (LHDC_EXTEND_FUNC_CONFIG_TOTAL_FIXED_SIZE_V1 <= clen ->
   (h1 + 8 <= h2)%nat -> (h2 + 8 <= h3)%nat -> (h3 + 8 <= h4)%nat ->
   (h4 + 8 <= length pucConfig)%nat ->
   exists buffer',
     getLHDCA2DPSpecficV1 a2dpCfg pucConfig clen = (true, buffer') /\
     length buffer' = length pucConfig /\
     big_endian (take 8 (drop h1 buffer')) = codec_specific_1 a2dpCfg mod 2 ^ 64 /\
     big_endian (take 8 (drop h2 buffer')) = codec_specific_2 a2dpCfg mod 2 ^ 64 /\
     big_endian (take 8 (drop h3 buffer')) = codec_specific_3 a2dpCfg mod 2 ^ 64 /\
     big_endian (take 8 (drop h4 buffer')) = codec_specific_4 a2dpCfg mod 2 ^ 64 /\
     forall i, (i < h1 \/ h1 + 8 <= i < h2 \/ h2 + 8 <= i < h3 \/
                h3 + 8 <= i < h4 \/ h4 + 8 <= i)%nat ->
               buffer' !! i = pucConfig !! i).
Proof.
  intros h1 h2 h3 h4. unfold getLHDCA2DPSpecficV1. split.
  - intros Hlt. destruct (Z.ltb_spec clen LHDC_EXTEND_FUNC_CONFIG_TOTAL_FIXED_SIZE_V1)
      as [_|Hge]; [reflexivity | lia].
  - intros Hge H12 H23 H34 H4.
    destruct (Z.ltb_spec clen LHDC_EXTEND_FUNC_CONFIG_TOTAL_FIXED_SIZE_V1)
      as [Hlt|_]; [lia|].
    fold h1 h2 h3 h4.
    destruct (swapInt64toByteArray_bytes pucConfig h1 (codec_specific_1 a2dpCfg))
      as (b1 & -> & Hl1 & Hv1 & Hk1); [lia|]. cbn [negb].
    destruct (swapInt64toByteArray_bytes b1 h2 (codec_specific_2 a2dpCfg))
      as (b2 & -> & Hl2 & Hv2 & Hk2); [lia|]. cbn [negb].
    destruct (swapInt64toByteArray_bytes b2 h3 (codec_specific_3 a2dpCfg))
      as (b3 & -> & Hl3 & Hv3 & Hk3); [lia|]. cbn [negb].
    destruct (swapInt64toByteArray_bytes b3 h4 (codec_specific_4 a2dpCfg))
      as (b4 & -> & Hl4 & Hv4 & Hk4); [lia|]. cbn [negb].
    exists b4. split; [reflexivity|]. split; [lia|].
    split.
    { rewrite <- Hv1. f_equal.
      rewrite (field_kept b3 b4), (field_kept b2 b3), (field_kept b1 b2);
        [reflexivity| | |]; intros i Hi;
        [apply Hk2 | apply Hk3 | apply Hk4]; lia. }
    split.
    { rewrite <- Hv2. f_equal.
      rewrite (field_kept b3 b4), (field_kept b2 b3);
        [reflexivity| |]; intros i Hi; [apply Hk3 | apply Hk4]; lia. }
    split.
    { rewrite <- Hv3. f_equal.
      rewrite (field_kept b3 b4); [reflexivity|].
      intros i Hi. apply Hk4. lia. }
    split; [exact Hv4|].
    intros i Hi. rewrite Hk4, Hk3, Hk2, Hk1 by lia. reflexivity.
Qed.

End LhdcExtendFacts.

(** X29 on a ten-byte buffer, the pointer at offset 1. *)
Lemma swapInt64toByteArray_round_trip_witness :
  exists buffer',
    swapInt64toByteArray [9; 9; 9; 9; 9; 9; 9; 9; 9; 9] (Some 1%nat) 258
    = (true, buffer') /\
    big_endian (take 8 (drop 1 buffer')) = 258 /\
    take 1 buffer' = [9] /\ drop 9 buffer' = [9].
Proof.
  destruct (swapInt64toByteArray_round_trip [9; 9; 9; 9; 9; 9; 9; 9; 9; 9] 1 258)
    as (buffer' & Hcall & _ & Hv & Hpre & Hpost); [simpl; lia|].
  exists buffer'. repeat split; assumption.
Defined.

(** X30 on the sample layout: a payload of 41 bytes with the fields at 9,
    17, 25 and 33. *)
Lemma getLHDCA2DPSpecficV1_outcome_witness :
  exists buffer',
    @getLHDCA2DPSpecficV1 sample_lhdc_extend_constants
      (user_config_specific_4 7) (replicate 41 0) 41 = (true, buffer') /\
    big_endian (take 8 (drop 33 buffer')) = 7 /\
    buffer' !! 0%nat = Some 0.
Proof.
  destruct (proj2 (@getLHDCA2DPSpecficV1_outcome sample_lhdc_extend_constants
                     (user_config_specific_4 7) (replicate 41 0) 41))
    as (buffer' & Hcall & _ & _ & _ & _ & Hv & Hkeep);
    try (vm_compute; lia); try (vm_compute; discriminate).
  exists buffer'. split; [exact Hcall|]. split; [exact Hv|].
  rewrite Hkeep; [reflexivity|]. left. vm_compute. lia.
Defined.
